(** * Smart playlist WHERE-clause compiler (xbmc/playlists/SmartPlayList.cpp)

    A shallow embedding of the rule, rule-combination and playlist compilers
    of [SmartPlayList.cpp], and the properties of its specification that
    were checked against it. *)

From Stdlib Require Import ZArith Ascii String List Bool Lia.
From Stdlib Require Import Numbers.DecimalString.
From stdpp Require Import base gmap sets strings list.

Local Open Scope Z_scope.

(** ** Strings as the C++ code uses them *)

Module Str.

Definition empty (s : string) : bool :=
  match s with EmptyString => true | String _ _ => false end.

(** [std::string::c_str] read back by a [%s] conversion: the bytes up to
    the first NUL. *)
Fixpoint c_str (s : string) : string :=
  match s with
  | EmptyString => EmptyString
  | String c s' => if Ascii.eqb c Ascii.zero then EmptyString else String c (c_str s')
  end.

(** [%i] and [%li] of [StringUtils::Format]. *)
Definition of_Z (z : Z) : string := NilEmpty.string_of_int (Z.to_int z).

Definition tolower (c : ascii) : ascii :=
  let n := nat_of_ascii c in
  if (65 <=? n)%nat && (n <=? 90)%nat then ascii_of_nat (n + 32) else c.

Fixpoint eq_nocase (a b : string) : bool :=
  match a, b with
  | EmptyString, EmptyString => true
  | String x a', String y b' => Ascii.eqb (tolower x) (tolower y) && eq_nocase a' b'
  | _, _ => false
  end.

(** [StringUtils::EqualsNoCase] on the two C strings: byte-wise comparison
    after lower-casing, up to the terminating NUL. *)
Definition EqualsNoCase (a b : string) : bool := eq_nocase (c_str a) (c_str b).

Fixpoint drop (n : nat) (s : string) : string :=
  match n, s with
  | O, _ => s
  | S n', String _ s' => drop n' s'
  | S _, EmptyString => EmptyString
  end.

(** The scan of [StringUtils::Replace]: left to right, resuming after each
    replaced occurrence.  [fuel] bounds the number of positions visited. *)
Fixpoint replace_from (fuel : nat) (old new s : string) : string :=
  match fuel with
  | O => s
  | S fuel' =>
      match s with
      | EmptyString => EmptyString
      | String c s' =>
          if String.prefix old s
          then new +:+ replace_from fuel' old new (drop (String.length old) s)
          else String c (replace_from fuel' old new s')
      end
  end.

(** [StringUtils::Replace(str, oldStr, newStr)]; an empty [oldStr] leaves
    the string as it is. *)
Definition Replace (s old new : string) : string :=
  if empty old then s else replace_from (String.length s) old new s.

Definition empty_list {A : Type} (l : list A) : bool :=
  match l with [] => true | _ :: _ => false end.

(** Substring test, used to state which fragments an output holds. *)
Fixpoint contains (needle s : string) : bool :=
  String.prefix needle s ||
  match s with
  | EmptyString => false
  | String _ s' => contains needle s'
  end.

(** [sep]-separated concatenation. *)
Fixpoint join (sep : string) (l : list string) : string :=
  match l with
  | [] => EmptyString
  | [x] => x
  | x :: l' => x +:+ sep +:+ join sep l'
  end.

(** [sep c1 sep c2 ...]: what follows the first element of a join. *)
Fixpoint joinTail (sep : string) (l : list string) : string :=
  match l with
  | [] => ""
  | c :: l' => sep +:+ c +:+ joinTail sep l'
  end.

End Str.

(** ** The C library pieces of [GetVideoResolutionQuery] *)

Module C.

Definition INT_MAX : Z := 2147483647.
Definition LONG_MAX : Z := 9223372036854775807.
Definition LONG_MIN : Z := -9223372036854775808.

Definition isspace (c : ascii) : bool :=
  let n := nat_of_ascii c in
  (n =? 32)%nat || ((9 <=? n)%nat && (n <=? 13)%nat).

Definition digit (c : ascii) : option Z :=
  let n := nat_of_ascii c in
  if (48 <=? n)%nat && (n <=? 57)%nat then Some (Z.of_nat n - 48) else None.

Fixpoint skip_space (s : string) : string :=
  match s with
  | String c s' => if isspace c then skip_space s' else s
  | EmptyString => s
  end.

Fixpoint digits (s : string) (acc : Z) : Z :=
  match s with
  | String c s' =>
      match digit c with
      | Some d => digits s' (acc * 10 + d)
      | None => acc
      end
  | EmptyString => acc
  end.

Definition clamp_long (z : Z) : Z :=
  if z <? LONG_MIN then LONG_MIN else if LONG_MAX <? z then LONG_MAX else z.

(** [std::strtol(s, NULL, 10)] with a 64-bit [long]: leading white space,
    an optional sign, the longest run of decimal digits (none gives 0),
    saturating at the range of [long]. *)
Definition strtol10 (s : string) : Z :=
  match skip_space s with
  | String "-"%char s' => clamp_long (- digits s' 0)
  | String "+"%char s' => clamp_long (digits s' 0)
  | s' => clamp_long (digits s' 0)
  end.

(** The cast [(int)] of a [long]: reduction modulo 2^32 into the signed
    range. *)
Definition to_int (z : Z) : Z := (z + 2147483648) mod 4294967296 - 2147483648.

End C.

(** ** Fields, operators and rules *)

(** The [Field] identifiers this file uses (the rows of its [fields] table,
    and [FieldUnknown] and [FieldId]). *)
Inductive Field : Set :=
  | FieldUnknown | FieldNone | FieldId
  | FieldFilename | FieldPath | FieldAlbum | FieldAlbumArtist | FieldArtist
  | FieldTrackNumber | FieldRole | FieldComment | FieldReview | FieldThemes
  | FieldMoods | FieldStyles | FieldAlbumType | FieldCompilation
  | FieldMusicLabel | FieldTitle | FieldSortTitle | FieldOriginalTitle
  | FieldYear | FieldTime | FieldPlaycount | FieldLastPlayed | FieldInProgress
  | FieldRating | FieldUserRating | FieldVotes | FieldTop250 | FieldMPAA
  | FieldDateAdded | FieldGenre | FieldPlot | FieldPlotOutline | FieldTagline
  | FieldSet | FieldDirector | FieldActor | FieldWriter | FieldAirDate
  | FieldTrailer | FieldStudio | FieldCountry | FieldTvShowTitle
  | FieldTvShowStatus | FieldSeason | FieldEpisodeNumber
  | FieldNumberOfEpisodes | FieldNumberOfWatchedEpisodes
  | FieldVideoResolution | FieldVideoCodec | FieldVideoAspectRatio
  | FieldAudioChannels | FieldAudioCodec | FieldAudioLanguage
  | FieldAudioCount | FieldSubtitleCount | FieldSubtitleLanguage
  | FieldRandom | FieldPlaylist | FieldVirtualFolder | FieldTag
  | FieldInstruments | FieldBiography | FieldBorn | FieldBandFormed
  | FieldDisbanded | FieldDied | FieldArtistType | FieldGender
  | FieldDisambiguation | FieldSource | FieldDiscTitle | FieldIsBoxset
  | FieldTotalDiscs | FieldArtistId | FieldAlbumId | FieldSongId
  | FieldSourceId | FieldGenreId | FieldArtistGenre | FieldArtistLastScrape
  | FieldArtistMBId | FieldArtistMoods | FieldBornFormed | FieldDiedDisband
  | FieldYearsActive | FieldAlbumGenre | FieldAlbumLastScrape | FieldAlbumMBId
  | FieldReleaseGroupMBId | FieldAlbumMoods | FieldAlbumStyles
  | FieldAlbumRating | FieldAlbumUserRating | FieldAlbumVotes | FieldAlbumYear.

(** [CDatabaseQueryRule::SEARCH_OPERATOR]. *)
Inductive SEARCH_OPERATOR : Set :=
  | OPERATOR_START | OPERATOR_CONTAINS | OPERATOR_DOES_NOT_CONTAIN
  | OPERATOR_EQUALS | OPERATOR_DOES_NOT_EQUAL | OPERATOR_STARTS_WITH
  | OPERATOR_ENDS_WITH | OPERATOR_GREATER_THAN | OPERATOR_LESS_THAN
  | OPERATOR_AFTER | OPERATOR_BEFORE | OPERATOR_IN_THE_LAST
  | OPERATOR_NOT_IN_THE_LAST | OPERATOR_TRUE | OPERATOR_FALSE
  | OPERATOR_BETWEEN | OPERATOR_END.

(** The position of a field in the enumeration; it decides equality of
    fields. *)
Definition Field_tag (f : Field) : positive :=
  match f with
  | FieldUnknown => 1 | FieldNone => 2 | FieldId => 3 | FieldFilename => 4
  | FieldPath => 5 | FieldAlbum => 6 | FieldAlbumArtist => 7
  | FieldArtist => 8 | FieldTrackNumber => 9 | FieldRole => 10
  | FieldComment => 11 | FieldReview => 12 | FieldThemes => 13
  | FieldMoods => 14 | FieldStyles => 15 | FieldAlbumType => 16
  | FieldCompilation => 17 | FieldMusicLabel => 18 | FieldTitle => 19
  | FieldSortTitle => 20 | FieldOriginalTitle => 21 | FieldYear => 22
  | FieldTime => 23 | FieldPlaycount => 24 | FieldLastPlayed => 25
  | FieldInProgress => 26 | FieldRating => 27 | FieldUserRating => 28
  | FieldVotes => 29 | FieldTop250 => 30 | FieldMPAA => 31
  | FieldDateAdded => 32 | FieldGenre => 33 | FieldPlot => 34
  | FieldPlotOutline => 35 | FieldTagline => 36 | FieldSet => 37
  | FieldDirector => 38 | FieldActor => 39 | FieldWriter => 40
  | FieldAirDate => 41 | FieldTrailer => 42 | FieldStudio => 43
  | FieldCountry => 44 | FieldTvShowTitle => 45 | FieldTvShowStatus => 46
  | FieldSeason => 47 | FieldEpisodeNumber => 48 | FieldNumberOfEpisodes => 49
  | FieldNumberOfWatchedEpisodes => 50 | FieldVideoResolution => 51
  | FieldVideoCodec => 52 | FieldVideoAspectRatio => 53
  | FieldAudioChannels => 54 | FieldAudioCodec => 55
  | FieldAudioLanguage => 56 | FieldAudioCount => 57
  | FieldSubtitleCount => 58 | FieldSubtitleLanguage => 59 | FieldRandom => 60
  | FieldPlaylist => 61 | FieldVirtualFolder => 62 | FieldTag => 63
  | FieldInstruments => 64 | FieldBiography => 65 | FieldBorn => 66
  | FieldBandFormed => 67 | FieldDisbanded => 68 | FieldDied => 69
  | FieldArtistType => 70 | FieldGender => 71 | FieldDisambiguation => 72
  | FieldSource => 73 | FieldDiscTitle => 74 | FieldIsBoxset => 75
  | FieldTotalDiscs => 76 | FieldArtistId => 77 | FieldAlbumId => 78
  | FieldSongId => 79 | FieldSourceId => 80 | FieldGenreId => 81
  | FieldArtistGenre => 82 | FieldArtistLastScrape => 83
  | FieldArtistMBId => 84 | FieldArtistMoods => 85 | FieldBornFormed => 86
  | FieldDiedDisband => 87 | FieldYearsActive => 88 | FieldAlbumGenre => 89
  | FieldAlbumLastScrape => 90 | FieldAlbumMBId => 91
  | FieldReleaseGroupMBId => 92 | FieldAlbumMoods => 93
  | FieldAlbumStyles => 94 | FieldAlbumRating => 95
  | FieldAlbumUserRating => 96 | FieldAlbumVotes => 97 | FieldAlbumYear => 98
  end%positive.

Definition Field_of_tag (p : positive) : Field :=
  match p with
  | 1 => FieldUnknown | 2 => FieldNone | 3 => FieldId | 4 => FieldFilename
  | 5 => FieldPath | 6 => FieldAlbum | 7 => FieldAlbumArtist
  | 8 => FieldArtist | 9 => FieldTrackNumber | 10 => FieldRole
  | 11 => FieldComment | 12 => FieldReview | 13 => FieldThemes
  | 14 => FieldMoods | 15 => FieldStyles | 16 => FieldAlbumType
  | 17 => FieldCompilation | 18 => FieldMusicLabel | 19 => FieldTitle
  | 20 => FieldSortTitle | 21 => FieldOriginalTitle | 22 => FieldYear
  | 23 => FieldTime | 24 => FieldPlaycount | 25 => FieldLastPlayed
  | 26 => FieldInProgress | 27 => FieldRating | 28 => FieldUserRating
  | 29 => FieldVotes | 30 => FieldTop250 | 31 => FieldMPAA
  | 32 => FieldDateAdded | 33 => FieldGenre | 34 => FieldPlot
  | 35 => FieldPlotOutline | 36 => FieldTagline | 37 => FieldSet
  | 38 => FieldDirector | 39 => FieldActor | 40 => FieldWriter
  | 41 => FieldAirDate | 42 => FieldTrailer | 43 => FieldStudio
  | 44 => FieldCountry | 45 => FieldTvShowTitle | 46 => FieldTvShowStatus
  | 47 => FieldSeason | 48 => FieldEpisodeNumber | 49 => FieldNumberOfEpisodes
  | 50 => FieldNumberOfWatchedEpisodes | 51 => FieldVideoResolution
  | 52 => FieldVideoCodec | 53 => FieldVideoAspectRatio
  | 54 => FieldAudioChannels | 55 => FieldAudioCodec
  | 56 => FieldAudioLanguage | 57 => FieldAudioCount
  | 58 => FieldSubtitleCount | 59 => FieldSubtitleLanguage | 60 => FieldRandom
  | 61 => FieldPlaylist | 62 => FieldVirtualFolder | 63 => FieldTag
  | 64 => FieldInstruments | 65 => FieldBiography | 66 => FieldBorn
  | 67 => FieldBandFormed | 68 => FieldDisbanded | 69 => FieldDied
  | 70 => FieldArtistType | 71 => FieldGender | 72 => FieldDisambiguation
  | 73 => FieldSource | 74 => FieldDiscTitle | 75 => FieldIsBoxset
  | 76 => FieldTotalDiscs | 77 => FieldArtistId | 78 => FieldAlbumId
  | 79 => FieldSongId | 80 => FieldSourceId | 81 => FieldGenreId
  | 82 => FieldArtistGenre | 83 => FieldArtistLastScrape
  | 84 => FieldArtistMBId | 85 => FieldArtistMoods | 86 => FieldBornFormed
  | 87 => FieldDiedDisband | 88 => FieldYearsActive | 89 => FieldAlbumGenre
  | 90 => FieldAlbumLastScrape | 91 => FieldAlbumMBId
  | 92 => FieldReleaseGroupMBId | 93 => FieldAlbumMoods
  | 94 => FieldAlbumStyles | 95 => FieldAlbumRating
  | 96 => FieldAlbumUserRating | 97 => FieldAlbumVotes | 98 => FieldAlbumYear
  | _ => FieldUnknown
  end%positive.

Definition Field_eqb (f g : Field) : bool := Pos.eqb (Field_tag f) (Field_tag g).

Scheme Equality for SEARCH_OPERATOR.

Definition op_eqb := SEARCH_OPERATOR_beq.

(** The data members of [CDatabaseQueryRule] that the compiler reads. *)
Record CSmartPlaylistRule : Type := mkRule {
  m_field : Field;
  m_operator : SEARCH_OPERATOR;
  m_parameter : list string
}.

(** [CDatabaseQueryRuleCombination::combination]. *)
Inductive combination : Set := CombinationOr | CombinationAnd.

Definition isAnd (t : combination) : bool :=
  match t with CombinationAnd => true | CombinationOr => false end.

(** A rule combination: its type, its child combinations and its rules. *)
#[warnings="-register-all"]
Inductive CSmartPlaylistRuleCombination : Type := mkCombination {
  m_type : combination;
  m_combinations : list CSmartPlaylistRuleCombination;
  m_rules : list CSmartPlaylistRule
}.

(** The data members of [CSmartPlaylist] that the compiler reads. *)
Record CSmartPlaylist : Type := mkPlaylist {
  m_playlistName : string;
  m_playlistType : string;
  m_ruleCombination : CSmartPlaylistRuleCombination
}.

(** [CDatabaseQueryRule::FIELD_TYPE]. *)
Inductive FIELD_TYPE : Set :=
  | TEXT_FIELD | REAL_FIELD | NUMERIC_FIELD | DATE_FIELD | PLAYLIST_FIELD
  | SECONDS_FIELD | BOOLEAN_FIELD | TEXTIN_FIELD.

(** The validators the [fields] table points to. *)
Inductive Validator : Set :=
  | IsPositiveInteger | IsTime | ValidateRating | ValidateMyRating.

(** The [SortBy] methods that [GetOrders] offers. *)
Inductive SortBy : Set :=
  | SortByNone | SortByGenre | SortByAlbum | SortByArtist | SortByTitle
  | SortByYear | SortByTime | SortByTrackNumber | SortByFile | SortByPath
  | SortByPlaycount | SortByLastPlayed | SortByRating | SortByUserRating
  | SortByTotalDiscs | SortByAlbumType | SortBySortTitle | SortByTvShowStatus
  | SortByVotes | SortByNumberOfEpisodes | SortByNumberOfWatchedEpisodes
  | SortByStudio | SortByMPAA | SortByDateAdded | SortByTvShowTitle
  | SortByEpisodeNumber | SortBySeason | SortByCountry | SortByTop250
  | SortByRandom.

#[global] Instance SortBy_eq_dec : EqDecision SortBy.
Proof. solve_decision. Defined.

(** ** Collaborators

    The compiler calls into the database layer, the base class
    [CDatabaseQueryRule], [DatabaseUtils], [CMediaTypes] and the playlist
    directory.  Their code is outside this file; the compiler is embedded
    over any implementation of them. *)
Class Externals : Type := {
  (** the media type tags of [MediaType.h] *)
  MediaTypeNone : string;
  MediaTypeMusic : string;
  MediaTypeArtist : string;
  MediaTypeAlbum : string;
  MediaTypeSong : string;
  MediaTypeMovie : string;
  MediaTypeMusicVideo : string;
  MediaTypeTvShow : string;
  MediaTypeEpisode : string;
  (** [CMediaTypes::FromString] *)
  FromString : string -> string;
  (** [DatabaseUtils::GetField(field, mediaType, DatabaseQueryPartWhere)] *)
  DatabaseUtils_GetField : Field -> string -> string;
  (** [DatabaseUtils::GetNativeTable(field, mediaType)] *)
  DatabaseUtils_GetNativeTable : Field -> string -> string;
  (** [CDatabase::PrepareSQL] with one string, and with one integer, argument *)
  PrepareSQL : string -> string -> string;
  PrepareSQL_int : string -> Z -> string;
  (** [StringUtils::TimeStringToSeconds] *)
  TimeStringToSeconds : string -> Z;
  (** [CStreamDetail::AUDIO] and [CStreamDetail::SUBTITLE] *)
  StreamAUDIO : Z;
  StreamSUBTITLE : Z;
  (** [CDatabaseQueryRule::FormatParameter(operatorString, param, db, strType)] *)
  Base_FormatParameter : CSmartPlaylistRule -> string -> string -> string -> string;
  (** [CDatabaseQueryRule::FormatWhereClause(negate, oper, param, db, strType)] *)
  Base_FormatWhereClause :
    CSmartPlaylistRule -> string -> string -> string -> string -> string;
  (** [CDatabaseQueryRule::FormatParameters(negate, oper, db, strType)] *)
  Base_FormatParameters : CSmartPlaylistRule -> string -> string -> string -> string;
  (** [CDatabaseQueryRule::GetWhereClause(db, strType)] of a single rule *)
  Rule_GetWhereClause : CSmartPlaylistRule -> string -> string;
  (** [CSmartPlaylistDirectory::GetPlaylistByName(name, playlistType)]: the
      file of the playlist, empty when there is none *)
  GetPlaylistByName : string -> string -> string
}.

(** ** [CDatabase::ExistsSubQuery] *)

Module ExistsSubQuery.

(** Modelled from the spec: [CDatabase::ExistsSubQuery] is declared in
    [dbwrappers/Database.h], which is not among the sources.  It builds the
    correlated subqueries of sections 4.2 and 4.4,
    [EXISTS (SELECT 1 FROM <table> <joins> WHERE <correlation> AND <where>)]:
    [param] is the correlation given at construction, [join] and [where]
    are appended to, and [where] is cleared by the compiler between uses. *)
Record t : Type := mk {
  tablename : string;
  param : string;
  join : string;
  where_ : string
}.

Definition make (table parameter : string) : t :=
  {| tablename := table; param := parameter; join := ""; where_ := "" |}.

Definition set_where (q : t) (w : string) : t :=
  {| tablename := tablename q; param := param q; join := join q; where_ := w |}.

(** Modelled from the spec: [ExistsSubQuery::AppendJoin]; an empty join is
    ignored, others are appended after a space. *)
Definition AppendJoin (q : t) (strJoin : string) : t :=
  if Str.empty strJoin then q
  else {| tablename := tablename q; param := param q;
          join := join q +:+ " " +:+ strJoin; where_ := where_ q |}.

(** Modelled from the spec: [ExistsSubQuery::AppendWhere] with its default
    [combineWithAnd = true]; an empty condition is ignored, the first one is
    taken as it is, later ones are joined by AND. *)
Definition AppendWhere (q : t) (strWhere : string) : t :=
  if Str.empty strWhere then q
  else if Str.empty (where_ q) then set_where q strWhere
  else set_where q (where_ q +:+ " AND " +:+ strWhere).

(** Modelled from the spec: [ExistsSubQuery::BuildSQL(strSQL)]; without a
    table name [strSQL] keeps its value. *)
Definition BuildSQL (q : t) (strSQL : string) : string :=
  if Str.empty (tablename q) then strSQL
  else
    let strSQL := "EXISTS (SELECT 1 FROM " +:+ tablename q in
    let strSQL := if negb (Str.empty (join q)) then strSQL +:+ join q else strSQL in
    let strWhere := if negb (Str.empty (param q)) then param q else "" in
    let strWhere :=
      if negb (Str.empty (where_ q))
      then (if negb (Str.empty strWhere) then strWhere +:+ " AND " else strWhere)
             +:+ where_ q
      else strWhere in
    let strSQL :=
      if negb (Str.empty strWhere) then strSQL +:+ " WHERE " +:+ strWhere else strSQL in
    strSQL +:+ ")".

End ExistsSubQuery.

(** ** [CSmartPlaylistRule] *)

Module Rule.
Section Rule.
Context {ext : Externals}.

Definition INT_MAX := C.INT_MAX.

(** The width band chosen by [GetVideoResolutionQuery]. *)
Definition band (iRes : Z) : Z * Z :=
  if 2160 <=? iRes then (1921, INT_MAX)
  else if 1080 <=? iRes then (1281, 1920)
  else if 720 <=? iRes then (961, 1280)
  else if 540 <=? iRes then (721, 960)
  else (0, 720).

Definition GetVideoResolutionQuery (r : CSmartPlaylistRule) (parameter : string) : string :=
  let retVal := " IN (SELECT DISTINCT idFile FROM streamdetails WHERE iVideoWidth " in
  let iRes := C.to_int (C.strtol10 parameter) in
  let '(min, max) := band iRes in
  let retVal :=
    match m_operator r with
    | OPERATOR_EQUALS =>
        retVal +:+ (">= " +:+ Str.of_Z min +:+ " AND iVideoWidth <= " +:+ Str.of_Z max)
    | OPERATOR_DOES_NOT_EQUAL =>
        retVal +:+ ("< " +:+ Str.of_Z min +:+ " OR iVideoWidth > " +:+ Str.of_Z max)
    | OPERATOR_LESS_THAN => retVal +:+ ("< " +:+ Str.of_Z min)
    | OPERATOR_GREATER_THAN => retVal +:+ ("> " +:+ Str.of_Z max)
    | _ => retVal
    end in
  retVal +:+ ")".

(** [GetField(field, type)]; every [Field] lies between [FieldUnknown] and
    [FieldMax], so the range check of the source always passes. *)
Definition GetField (field : Field) (type : string) : string :=
  DatabaseUtils_GetField field (FromString type).

Definition FormatParameter (r : CSmartPlaylistRule)
    (operatorString param strType : string) : string :=
  if Field_eqb (m_field r) FieldTime
  then
    let seconds := Str.of_Z (TimeStringToSeconds param) in
    PrepareSQL (Str.c_str operatorString) (Str.c_str seconds)
  else Base_FormatParameter r operatorString param strType.

Definition FormatLinkQuery (field table mediaType mediaField parameter : string) : string :=
  " EXISTS (SELECT 1 FROM " +:+ field +:+ "_link" +:+
  "         JOIN " +:+ table +:+ " ON " +:+ table +:+ "." +:+ table +:+ "_id=" +:+
  field +:+ "_link." +:+ table +:+ "_id" +:+
  "         WHERE " +:+ field +:+ "_link.media_id=" +:+ Str.c_str mediaField +:+
  " AND " +:+ table +:+ ".name " +:+ Str.c_str parameter +:+
  " AND " +:+ field +:+ "_link.media_type = '" +:+ Str.c_str mediaType +:+ "')".

(** [m_operator] is less-than, before or not-in-the-last. *)
Definition isBeforeOperator (r : CSmartPlaylistRule) : bool :=
  op_eqb (m_operator r) OPERATOR_LESS_THAN ||
  op_eqb (m_operator r) OPERATOR_BEFORE ||
  op_eqb (m_operator r) OPERATOR_NOT_IN_THE_LAST.

(** [GetFields(type)]: the fields offered for a media type. *)
Definition GetFields (type : string) : list Field :=
  let '(fields, isVideo) :=
    if String.eqb type "mixed" then
      ([FieldGenre; FieldAlbum; FieldArtist; FieldAlbumArtist; FieldTitle;
        FieldOriginalTitle; FieldYear; FieldTime; FieldTrackNumber; FieldFilename;
        FieldPath; FieldPlaycount; FieldLastPlayed],
       false)
    else if String.eqb type "songs" then
      ([FieldGenre; FieldSource; FieldAlbum; FieldDiscTitle; FieldArtist;
        FieldAlbumArtist; FieldTitle; FieldYear; FieldTime; FieldTrackNumber;
        FieldFilename; FieldPath; FieldPlaycount; FieldLastPlayed; FieldRating;
        FieldUserRating; FieldComment; FieldMoods],
       false)
    else if String.eqb type "albums" then
      ([FieldGenre; FieldSource; FieldAlbum; FieldDiscTitle; FieldTotalDiscs;
        FieldIsBoxset; FieldArtist; FieldAlbumArtist; FieldYear; FieldReview;
        FieldThemes; FieldMoods; FieldStyles; FieldCompilation; FieldAlbumType;
        FieldMusicLabel; FieldRating; FieldUserRating; FieldPlaycount;
        FieldLastPlayed; FieldPath],
       false)
    else if String.eqb type "artists" then
      ([FieldArtist; FieldSource; FieldGenre; FieldMoods; FieldStyles;
        FieldInstruments; FieldBiography; FieldArtistType; FieldGender;
        FieldDisambiguation; FieldBorn; FieldBandFormed; FieldDisbanded; FieldDied;
        FieldRole; FieldPath; FieldTime],
       false)
    else if String.eqb type "tvshows" then
      ([FieldTitle; FieldOriginalTitle; FieldPlot; FieldTvShowStatus; FieldVotes;
        FieldRating; FieldUserRating; FieldYear; FieldGenre; FieldDirector;
        FieldActor; FieldNumberOfEpisodes; FieldNumberOfWatchedEpisodes;
        FieldPlaycount; FieldPath; FieldStudio; FieldMPAA; FieldDateAdded;
        FieldLastPlayed; FieldInProgress; FieldTag],
       false)
    else if String.eqb type "episodes" then
      ([FieldTitle; FieldTvShowTitle; FieldOriginalTitle; FieldPlot; FieldVotes;
        FieldRating; FieldUserRating; FieldTime; FieldWriter; FieldAirDate;
        FieldPlaycount; FieldLastPlayed; FieldInProgress; FieldGenre; FieldYear;
        FieldDirector; FieldActor; FieldEpisodeNumber; FieldSeason; FieldFilename;
        FieldPath; FieldStudio; FieldMPAA; FieldDateAdded; FieldTag],
       true)
    else if String.eqb type "movies" then
      ([FieldTitle; FieldOriginalTitle; FieldPlot; FieldPlotOutline; FieldTagline;
        FieldVotes; FieldRating; FieldUserRating; FieldTime; FieldWriter;
        FieldPlaycount; FieldLastPlayed; FieldInProgress; FieldGenre; FieldCountry;
        FieldYear; FieldDirector; FieldActor; FieldMPAA; FieldTop250; FieldStudio;
        FieldTrailer; FieldFilename; FieldPath; FieldSet; FieldTag; FieldDateAdded],
       true)
    else if String.eqb type "musicvideos" then
      ([FieldTitle; FieldGenre; FieldAlbum; FieldYear; FieldArtist; FieldFilename;
        FieldPath; FieldPlaycount; FieldLastPlayed; FieldRating; FieldUserRating;
        FieldTime; FieldDirector; FieldStudio; FieldPlot; FieldTag; FieldDateAdded],
       true)
    else ([], false) in
  let fields :=
    if isVideo
    then fields ++
      [FieldVideoResolution; FieldAudioChannels; FieldAudioCount;
       FieldSubtitleCount; FieldVideoCodec; FieldAudioCodec; FieldAudioLanguage;
       FieldSubtitleLanguage; FieldVideoAspectRatio]
    else fields in
  fields ++ [FieldPlaylist; FieldVirtualFolder].

(** The branches of [FormatWhereClause] on the media type: the view, and
    the query the branch builds (empty when no case of the branch applies). *)
Definition typeBranch (r : CSmartPlaylistRule) (negate parameter strType : string)
    : string * string :=
  let fld f := Field_eqb (m_field r) f in
  let id := GetField FieldId strType in
  let self := GetField (m_field r) strType in
  if String.eqb strType "songs" then
    ("songview",
     if fld FieldLastPlayed && isBeforeOperator r
     then self +:+ " is NULL or " +:+ self +:+ parameter
     else "")
  else if String.eqb strType "albums" then
    ("albumview",
     if fld FieldLastPlayed && isBeforeOperator r
     then self +:+ " is NULL or " +:+ self +:+ parameter
     else if fld FieldDiscTitle
     then negate +:+ " EXISTS (SELECT 1 FROM song WHERE song.idAlbum = " +:+ id +:+
          " AND song.strDiscSubtitle" +:+ parameter +:+ ")"
     else "")
  else if String.eqb strType "artists" then
    ("artistview", "")
  else if String.eqb strType "movies" then
    ("movie_view",
     if fld FieldGenre
     then negate +:+ FormatLinkQuery "genre" "genre" MediaTypeMovie id parameter
     else if fld FieldDirector
     then negate +:+ FormatLinkQuery "director" "actor" MediaTypeMovie id parameter
     else if fld FieldActor
     then negate +:+ FormatLinkQuery "actor" "actor" MediaTypeMovie id parameter
     else if fld FieldWriter
     then negate +:+ FormatLinkQuery "writer" "actor" MediaTypeMovie id parameter
     else if fld FieldStudio
     then negate +:+ FormatLinkQuery "studio" "studio" MediaTypeMovie id parameter
     else if fld FieldCountry
     then negate +:+ FormatLinkQuery "country" "country" MediaTypeMovie id parameter
     else if (fld FieldLastPlayed || fld FieldDateAdded) && isBeforeOperator r
     then self +:+ " IS NULL OR " +:+ self +:+ parameter
     else if fld FieldTag
     then negate +:+ FormatLinkQuery "tag" "tag" MediaTypeMovie id parameter
     else "")
  else if String.eqb strType "musicvideos" then
    ("musicvideo_view",
     if fld FieldGenre
     then negate +:+ FormatLinkQuery "genre" "genre" MediaTypeMusicVideo id parameter
     else if fld FieldArtist || fld FieldAlbumArtist
     then negate +:+ FormatLinkQuery "actor" "actor" MediaTypeMusicVideo id parameter
     else if fld FieldStudio
     then negate +:+ FormatLinkQuery "studio" "studio" MediaTypeMusicVideo id parameter
     else if fld FieldDirector
     then negate +:+ FormatLinkQuery "director" "actor" MediaTypeMusicVideo id parameter
     else if (fld FieldLastPlayed || fld FieldDateAdded) && isBeforeOperator r
     then self +:+ " IS NULL OR " +:+ self +:+ parameter
     else if fld FieldTag
     then negate +:+ FormatLinkQuery "tag" "tag" MediaTypeMusicVideo id parameter
     else "")
  else if String.eqb strType "tvshows" then
    ("tvshow_view",
     if fld FieldGenre
     then negate +:+ FormatLinkQuery "genre" "genre" MediaTypeTvShow id parameter
     else if fld FieldDirector
     then negate +:+ FormatLinkQuery "director" "actor" MediaTypeTvShow id parameter
     else if fld FieldActor
     then negate +:+ FormatLinkQuery "actor" "actor" MediaTypeTvShow id parameter
     else if fld FieldStudio
     then negate +:+ FormatLinkQuery "studio" "studio" MediaTypeTvShow id parameter
     else if fld FieldMPAA
     then negate +:+ " (" +:+ self +:+ parameter +:+ ")"
     else if (fld FieldLastPlayed || fld FieldDateAdded) && isBeforeOperator r
     then self +:+ " IS NULL OR " +:+ self +:+ parameter
     else if fld FieldPlaycount
     then "CASE WHEN COALESCE(" +:+ GetField FieldNumberOfEpisodes strType +:+ " - " +:+
          GetField FieldNumberOfWatchedEpisodes strType +:+
          ", 0) > 0 THEN 0 ELSE 1 END " +:+ parameter
     else if fld FieldTag
     then negate +:+ FormatLinkQuery "tag" "tag" MediaTypeTvShow id parameter
     else "")
  else if String.eqb strType "episodes" then
    let table := "episode_view" in
    let idShow := Str.c_str (table +:+ ".idShow") in
    (table,
     if fld FieldGenre
     then negate +:+ FormatLinkQuery "genre" "genre" MediaTypeTvShow idShow parameter
     else if fld FieldTag
     then negate +:+ FormatLinkQuery "tag" "tag" MediaTypeTvShow idShow parameter
     else if fld FieldDirector
     then negate +:+ FormatLinkQuery "director" "actor" MediaTypeEpisode id parameter
     else if fld FieldActor
     then negate +:+ FormatLinkQuery "actor" "actor" MediaTypeEpisode id parameter
     else if fld FieldWriter
     then negate +:+ FormatLinkQuery "writer" "actor" MediaTypeEpisode id parameter
     else if (fld FieldLastPlayed || fld FieldDateAdded) && isBeforeOperator r
     then self +:+ " IS NULL OR " +:+ self +:+ parameter
     else if fld FieldStudio
     then negate +:+ FormatLinkQuery "studio" "studio" MediaTypeTvShow idShow parameter
     else if fld FieldMPAA
     then negate +:+ " (" +:+ self +:+ parameter +:+ ")"
     else "")
  else ("", "").

(** The stream-detail cases of [FormatWhereClause], which follow the media
    type branches and replace their query. *)
Definition streamBranch (r : CSmartPlaylistRule)
    (negate param parameter table query : string) : string :=
  let fld f := Field_eqb (m_field r) f in
  let details column :=
    negate +:+ " EXISTS (SELECT 1 FROM streamdetails WHERE streamdetails.idFile = " +:+
    table +:+ ".idFile AND " +:+ column +:+ " " +:+ parameter +:+ ")" in
  if fld FieldVideoResolution
  then table +:+ ".idFile" +:+ negate +:+ GetVideoResolutionQuery r param
  else if fld FieldAudioChannels then details "iAudioChannels"
  else if fld FieldVideoCodec then details "strVideoCodec"
  else if fld FieldAudioCodec then details "strAudioCodec"
  else if fld FieldAudioLanguage then details "strAudioLanguage"
  else if fld FieldSubtitleLanguage then details "strSubtitleLanguage"
  else if fld FieldVideoAspectRatio then details "fVideoAspect"
  else if fld FieldAudioCount
  then PrepareSQL_int
         (negate +:+ " EXISTS (SELECT 1 FROM streamdetails WHERE streamdetails.idFile = " +:+
          table +:+ ".idFile AND streamdetails.iStreamtype = %i GROUP BY streamdetails.idFile HAVING COUNT(streamdetails.iStreamType) " +:+
          parameter +:+ ")") StreamAUDIO
  else if fld FieldSubtitleCount
  then PrepareSQL_int
         (negate +:+ " EXISTS (SELECT 1 FROM streamdetails WHERE streamdetails.idFile = " +:+
          table +:+ ".idFile AND streamdetails.iStreamType = %i GROUP BY streamdetails.idFile HAVING COUNT(streamdetails.iStreamType) " +:+
          parameter +:+ ")") StreamSUBTITLE
  else query.

(** The playcount case of [FormatWhereClause]: in the video database the
    play count is NULL or a number. *)
Definition playcountBranch (r : CSmartPlaylistRule)
    (param parameter strType query : string) : string :=
  if Field_eqb (m_field r) FieldPlaycount && negb (String.eqb strType "songs") &&
     negb (String.eqb strType "albums") && negb (String.eqb strType "tvshows")
  then
    if (op_eqb (m_operator r) OPERATOR_EQUALS && String.eqb param "0") ||
       (op_eqb (m_operator r) OPERATOR_DOES_NOT_EQUAL && negb (String.eqb param "0")) ||
       op_eqb (m_operator r) OPERATOR_LESS_THAN
    then
      let field := GetField FieldPlaycount strType in
      field +:+ " IS NULL OR " +:+ field +:+ parameter
    else query
  else query.

Definition FormatWhereClause (r : CSmartPlaylistRule)
    (negate oper param strType : string) : string :=
  let parameter := FormatParameter r oper param strType in
  let '(table, query) := typeBranch r negate parameter strType in
  let query := streamBranch r negate param parameter table query in
  let query := playcountBranch r param parameter strType query in
  if Str.empty query
  then Base_FormatWhereClause r negate oper param strType
  else query.

(** One turn of the parameter loop of [FormatParameters], on the state
    [(wholeQuery, existsQuery)]. *)
Definition gatherStep (r : CSmartPlaylistRule) (negate oper : string)
    (st : string * ExistsSubQuery.t) (it : string) : string * ExistsSubQuery.t :=
  let '(wholeQuery, existsQuery) := st in
  let clause := FormatWhereClause r "" oper it MediaTypeMusic in
  if Str.empty negate
  then
    let wholeQuery :=
      if negb (Str.empty wholeQuery) then wholeQuery +:+ " OR " else wholeQuery in
    (wholeQuery +:+ clause, existsQuery)
  else
    let existsQuery := ExistsSubQuery.AppendWhere existsQuery clause in
    let clause := ExistsSubQuery.BuildSQL existsQuery clause in
    let existsQuery := ExistsSubQuery.set_where existsQuery "" in
    let clause := negate +:+ clause in
    let wholeQuery :=
      if negb (Str.empty wholeQuery) then wholeQuery +:+ " AND " else wholeQuery in
    (wholeQuery +:+ clause, existsQuery).

(** The loop over [m_parameter] and the subquery built after it; the genre
    case of "songs" and the source case of "albums" run the same statements
    on their own [existsQuery]. *)
Definition gatherParameters (r : CSmartPlaylistRule) (negate oper : string)
    (existsQuery : ExistsSubQuery.t) : string :=
  let '(wholeQuery, existsQuery) :=
    fold_left (gatherStep r negate oper) (m_parameter r) ("", existsQuery) in
  if Str.empty negate && negb (Str.empty wholeQuery)
  then
    let wholeQuery :=
      if (1 <? length (m_parameter r))%nat then "(" +:+ wholeQuery +:+ ")" else wholeQuery in
    let existsQuery := ExistsSubQuery.AppendWhere existsQuery wholeQuery in
    ExistsSubQuery.BuildSQL existsQuery wholeQuery
  else wholeQuery.

(** The [existsQuery] of the genre case of "songs", before the loop. *)
Definition genreExistsQuery : ExistsSubQuery.t :=
  let existsQuery :=
    ExistsSubQuery.make "song_genre" "song_genre.idSong = songview.idSong" in
  ExistsSubQuery.AppendJoin existsQuery "JOIN genre ON genre.idGenre = song_genre.idGenre".

Definition FormatParameters (r : CSmartPlaylistRule) (negate oper strType : string)
    : string :=
  let wholeQuery :=
    if String.eqb strType "songs" then
      if Field_eqb (m_field r) FieldGenre then
        gatherParameters r negate oper genreExistsQuery
      else ""
    else if String.eqb strType "albums" then
      if Field_eqb (m_field r) FieldSource then
        let existsQuery :=
          ExistsSubQuery.make "album_source" "album_source.idAlbum = albumview.idAlbum" in
        let existsQuery :=
          ExistsSubQuery.AppendJoin existsQuery
            "JOIN source ON album_source.idSource = source.idSource" in
        gatherParameters r negate oper existsQuery
      else ""
    else "" in
  if Str.empty wholeQuery
  then Base_FormatParameters r negate oper strType
  else wholeQuery.

(** *** The [fields] and [groups] tables and their lookups *)

(** A row of the [fields] table ([translateField]); [None] is the [NULL]
    validator. *)
Record translateField : Set := mkTranslateField {
  tf_string : string;
  tf_field : Field;
  tf_type : FIELD_TYPE;
  tf_validator : option Validator;
  tf_browseable : bool;
  tf_localizedString : Z
}.

Definition fields : list translateField := [
  mkTranslateField "none" FieldNone TEXT_FIELD None false 231;
  mkTranslateField "filename" FieldFilename TEXT_FIELD None false 561;
  mkTranslateField "path" FieldPath TEXT_FIELD None true 573;
  mkTranslateField "album" FieldAlbum TEXT_FIELD None true 558;
  mkTranslateField "albumartist" FieldAlbumArtist TEXT_FIELD None true 566;
  mkTranslateField "artist" FieldArtist TEXT_FIELD None true 557;
  mkTranslateField "tracknumber" FieldTrackNumber NUMERIC_FIELD (Some IsPositiveInteger) false 554;
  mkTranslateField "role" FieldRole TEXT_FIELD None true 38033;
  mkTranslateField "comment" FieldComment TEXT_FIELD None false 569;
  mkTranslateField "review" FieldReview TEXT_FIELD None false 183;
  mkTranslateField "themes" FieldThemes TEXT_FIELD None false 21895;
  mkTranslateField "moods" FieldMoods TEXT_FIELD None false 175;
  mkTranslateField "styles" FieldStyles TEXT_FIELD None false 176;
  mkTranslateField "type" FieldAlbumType TEXT_FIELD None false 564;
  mkTranslateField "compilation" FieldCompilation BOOLEAN_FIELD None false 204;
  mkTranslateField "label" FieldMusicLabel TEXT_FIELD None false 21899;
  mkTranslateField "title" FieldTitle TEXT_FIELD None true 556;
  mkTranslateField "sorttitle" FieldSortTitle TEXT_FIELD None false 171;
  mkTranslateField "originaltitle" FieldOriginalTitle TEXT_FIELD None false 20376;
  mkTranslateField "year" FieldYear NUMERIC_FIELD (Some IsPositiveInteger) true 562;
  mkTranslateField "time" FieldTime SECONDS_FIELD (Some IsTime) false 180;
  mkTranslateField "playcount" FieldPlaycount NUMERIC_FIELD (Some IsPositiveInteger) false 567;
  mkTranslateField "lastplayed" FieldLastPlayed DATE_FIELD None false 568;
  mkTranslateField "inprogress" FieldInProgress BOOLEAN_FIELD None false 575;
  mkTranslateField "rating" FieldRating REAL_FIELD (Some ValidateRating) false 563;
  mkTranslateField "userrating" FieldUserRating REAL_FIELD (Some ValidateMyRating) false 38018;
  mkTranslateField "votes" FieldVotes REAL_FIELD (Some IsPositiveInteger) false 205;
  mkTranslateField "top250" FieldTop250 NUMERIC_FIELD None false 13409;
  mkTranslateField "mpaarating" FieldMPAA TEXT_FIELD None false 20074;
  mkTranslateField "dateadded" FieldDateAdded DATE_FIELD None false 570;
  mkTranslateField "genre" FieldGenre TEXT_FIELD None true 515;
  mkTranslateField "plot" FieldPlot TEXT_FIELD None false 207;
  mkTranslateField "plotoutline" FieldPlotOutline TEXT_FIELD None false 203;
  mkTranslateField "tagline" FieldTagline TEXT_FIELD None false 202;
  mkTranslateField "set" FieldSet TEXT_FIELD None true 20457;
  mkTranslateField "director" FieldDirector TEXT_FIELD None true 20339;
  mkTranslateField "actor" FieldActor TEXT_FIELD None true 20337;
  mkTranslateField "writers" FieldWriter TEXT_FIELD None true 20417;
  mkTranslateField "airdate" FieldAirDate DATE_FIELD None false 20416;
  mkTranslateField "hastrailer" FieldTrailer BOOLEAN_FIELD None false 20423;
  mkTranslateField "studio" FieldStudio TEXT_FIELD None true 572;
  mkTranslateField "country" FieldCountry TEXT_FIELD None true 574;
  mkTranslateField "tvshow" FieldTvShowTitle TEXT_FIELD None true 20364;
  mkTranslateField "status" FieldTvShowStatus TEXT_FIELD None false 126;
  mkTranslateField "season" FieldSeason NUMERIC_FIELD (Some IsPositiveInteger) false 20373;
  mkTranslateField "episode" FieldEpisodeNumber NUMERIC_FIELD (Some IsPositiveInteger) false 20359;
  mkTranslateField "numepisodes" FieldNumberOfEpisodes REAL_FIELD (Some IsPositiveInteger) false 20360;
  mkTranslateField "numwatched" FieldNumberOfWatchedEpisodes REAL_FIELD (Some IsPositiveInteger) false 21457;
  mkTranslateField "videoresolution" FieldVideoResolution REAL_FIELD None false 21443;
  mkTranslateField "videocodec" FieldVideoCodec TEXTIN_FIELD None false 21445;
  mkTranslateField "videoaspect" FieldVideoAspectRatio REAL_FIELD None false 21374;
  mkTranslateField "audiochannels" FieldAudioChannels REAL_FIELD None false 21444;
  mkTranslateField "audiocodec" FieldAudioCodec TEXTIN_FIELD None false 21446;
  mkTranslateField "audiolanguage" FieldAudioLanguage TEXTIN_FIELD None false 21447;
  mkTranslateField "audiocount" FieldAudioCount REAL_FIELD (Some IsPositiveInteger) false 21481;
  mkTranslateField "subtitlecount" FieldSubtitleCount REAL_FIELD (Some IsPositiveInteger) false 21482;
  mkTranslateField "subtitlelanguage" FieldSubtitleLanguage TEXTIN_FIELD None false 21448;
  mkTranslateField "random" FieldRandom TEXT_FIELD None false 590;
  mkTranslateField "playlist" FieldPlaylist PLAYLIST_FIELD None true 559;
  mkTranslateField "virtualfolder" FieldVirtualFolder PLAYLIST_FIELD None true 614;
  mkTranslateField "tag" FieldTag TEXT_FIELD None true 20459;
  mkTranslateField "instruments" FieldInstruments TEXT_FIELD None false 21892;
  mkTranslateField "biography" FieldBiography TEXT_FIELD None false 21887;
  mkTranslateField "born" FieldBorn TEXT_FIELD None false 21893;
  mkTranslateField "bandformed" FieldBandFormed TEXT_FIELD None false 21894;
  mkTranslateField "disbanded" FieldDisbanded TEXT_FIELD None false 21896;
  mkTranslateField "died" FieldDied TEXT_FIELD None false 21897;
  mkTranslateField "artisttype" FieldArtistType TEXT_FIELD None false 564;
  mkTranslateField "gender" FieldGender TEXT_FIELD None false 39025;
  mkTranslateField "disambiguation" FieldDisambiguation TEXT_FIELD None false 39026;
  mkTranslateField "source" FieldSource TEXT_FIELD None true 39030;
  mkTranslateField "disctitle" FieldDiscTitle TEXT_FIELD None false 38076;
  mkTranslateField "isboxset" FieldIsBoxset BOOLEAN_FIELD None false 38074;
  mkTranslateField "totaldiscs" FieldTotalDiscs NUMERIC_FIELD (Some IsPositiveInteger) false 38077;
  mkTranslateField "artistid" FieldArtistId NUMERIC_FIELD (Some IsPositiveInteger) true 0;
  mkTranslateField "albumid" FieldAlbumId NUMERIC_FIELD (Some IsPositiveInteger) true 0;
  mkTranslateField "songid" FieldSongId NUMERIC_FIELD (Some IsPositiveInteger) true 0;
  mkTranslateField "sourceid" FieldSourceId NUMERIC_FIELD (Some IsPositiveInteger) true 0;
  mkTranslateField "genreid" FieldGenreId NUMERIC_FIELD (Some IsPositiveInteger) true 0;
  mkTranslateField "artist genre" FieldArtistGenre TEXT_FIELD None false 515;
  mkTranslateField "artist scraped" FieldArtistLastScrape DATE_FIELD None false 0;
  mkTranslateField "artist mbid" FieldArtistMBId TEXT_FIELD None false 0;
  mkTranslateField "artist moods" FieldArtistMoods TEXT_FIELD None false 175;
  mkTranslateField "born/formed" FieldBornFormed TEXT_FIELD None false 21893;
  mkTranslateField "died/disbanded" FieldDiedDisband TEXT_FIELD None false 21897;
  mkTranslateField "years active" FieldYearsActive TEXT_FIELD None false 0;
  mkTranslateField "album genre" FieldAlbumGenre TEXT_FIELD None false 515;
  mkTranslateField "album scraped" FieldAlbumLastScrape DATE_FIELD None false 0;
  mkTranslateField "album mbid" FieldAlbumMBId TEXT_FIELD None false 0;
  mkTranslateField "releasegroup id" FieldReleaseGroupMBId TEXT_FIELD None false 0;
  mkTranslateField "album moods" FieldAlbumMoods TEXT_FIELD None false 175;
  mkTranslateField "album styles" FieldAlbumStyles TEXT_FIELD None false 176;
  mkTranslateField "album rating" FieldAlbumRating REAL_FIELD (Some ValidateRating) false 563;
  mkTranslateField "album userrating" FieldAlbumUserRating REAL_FIELD (Some ValidateMyRating) false 38018;
  mkTranslateField "album votes" FieldAlbumVotes REAL_FIELD (Some IsPositiveInteger) false 205;
  mkTranslateField "album year" FieldAlbumYear NUMERIC_FIELD (Some IsPositiveInteger) true 562
].

(** A row of the [groups] table. *)
Record group : Set := mkGroup {
  g_name : string;
  g_field : Field;
  g_canMix : bool;
  g_localizedString : Z
}.

Definition groups : list group := [
  mkGroup "" FieldUnknown false 571;
  mkGroup "none" FieldNone false 231;
  mkGroup "sets" FieldSet true 20434;
  mkGroup "genres" FieldGenre false 135;
  mkGroup "years" FieldYear false 652;
  mkGroup "actors" FieldActor false 344;
  mkGroup "directors" FieldDirector false 20348;
  mkGroup "writers" FieldWriter false 20418;
  mkGroup "studios" FieldStudio false 20388;
  mkGroup "countries" FieldCountry false 20451;
  mkGroup "artists" FieldArtist false 133;
  mkGroup "albums" FieldAlbum false 132;
  mkGroup "tags" FieldTag false 20459
].

Definition RULE_VALUE_SEPARATOR : string := " / ".

(** [TranslateField(const char *field)]: the field of the first row whose
    name equals [field], ignoring case. *)
Definition TranslateField (field : string) : Field :=
  match find (fun f => Str.EqualsNoCase field (tf_string f)) fields with
  | Some f => tf_field f
  | None => FieldNone
  end.

(** [TranslateField(int field)]: the name of the first row of the field;
    [field] ranges over the [Field] identifiers. *)
Definition TranslateFieldName (field : Field) : string :=
  match find (fun f => Field_eqb field (tf_field f)) fields with
  | Some f => tf_string f
  | None => "none"
  end.

(** [TranslateGroup(const char *group)]. *)
Definition TranslateGroup (group : string) : Field :=
  match find (fun i => Str.EqualsNoCase group (g_name i)) groups with
  | Some i => g_field i
  | None => FieldUnknown
  end.

(** [TranslateGroup(Field group)]. *)
Definition TranslateGroupName (group : Field) : string :=
  match find (fun i => Field_eqb group (g_field i)) groups with
  | Some i => g_name i
  | None => ""
  end.

(** [GetFieldType(int field)]. *)
Definition GetFieldType (field : Field) : FIELD_TYPE :=
  match find (fun f => Field_eqb field (tf_field f)) fields with
  | Some f => tf_type f
  | None => TEXT_FIELD
  end.

(** [CanGroupMix(Field group)]. *)
Definition CanGroupMix (group : Field) : bool :=
  match find (fun i => Field_eqb group (g_field i)) groups with
  | Some i => g_canMix i
  | None => false
  end.

(** [Validate(input, data)]; [data] is the rule being edited, [None] for
    [NULL].  [Split] is [StringUtils::Split] and [call v] the call through
    the validator pointer [v]. *)
Section Validate.
Variable Split : string -> string -> list string.
Variable call : Validator -> string -> CSmartPlaylistRule -> bool.

Definition Validate (input : string) (data : option CSmartPlaylistRule) : bool :=
  match data with
  | None => true
  | Some rule =>
      let validator :=
        match find (fun field => Field_eqb (m_field rule) (tf_field field)) fields with
        | Some field => tf_validator field
        | None => None
        end in
      match validator with
      | None => true
      | Some v =>
          let values := Split input RULE_VALUE_SEPARATOR in
          forallb (fun it => call v it rule) values
      end
  end.

End Validate.

(** [GetOrders(type)]: the sort methods offered for a media type. *)
Definition GetOrders (type : string) : list SortBy :=
  let orders := [SortByNone] in
  let orders :=
    if String.eqb type "mixed" then
      orders ++
      [SortByGenre; SortByAlbum; SortByArtist; SortByTitle; SortByYear;
       SortByTime; SortByTrackNumber; SortByFile; SortByPath;
       SortByPlaycount; SortByLastPlayed]
    else if String.eqb type "songs" then
      orders ++
      [SortByGenre; SortByAlbum; SortByArtist; SortByTitle; SortByYear;
       SortByTime; SortByTrackNumber; SortByFile; SortByPath;
       SortByPlaycount; SortByLastPlayed; SortByRating; SortByUserRating]
    else if String.eqb type "albums" then
      orders ++
      [SortByGenre; SortByAlbum; SortByTotalDiscs; SortByArtist; SortByYear;
       SortByAlbumType; SortByRating; SortByUserRating; SortByPlaycount;
       SortByLastPlayed]
    else if String.eqb type "artists" then
      orders ++
      [SortByArtist]
    else if String.eqb type "tvshows" then
      orders ++
      [SortBySortTitle; SortByTvShowStatus; SortByVotes; SortByRating;
       SortByUserRating; SortByYear; SortByGenre; SortByNumberOfEpisodes;
       SortByNumberOfWatchedEpisodes; SortByPath; SortByStudio; SortByMPAA;
       SortByDateAdded; SortByLastPlayed]
    else if String.eqb type "episodes" then
      orders ++
      [SortByTitle; SortByTvShowTitle; SortByVotes; SortByRating;
       SortByUserRating; SortByTime; SortByPlaycount; SortByLastPlayed;
       SortByYear; SortByEpisodeNumber; SortBySeason; SortByFile; SortByPath;
       SortByStudio; SortByMPAA; SortByDateAdded]
    else if String.eqb type "movies" then
      orders ++
      [SortBySortTitle; SortByVotes; SortByRating; SortByUserRating;
       SortByTime; SortByPlaycount; SortByLastPlayed; SortByGenre;
       SortByCountry; SortByYear; SortByMPAA; SortByTop250; SortByStudio;
       SortByFile; SortByPath; SortByDateAdded]
    else if String.eqb type "musicvideos" then
      orders ++
      [SortByTitle; SortByGenre; SortByAlbum; SortByYear; SortByArtist;
       SortByFile; SortByPath; SortByPlaycount; SortByLastPlayed; SortByTime;
       SortByRating; SortByUserRating; SortByStudio; SortByDateAdded]
    else orders in
  orders ++ [SortByRandom].

(** [GetGroups(type)]: the groups offered for a media type. *)
Definition GetGroups (type : string) : list Field :=
  let groups := [FieldUnknown] in
  let groups :=
    if String.eqb type "artists" then groups ++ [FieldGenre]
    else if String.eqb type "albums" then groups ++ [FieldYear]
    else groups in
  if String.eqb type "movies" then
    groups ++
    [FieldNone; FieldSet; FieldGenre; FieldYear; FieldActor; FieldDirector;
     FieldWriter; FieldStudio; FieldCountry; FieldTag]
  else if String.eqb type "tvshows" then
    groups ++
    [FieldGenre; FieldYear; FieldActor; FieldDirector; FieldStudio; FieldTag]
  else if String.eqb type "musicvideos" then
    groups ++
    [FieldArtist; FieldAlbum; FieldGenre; FieldYear; FieldDirector; FieldStudio;
     FieldTag]
  else groups.

(** [GetBooleanQuery(negate, strType)]; [returned] is the value of the
    [return] statements of the first chain of tests, when one is reached. *)
Definition GetBooleanQuery (r : CSmartPlaylistRule) (negate strType : string) : string :=
  let fld f := Field_eqb (m_field r) f in
  let returned : option string :=
    if String.eqb strType "movies" then
      if fld FieldInProgress
      then Some ("movie_view.idFile " +:+ negate +:+
                 " IN (SELECT DISTINCT idFile FROM bookmark WHERE type = 1)")
      else if fld FieldTrailer
      then Some (negate +:+ GetField (m_field r) strType +:+ "!= ''")
      else None
    else if String.eqb strType "episodes" then
      if fld FieldInProgress
      then Some ("episode_view.idFile " +:+ negate +:+
                 " IN (SELECT DISTINCT idFile FROM bookmark WHERE type = 1)")
      else None
    else if String.eqb strType "tvshows" then
      if fld FieldInProgress
      then Some (negate +:+
                 " ((tvshow_view.watchedcount > 0 AND tvshow_view.watchedcount < tvshow_view.totalCount) OR (tvshow_view.watchedcount = 0 AND EXISTS (SELECT 1 FROM episode_view WHERE episode_view.idShow = " +:+
                 GetField FieldId strType +:+
                 " AND episode_view.resumeTimeInSeconds > 0)))")
      else None
    else None in
  match returned with
  | Some query => query
  | None =>
      if String.eqb strType "albums" then
        if fld FieldCompilation then negate +:+ GetField (m_field r) strType
        else if fld FieldIsBoxset then negate +:+ "albumview.bBoxedSet = 1"
        else ""
      else ""
  end.

End Rule.
End Rule.

(** ** Outcomes of a compile

    [vector::at] throws [std::out_of_range] on a rule without parameters;
    the expansion of nested playlists is embedded with a bound on the
    nesting depth, and [OutOfFuel] is the outcome when the bound is hit. *)
Inductive Outcome (A : Type) : Type :=
  | Done (a : A)
  | OutOfRange
  | OutOfFuel.

Arguments Done {A} a.
Arguments OutOfRange {A}.
Arguments OutOfFuel {A}.

#[global] Instance Outcome_ret : MRet Outcome := fun A a => Done a.
#[global] Instance Outcome_bind : MBind Outcome := fun A B f m =>
  match m with
  | Done a => f a
  | OutOfRange => OutOfRange
  | OutOfFuel => OutOfFuel
  end.

(** [m_parameter.at(0)]. *)
Definition at0 (r : CSmartPlaylistRule) : Outcome string :=
  match m_parameter r with
  | [] => OutOfRange
  | p :: _ => Done p
  end.

(** ** [CSmartPlaylistRuleCombination]: the cross-entity clauses *)

Module Combination.
Section Combination.
Context {ext : Externals}.

Definition CombineClause (m_type : combination) (original clause : string) : string :=
  let rule := original in
  if negb (Str.empty clause)
  then
    let rule :=
      if negb (Str.empty original)
      then (rule +:+ (if isAnd m_type then " AND " else " OR ")) +:+ "("
      else rule in
    let rule := rule +:+ clause in
    if negb (Str.empty original) then rule +:+ ")" else rule
  else rule.

Definition IsFieldRuleSimple (field : Field) (mediaType : string) : bool :=
  if Field_eqb field FieldNone || String.eqb mediaType MediaTypeNone then true
  else if negb (String.eqb mediaType MediaTypeArtist) &&
          negb (String.eqb mediaType MediaTypeAlbum) &&
          negb (String.eqb mediaType MediaTypeSong) then true
  else
    let generally := negb (Str.empty (DatabaseUtils_GetField field mediaType)) in
    if String.eqb mediaType MediaTypeAlbum then
      if Field_eqb field FieldArtist || Field_eqb field FieldAlbumArtist then false
      else if Field_eqb field FieldSource then true
      else generally
    else if String.eqb mediaType MediaTypeSong then
      if Field_eqb field FieldArtist || Field_eqb field FieldAlbumArtist then false
      else generally
    else generally.

Definition IsFieldNative (field : Field) (mediaType strTable : string) : bool :=
  let strTablename := DatabaseUtils_GetNativeTable field mediaType in
  negb (Str.empty strTablename) && String.eqb strTablename strTable.

(** [m_operator] is does-not-contain or does-not-equal. *)
Definition isNegOperator (r : CSmartPlaylistRule) : bool :=
  op_eqb (m_operator r) OPERATOR_DOES_NOT_CONTAIN ||
  op_eqb (m_operator r) OPERATOR_DOES_NOT_EQUAL.

(** The locals of [GetRolesWhereClause] set by its scan of the rules;
    [bRoleRules] is the caller's flag, [roleRules] the rules of the other
    roles in the order met. *)
Record RoleScan : Type := mkRoleScan {
  bWildRoleRule : bool;
  bAlbumartistRule : bool;
  bArtistRule : bool;
  bNegAlbumartistRule : bool;
  bNegArtistRule : bool;
  scan_bRoleRules : bool;
  roleRules : list CSmartPlaylistRule
}.

Definition scanStart (bRoleRules : bool) : RoleScan :=
  mkRoleScan false false false false false bRoleRules [].

(** One turn of the scan of [GetRolesWhereClause]. *)
Definition scanStep (m_type : combination) (s : RoleScan) (r : CSmartPlaylistRule)
    : Outcome RoleScan :=
  if Field_eqb (m_field r) FieldRole
  then
    p ← at0 r;
    if Str.EqualsNoCase p "albumartist"
    then Done (mkRoleScan (bWildRoleRule s) (isAnd m_type) (bArtistRule s)
                 (isNegOperator r) (bNegArtistRule s) true (roleRules s))
    else if Str.EqualsNoCase p "artist"
    then Done (mkRoleScan (bWildRoleRule s) (bAlbumartistRule s) (isAnd m_type)
                 (bNegAlbumartistRule s) (isNegOperator r) true (roleRules s))
    else if Str.EqualsNoCase p "%"
    then Done (mkRoleScan true (bAlbumartistRule s) (bArtistRule s)
                 (bNegAlbumartistRule s) (bNegArtistRule s) true (roleRules s))
    else Done (mkRoleScan (bWildRoleRule s) (bAlbumartistRule s) (bArtistRule s)
                 (bNegAlbumartistRule s) (bNegArtistRule s) true (roleRules s ++ [r]))
  else Done s.

Fixpoint scanRules (m_type : combination) (s : RoleScan) (rules : list CSmartPlaylistRule)
    : Outcome RoleScan :=
  match rules with
  | [] => Done s
  | r :: rules' => s' ← scanStep m_type s r; scanRules m_type s' rules'
  end.

(** "Validate role rule logic": the route flags [(bAlbumArtists,
    bSongArtists)] after the scan. *)
Definition validateRoles (s : RoleScan) : bool * bool :=
  let bAlbumArtists := true in
  let bSongArtists := true in
  if bWildRoleRule s then (bAlbumArtists, bSongArtists)
  else
    let bAlbumArtists :=
      if (bNegAlbumartistRule s && bAlbumartistRule s) ||
         (negb (bNegArtistRule s) && bArtistRule s)
      then false else bAlbumArtists in
    let bSongArtists :=
      if (bNegArtistRule s && bArtistRule s) ||
         (negb (bNegAlbumartistRule s) && bAlbumartistRule s)
      then false else bSongArtists in
    let bAlbumArtists :=
      if negb bAlbumArtists && negb bSongArtists then true else bAlbumArtists in
    (bAlbumArtists, bSongArtists).

(** One turn of the loop that translates the other role rules. *)
Definition roleStep (m_type : combination) (st : string * string)
    (r : CSmartPlaylistRule) : string * string :=
  let '(roleClause, currentRule) := st in
  let rolequery := Rule_GetWhereClause r MediaTypeMusic in
  if negb (Str.empty rolequery)
  then
    if isAnd m_type
    then
      if Str.empty roleClause then (rolequery, currentRule)
      else
        let songRoleX :=
          ExistsSubQuery.make "song_artist AS sa1"
            "sa1.idArtist = song_artist.idArtist AND sa1.idSong = song_artist.idSong" in
        let songRoleX :=
          ExistsSubQuery.AppendJoin songRoleX "JOIN role as r1 ON sa1.idRole = r1.idRole" in
        let rolequery := Str.Replace rolequery "role." "r1." in
        let songRoleX := ExistsSubQuery.AppendWhere songRoleX rolequery in
        let currentRule := ExistsSubQuery.BuildSQL songRoleX currentRule in
        (CombineClause m_type roleClause currentRule, currentRule)
    else
      let roleClause :=
        if negb (Str.empty roleClause) then roleClause +:+ " OR " else roleClause in
      (roleClause +:+ rolequery, currentRule)
  else st.

(** The four flags [GetRolesWhereClause] shares with its caller. *)
Record RoleFlags : Type := mkRoleFlags {
  bAlbumArtists : bool;
  bSongArtists : bool;
  bJoinRole : bool;
  bRoleRules : bool
}.

(** [GetRolesWhereClause]: the role clause and the flags as left to the
    caller. *)
Definition GetRolesWhereClause (c : CSmartPlaylistRuleCombination) (flags : RoleFlags)
    : Outcome (string * RoleFlags) :=
  s ← scanRules (m_type c) (scanStart (bRoleRules flags)) (m_rules c);
  let '(bAlbumArtists, bSongArtists) := validateRoles s in
  let bJoinRole := true in
  let roleRules := if bWildRoleRule s then [] else roleRules s in
  if negb (bWildRoleRule s) && Str.empty_list roleRules
  then Done ("song_artist.idRole = 1", mkRoleFlags bAlbumArtists bSongArtists false false)
  else
    let '(roleClause, _) := fold_left (roleStep (m_type c)) roleRules ("", "") in
    let bAlbumArtists :=
      if negb (Str.empty roleClause) && bSongArtists then false else bAlbumArtists in
    Done (roleClause, mkRoleFlags bAlbumArtists bSongArtists bJoinRole (scan_bRoleRules s)).

Definition roleFlagsStart : RoleFlags := mkRoleFlags true true false false.

Definition paren (s : string) : string := "(" +:+ s +:+ ")".

(** The role clause as the callers add it to their [song_artist] subquery. *)
Definition addRoleClause (songArtistSub : ExistsSubQuery.t) (roleClause : string)
    (bJoinRole : bool) : ExistsSubQuery.t :=
  if negb (Str.empty roleClause)
  then
    if bJoinRole
    then
      let roleClause := paren roleClause in
      let songArtistSub :=
        ExistsSubQuery.AppendJoin songArtistSub "JOIN role ON song_artist.idRole = role.idRole" in
      ExistsSubQuery.AppendWhere songArtistSub roleClause
    else ExistsSubQuery.AppendWhere songArtistSub roleClause
  else songArtistSub.

(** *** [GetArtistsWhereClause] *)

(** One turn of its loop over the rules, on [(songSubclause, albumSubclause,
    albumSourceclause, bSongArtistNeedSong)]. *)
Definition artistsStep (m_type : combination) (st : string * string * string * bool)
    (r : CSmartPlaylistRule) : string * string * string * bool :=
  let '(songSubclause, albumSubclause, albumSourceclause, bSongArtistNeedSong) := st in
  if Field_eqb (m_field r) FieldPath
  then
    let pathquery := Rule_GetWhereClause r MediaTypeMusic in
    if negb (Str.empty pathquery)
    then
      let songPathX := ExistsSubQuery.make "path" "path.idPath = song.idPath" in
      let songPathX := ExistsSubQuery.AppendWhere songPathX pathquery in
      let currentRule := ExistsSubQuery.BuildSQL songPathX "" in
      (CombineClause m_type songSubclause currentRule, albumSubclause, albumSourceclause, true)
    else st
  else if Field_eqb (m_field r) FieldSource
  then
    let query := Rule_GetWhereClause r "albums" in
    let query := Str.Replace query "albumview" "album" in
    (songSubclause, albumSubclause, CombineClause m_type albumSourceclause query, true)
  else if IsFieldNative (m_field r) MediaTypeArtist "song"
  then
    let songquery := Rule_GetWhereClause r "songs" in
    let songquery := Str.Replace songquery "songview" "song" in
    (CombineClause m_type songSubclause songquery, albumSubclause, albumSourceclause,
     if negb (Field_eqb (m_field r) FieldGenre) then true else bSongArtistNeedSong)
  else if IsFieldNative (m_field r) MediaTypeArtist "album"
  then
    let albumquery := Rule_GetWhereClause r "albums" in
    let albumquery := Str.Replace albumquery "albumview" "album" in
    (songSubclause, CombineClause m_type albumSubclause albumquery, albumSourceclause, true)
  else st.

(** The clause [GetArtistsWhereClause] builds once the role clause and the
    route flags are known. *)
Definition artistsClause (c : CSmartPlaylistRuleCombination) (roleClause : string)
    (flags : RoleFlags) : string :=
  let Combine := CombineClause (m_type c) in
  let rule := "" in
  let '(mkRoleFlags bAlbumArtists bSongArtists bJoinRole bRoleRules) := flags in
  let '(songSubclause, albumSubclause, albumSourceclause, bSongArtistNeedSong) :=
    fold_left (artistsStep (m_type c)) (m_rules c) ("", "", "", false) in
  let bAlbumArtistNeedSong :=
    negb (Str.empty songSubclause) || (bJoinRole && negb bSongArtists) in
  let strSQL := "" in
  let album_artistClause := "" in
  let song_artistClause := "" in
  let songArtistSub :=
    ExistsSubQuery.make "song_artist" "song_artist.idArtist = artistview.idArtist" in
  let songArtistSub := addRoleClause songArtistSub roleClause bJoinRole in
  (* album_artist route *)
  let '(songArtistSub, strSQL, songSubclause, album_artistClause) :=
    if bAlbumArtistNeedSong
    then
      let '(songArtistSub, strSQL, songSubclause) :=
        if bRoleRules && bAlbumArtists && negb bSongArtists
        then
          let songArtistSub :=
            ExistsSubQuery.AppendWhere songArtistSub "song_artist.idSong = song.idSong" in
          let strSQL := ExistsSubQuery.BuildSQL songArtistSub strSQL in
          (songArtistSub, strSQL,
           if negb (Str.empty strSQL) then Combine songSubclause strSQL else songSubclause)
        else (songArtistSub, strSQL, songSubclause) in
      let songAASub := ExistsSubQuery.make "song" "song.idAlbum = album_artist.idAlbum" in
      let songAASub := ExistsSubQuery.AppendWhere songAASub (paren songSubclause) in
      (songArtistSub, strSQL, songSubclause, ExistsSubQuery.BuildSQL songAASub album_artistClause)
    else (songArtistSub, strSQL, songSubclause, album_artistClause) in
  let '(strSQL, album_artistClause) :=
    if negb (Str.empty albumSubclause)
    then
      let albumSub := ExistsSubQuery.make "album" "album.idAlbum = album_artist.idAlbum" in
      let strSQL := Combine albumSubclause albumSourceclause in
      let strSQL :=
        if negb (Str.empty album_artistClause)
        then Combine strSQL album_artistClause else strSQL in
      let albumSub := ExistsSubQuery.AppendWhere albumSub (paren strSQL) in
      (strSQL, ExistsSubQuery.BuildSQL albumSub album_artistClause)
    else if negb (Str.empty albumSourceclause)
    then
      let strSQL := albumSourceclause in
      let strSQL := Str.Replace strSQL "album.idAlbum" "album_artist.idAlbum" in
      (strSQL, Combine strSQL album_artistClause)
    else (strSQL, album_artistClause) in
  let albumArtistSub :=
    ExistsSubQuery.make "album_artist" "album_artist.idArtist = artistview.idArtist" in
  let albumArtistSub :=
    if negb (Str.empty album_artistClause)
    then ExistsSubQuery.AppendWhere albumArtistSub (paren album_artistClause)
    else albumArtistSub in
  (* song_artist route *)
  let '(strSQL, song_artistClause) :=
    if negb (Str.empty albumSubclause)
    then
      let albumSub := ExistsSubQuery.make "album" "album.idAlbum = song.idAlbum" in
      let strSQL := Combine albumSubclause albumSourceclause in
      let albumSub := ExistsSubQuery.AppendWhere albumSub (paren strSQL) in
      (strSQL, ExistsSubQuery.BuildSQL albumSub song_artistClause)
    else if negb (Str.empty albumSourceclause)
    then
      let strSQL := albumSourceclause in
      let strSQL := Str.Replace strSQL "album.idAlbum" "song.idAlbum" in
      (strSQL, Combine strSQL song_artistClause)
    else (strSQL, song_artistClause) in
  let '(strSQL, songSubclause, song_artistClause) :=
    if bSongArtistNeedSong
    then
      let strSQL := song_artistClause in
      let strSQL :=
        if negb (Str.empty songSubclause)
        then Combine songSubclause song_artistClause else strSQL in
      let songSASub := ExistsSubQuery.make "song" "song.idSong = song_artist.idSong" in
      let songSASub := ExistsSubQuery.AppendWhere songSASub (paren strSQL) in
      (strSQL, songSubclause, ExistsSubQuery.BuildSQL songSASub song_artistClause)
    else if negb (Str.empty songSubclause)
    then
      let songSubclause := Str.Replace songSubclause "song.idSong" "song_artist.idSong" in
      (strSQL, songSubclause, songSubclause)
    else (strSQL, songSubclause, song_artistClause) in
  let songArtistSub :=
    if negb (Str.empty song_artistClause)
    then ExistsSubQuery.AppendWhere songArtistSub (paren song_artistClause)
    else songArtistSub in
  (* combine the album_artist and song_artist clauses *)
  let '(strSQL, rule) :=
    if bAlbumArtists
    then
      let strSQL := ExistsSubQuery.BuildSQL albumArtistSub strSQL in
      (strSQL, if negb (Str.empty strSQL) then rule +:+ strSQL else rule)
    else (strSQL, rule) in
  let rule :=
    if bSongArtists
    then
      let strSQL := ExistsSubQuery.BuildSQL songArtistSub strSQL in
      let rule :=
        if negb (Str.empty strSQL) && negb (Str.empty rule)
        then
          if negb bJoinRole || negb (isAnd (m_type c))
          then rule +:+ " OR " else rule +:+ " AND "
        else rule in
      rule +:+ strSQL
    else rule in
  rule.

Definition GetArtistsWhereClause (c : CSmartPlaylistRuleCombination) : Outcome string :=
  '(roleClause, flags) ← GetRolesWhereClause c roleFlagsStart;
  Done (artistsClause c roleClause flags).

(** *** [GetAlbumsWhereClause] *)

(** One turn of its loop over the rules, on [(songSubclause, artistSubclause,
    albumartistField, artistField)]. *)
Definition albumsStep (m_type : combination) (st : string * string * string * string)
    (r : CSmartPlaylistRule) : string * string * string * string :=
  let '(songSubclause, artistSubclause, albumartistField, artistField) := st in
  if Field_eqb (m_field r) FieldPath
  then
    let pathquery := Rule_GetWhereClause r MediaTypeMusic in
    if negb (Str.empty pathquery)
    then
      let songPathX := ExistsSubQuery.make "path" "path.idPath = song.idPath" in
      let songPathX := ExistsSubQuery.AppendWhere songPathX pathquery in
      let currentRule := ExistsSubQuery.BuildSQL songPathX "" in
      (CombineClause m_type songSubclause currentRule, artistSubclause,
       albumartistField, artistField)
    else st
  else if IsFieldNative (m_field r) MediaTypeAlbum "artist"
  then
    let artistquery := Rule_GetWhereClause r "artist" in
    let artistquery := Str.Replace artistquery "artistview" "artist" in
    if Field_eqb (m_field r) FieldArtist
    then (songSubclause, artistSubclause, albumartistField,
          CombineClause m_type artistField artistquery)
    else if Field_eqb (m_field r) FieldAlbumArtist
    then (songSubclause, artistSubclause,
          CombineClause m_type albumartistField artistquery, artistField)
    else (songSubclause, CombineClause m_type artistSubclause artistquery,
          albumartistField, artistField)
  else if IsFieldNative (m_field r) MediaTypeAlbum "song"
  then
    let songquery := Rule_GetWhereClause r "songs" in
    let songquery := Str.Replace songquery "songview" "song" in
    (CombineClause m_type songSubclause songquery, artistSubclause,
     albumartistField, artistField)
  else st.

(** "Build combined artist clause": [(artistSubclause, artistClauseAlbum,
    artistClauseSong)], shared by the albums and the songs clause. *)
Definition artistClauses (m_type : combination)
    (artistSubclause albumartistField artistField : string) : string * string * string :=
  if negb (Str.empty albumartistField) && negb (Str.empty artistField)
  then (artistSubclause,
        CombineClause m_type artistSubclause albumartistField,
        CombineClause m_type artistSubclause artistField)
  else
    let artistSubclause := CombineClause m_type artistSubclause albumartistField in
    let artistSubclause := CombineClause m_type artistSubclause artistField in
    (artistSubclause, artistSubclause, artistSubclause).

(** The [song_artist] subquery before the artist clause is added: the
    correlation with [album_artist] or the join with [artist], and the role
    clause. *)
Definition songArtistStart (songArtistSub : ExistsSubQuery.t)
    (bAlbumartistAndRole : bool) (artistSubclause albumartistField artistField : string)
    (roleClause : string) (bJoinRole : bool) : ExistsSubQuery.t :=
  let songArtistSub :=
    if bAlbumartistAndRole
    then ExistsSubQuery.AppendWhere songArtistSub "song_artist.idArtist = album_artist.idArtist"
    else if negb (Str.empty artistSubclause) || negb (Str.empty albumartistField) ||
            negb (Str.empty artistField)
    then ExistsSubQuery.AppendJoin songArtistSub
           "JOIN artist ON artist.idArtist = song_artist.idArtist"
    else songArtistSub in
  addRoleClause songArtistSub roleClause bJoinRole.

(** "Build song_artist subquery clause". *)
Definition songartistClause (songArtistSub : ExistsSubQuery.t)
    (artistClauseSong : string) (bRoleRules bAlbumartistAndRole : bool) : string :=
  let songartistSubclause := "" in
  if negb (Str.empty artistClauseSong) || bRoleRules
  then
    let songArtistSub :=
      if negb (Str.empty artistClauseSong) && negb bAlbumartistAndRole
      then ExistsSubQuery.AppendWhere songArtistSub (paren artistClauseSong)
      else songArtistSub in
    ExistsSubQuery.BuildSQL songArtistSub songartistSubclause
  else songartistSubclause.

(** The clause [GetAlbumsWhereClause] builds once the role clause and the
    route flags are known. *)
Definition albumsClause (c : CSmartPlaylistRuleCombination) (roleClause : string)
    (flags : RoleFlags) : string :=
  let Combine := CombineClause (m_type c) in
  let rule := "" in
  let '(mkRoleFlags bAlbumArtists bSongArtists bJoinRole bRoleRules) := flags in
  let '(songSubclause, artistSubclause, albumartistField, artistField) :=
    fold_left (albumsStep (m_type c)) (m_rules c) ("", "", "", "") in
  let bAlbumartistAndRole :=
    bRoleRules && (negb (Str.empty albumartistField) || (bAlbumArtists && negb bSongArtists)) in
  let songSub := ExistsSubQuery.make "song" "song.idAlbum = albumview.idAlbum" in
  let albumArtistSub :=
    ExistsSubQuery.make "album_artist" "album_artist.idAlbum = albumview.idAlbum" in
  let albumArtistSub :=
    ExistsSubQuery.AppendJoin albumArtistSub
      "JOIN artist ON artist.idArtist = album_artist.idArtist" in
  let songArtistSub := ExistsSubQuery.make "song_artist" "song_artist.idSong = song.idSong" in
  let songArtistSub :=
    songArtistStart songArtistSub bAlbumartistAndRole artistSubclause albumartistField
      artistField roleClause bJoinRole in
  let '(artistSubclause, artistClauseAlbum, artistClauseSong) :=
    artistClauses (m_type c) artistSubclause albumartistField artistField in
  let songartistSubclause :=
    songartistClause songArtistSub artistClauseSong bRoleRules bAlbumartistAndRole in
  (* full song subquery, with and without song_artist *)
  let songSubSQLNoArtist := "" in
  let '(songSub, songSubSQLNoArtist) :=
    if negb (Str.empty songSubclause)
    then
      let songSub := ExistsSubQuery.AppendWhere songSub (paren songSubclause) in
      (songSub, ExistsSubQuery.BuildSQL songSub songSubSQLNoArtist)
    else (songSub, songSubSQLNoArtist) in
  let songSubSQL := Combine songSubclause songartistSubclause in
  let '(songSub, songSubSQL) :=
    if negb (Str.empty songSubSQL)
    then
      let songSub := ExistsSubQuery.set_where songSub "" in
      let songSub := ExistsSubQuery.AppendWhere songSub (paren songSubSQL) in
      (songSub, ExistsSubQuery.BuildSQL songSub songSubSQL)
    else (songSub, songSubSQL) in
  (* album_artist subquery clause *)
  let albumartistSubclause := "" in
  let albumArtistSub :=
    if negb (Str.empty artistClauseAlbum)
    then ExistsSubQuery.AppendWhere albumArtistSub (paren artistClauseAlbum)
    else albumArtistSub in
  let albumArtistSub :=
    if bAlbumartistAndRole
    then ExistsSubQuery.AppendWhere albumArtistSub songSubSQL
    else albumArtistSub in
  let albumartistSubclause := ExistsSubQuery.BuildSQL albumArtistSub albumartistSubclause in
  let albumartistSubclause :=
    if bRoleRules && negb bAlbumArtists && Str.empty albumartistField
    then "" else albumartistSubclause in
  let rule :=
    if negb (Str.empty albumartistField) || (bAlbumArtists && negb bSongArtists)
    then
      if bRoleRules then albumartistSubclause
      else if negb (Str.empty artistField) || negb bAlbumArtists
      then Combine albumartistSubclause songSubSQL
      else Combine albumartistSubclause songSubSQLNoArtist
    else if negb (Str.empty songartistSubclause)
    then
      if negb (isAnd (m_type c))
      then Combine albumartistSubclause songSubSQL
      else
        let rule := Combine albumartistSubclause songSubSQLNoArtist in
        let rule := if negb (Str.empty rule) then rule +:+ " OR " else rule in
        rule +:+ songSubSQL
    else if negb (Str.empty songSubSQL) then songSubSQL
    else rule in
  rule.

Definition GetAlbumsWhereClause (c : CSmartPlaylistRuleCombination) : Outcome string :=
  '(roleClause, flags) ← GetRolesWhereClause c roleFlagsStart;
  Done (albumsClause c roleClause flags).

(** *** [GetSongsWhereClause] *)

(** One turn of its loop over the rules, on [(albumSubclause,
    albumSourceclause, artistSubclause, albumartistField, artistField)]. *)
Definition songsStep (m_type : combination)
    (st : string * string * string * string * string) (r : CSmartPlaylistRule)
    : string * string * string * string * string :=
  let '(albumSubclause, albumSourceclause, artistSubclause, albumartistField, artistField) :=
    st in
  if IsFieldNative (m_field r) MediaTypeAlbum "artist"
  then
    let query := Rule_GetWhereClause r "artist" in
    let query := Str.Replace query "artistview" "artist" in
    if Field_eqb (m_field r) FieldArtist
    then (albumSubclause, albumSourceclause, artistSubclause, albumartistField,
          CombineClause m_type artistField query)
    else if Field_eqb (m_field r) FieldAlbumArtist
    then (albumSubclause, albumSourceclause, artistSubclause,
          CombineClause m_type albumartistField query, artistField)
    else (albumSubclause, albumSourceclause, CombineClause m_type artistSubclause query,
          albumartistField, artistField)
  else if IsFieldNative (m_field r) MediaTypeArtist "album"
  then
    let query := Rule_GetWhereClause r "albums" in
    let query := Str.Replace query "albumview" "album" in
    (CombineClause m_type albumSubclause query, albumSourceclause, artistSubclause,
     albumartistField, artistField)
  else if Field_eqb (m_field r) FieldSource
  then
    let query := Rule_GetWhereClause r "albums" in
    let query := Str.Replace query "albumview" "album" in
    (albumSubclause, CombineClause m_type albumSourceclause query, artistSubclause,
     albumartistField, artistField)
  else st.

(** The clause [GetSongsWhereClause] builds once the role clause and the
    route flags are known. *)
Definition songsClause (c : CSmartPlaylistRuleCombination) (roleClause : string)
    (flags : RoleFlags) : string :=
  let Combine := CombineClause (m_type c) in
  let rule := "" in
  let '(mkRoleFlags bAlbumArtists bSongArtists bJoinRole bRoleRules) := flags in
  let '(albumSubclause, albumSourceclause, artistSubclause, albumartistField, artistField) :=
    fold_left (songsStep (m_type c)) (m_rules c) ("", "", "", "", "") in
  let bAlbumartistOnly :=
    negb (Str.empty albumartistField) || (bAlbumArtists && negb bSongArtists) in
  let bAlbumartistAndRole := bRoleRules && bAlbumartistOnly in
  let albumSubSQL := "" in
  let albumSubSQL :=
    if negb (Str.empty albumSubclause)
    then
      let albumSub := ExistsSubQuery.make "album" "album.idAlbum = songview.idAlbum" in
      let albumSubclause :=
        if negb (Str.empty albumSourceclause)
        then Combine albumSubclause albumSourceclause else albumSubclause in
      let albumSub := ExistsSubQuery.AppendWhere albumSub (paren albumSubclause) in
      ExistsSubQuery.BuildSQL albumSub albumSubSQL
    else if negb (Str.empty albumSourceclause)
    then Str.Replace albumSourceclause "album.idAlbum" "songview.idAlbum"
    else albumSubSQL in
  let albumArtistSub :=
    ExistsSubQuery.make "album_artist" "album_artist.idAlbum = songview.idAlbum" in
  let albumArtistSub :=
    ExistsSubQuery.AppendJoin albumArtistSub
      "JOIN artist ON artist.idArtist = album_artist.idArtist" in
  let songArtistSub :=
    ExistsSubQuery.make "song_artist" "song_artist.idSong = songview.idSong" in
  let songArtistSub :=
    songArtistStart songArtistSub bAlbumartistAndRole artistSubclause albumartistField
      artistField roleClause bJoinRole in
  let '(artistSubclause, artistClauseAlbum, artistClauseSong) :=
    artistClauses (m_type c) artistSubclause albumartistField artistField in
  let songartistSubclause :=
    songartistClause songArtistSub artistClauseSong bRoleRules bAlbumartistAndRole in
  (* album_artist subquery clause *)
  let albumartistSubclause := "" in
  let albumArtistSub :=
    if negb (Str.empty artistClauseAlbum)
    then ExistsSubQuery.AppendWhere albumArtistSub (paren artistClauseAlbum)
    else albumArtistSub in
  let albumArtistSub :=
    if bAlbumartistAndRole
    then ExistsSubQuery.AppendWhere albumArtistSub songartistSubclause
    else albumArtistSub in
  let albumartistSubclause := ExistsSubQuery.BuildSQL albumArtistSub albumartistSubclause in
  let albumartistSubclause :=
    if bRoleRules && negb bAlbumArtists && Str.empty albumartistField
    then "" else albumartistSubclause in
  (* full SQL clause *)
  let rule :=
    if bAlbumartistOnly then albumartistSubclause
    else if bRoleRules then songartistSubclause
    else if negb (Str.empty artistField) && negb (Str.empty albumartistField)
    then Combine albumartistSubclause songartistSubclause
    else if negb (Str.empty artistClauseSong)
    then albumartistSubclause +:+ " OR " +:+ songartistSubclause
    else rule in
  let rule := if negb (Str.empty albumSubSQL) then Combine albumSubSQL rule else rule in
  rule.

Definition GetSongsWhereClause (c : CSmartPlaylistRuleCombination) : Outcome string :=
  '(roleClause, flags) ← GetRolesWhereClause c roleFlagsStart;
  Done (songsClause c roleClause flags).

Definition GetCombinedWhereClause (c : CSmartPlaylistRuleCombination) (strType : string)
    : Outcome string :=
  if String.eqb strType "artists" then GetArtistsWhereClause c
  else if String.eqb strType "albums" then GetAlbumsWhereClause c
  else if String.eqb strType "songs" then GetSongsWhereClause c
  else Done "".

(** *** [GetWhereClause] of a combination

    [files] is what [CSmartPlaylist::Load] reads: the playlist loaded from a
    file, for the files that load.  [expand] is
    [CSmartPlaylist::GetWhereClause] of a nested playlist;
    [referencedPlaylists] is passed along and returned. *)
Section GetWhereClause.
Variable files : gmap string CSmartPlaylist.
Variable expand : CSmartPlaylist -> gset string -> Outcome (string * gset string).

(** The condition under which a loaded playlist is compiled into the query
    of type [strType]. *)
Definition sameTypeForQuery (playlistType strType : string) : bool :=
  String.eqb playlistType strType ||
  (String.eqb playlistType "mixed" &&
   (String.eqb strType "songs" || String.eqb strType "musicvideos")) ||
  Str.empty playlistType.

Definition SetType (p : CSmartPlaylist) (type : string) : CSmartPlaylist :=
  {| m_playlistName := m_playlistName p; m_playlistType := type;
     m_ruleCombination := m_ruleCombination p |}.

(** The rule of the "playlist" field: [currentRule] and the referenced
    playlists after it. *)
Definition playlistRule (r : CSmartPlaylistRule) (strType : string)
    (referencedPlaylists : gset string) : Outcome (string * gset string) :=
  name ← at0 r;
  let playlistFile := GetPlaylistByName name strType in
  if negb (Str.empty playlistFile) && negb (bool_decide (playlistFile ∈ referencedPlaylists))
  then
    let referencedPlaylists := {[playlistFile]} ∪ referencedPlaylists in
    match files !! playlistFile with
    | Some playlist =>
        '(playlist, playlistQuery, referencedPlaylists) ←
          (if sameTypeForQuery (m_playlistType playlist) strType
           then
             let playlist := SetType playlist strType in
             '(playlistQuery, referencedPlaylists) ← expand playlist referencedPlaylists;
             Done (playlist, playlistQuery, referencedPlaylists)
           else Done (playlist, "", referencedPlaylists));
        if String.eqb (m_playlistType playlist) strType
        then
          if op_eqb (m_operator r) OPERATOR_DOES_NOT_EQUAL
          then Done ("NOT (" +:+ Str.c_str playlistQuery +:+ ")", referencedPlaylists)
          else Done (playlistQuery, referencedPlaylists)
        else Done ("", referencedPlaylists)
    | None => Done ("", referencedPlaylists)
    end
  else Done ("", referencedPlaylists).

(** One turn of the loop over the rules, on [(rule, joinedRules,
    referencedPlaylists)]. *)
Definition ruleStep (m_type : combination) (strType : string)
    (st : string * list CSmartPlaylistRule * gset string) (r : CSmartPlaylistRule)
    : Outcome (string * list CSmartPlaylistRule * gset string) :=
  let '(rule, joinedRules, referencedPlaylists) := st in
  if Field_eqb (m_field r) FieldVirtualFolder then Done st
  else
    '(currentRule, joinedRules, referencedPlaylists) ←
      (if Field_eqb (m_field r) FieldPlaylist
       then
         '(currentRule, referencedPlaylists) ← playlistRule r strType referencedPlaylists;
         Done (currentRule, joinedRules, referencedPlaylists)
       else if negb (IsFieldRuleSimple (m_field r) (FromString strType))
       then Done ("", joinedRules ++ [r], referencedPlaylists)
       else Done (Rule_GetWhereClause r strType, joinedRules, referencedPlaylists));
    Done (CombineClause m_type rule currentRule, joinedRules, referencedPlaylists).

Fixpoint rulesLoop (m_type : combination) (strType : string)
    (st : string * list CSmartPlaylistRule * gset string) (rules : list CSmartPlaylistRule)
    : Outcome (string * list CSmartPlaylistRule * gset string) :=
  match rules with
  | [] => Done st
  | r :: rules' => st' ← ruleStep m_type strType st r; rulesLoop m_type strType st' rules'
  end.

(** The clause of the combined rules, appended after the loop. *)
Definition joinedClause (m_type : combination) (strType : string)
    (st : string * list CSmartPlaylistRule * gset string) : Outcome (string * gset string) :=
  let '(rule, joinedRules, referencedPlaylists) := st in
  if negb (Str.empty_list joinedRules)
  then
    whereclause ← GetCombinedWhereClause (mkCombination m_type [] joinedRules) strType;
    Done (CombineClause m_type rule whereclause, referencedPlaylists)
  else Done (rule, referencedPlaylists).

(** The loop over the child combinations; [recurse] is [GetWhereClause] of
    a child. *)
Fixpoint combinationsLoop
    (recurse : CSmartPlaylistRuleCombination -> gset string -> Outcome (string * gset string))
    (m_type : combination) (its : list CSmartPlaylistRuleCombination) (first : bool)
    (rule : string) (referencedPlaylists : gset string) : Outcome (string * gset string) :=
  match its with
  | [] => Done (rule, referencedPlaylists)
  | combo :: its' =>
      let rule :=
        if first then rule
        else rule +:+ (if isAnd m_type then " AND " else " OR ") in
      '(sub, referencedPlaylists) ← recurse combo referencedPlaylists;
      combinationsLoop recurse m_type its' false (rule +:+ ("(" +:+ sub +:+ ")"))
        referencedPlaylists
  end.

Fixpoint GetWhereClause (c : CSmartPlaylistRuleCombination) (strType : string)
    (referencedPlaylists : gset string) {struct c} : Outcome (string * gset string) :=
  match c with
  | mkCombination m_type m_combinations m_rules =>
      '(rule, referencedPlaylists) ←
        combinationsLoop (fun combo => GetWhereClause combo strType) m_type
          m_combinations true "" referencedPlaylists;
      st ← rulesLoop m_type strType (rule, [], referencedPlaylists) m_rules;
      joinedClause m_type strType st
  end.

End GetWhereClause.

End Combination.
End Combination.

(** ** [CSmartPlaylist] *)

Module Playlist.
Section Playlist.
Context {ext : Externals}.
Variable files : gmap string CSmartPlaylist.

Definition GetType (p : CSmartPlaylist) : string := m_playlistType p.

(** [CSmartPlaylist::GetWhereClause(db, referencedPlaylists)].  [depth]
    bounds the nesting of playlists expanded from this call. *)
Fixpoint GetWhereClause (depth : nat) (p : CSmartPlaylist)
    (referencedPlaylists : gset string) : Outcome (string * gset string) :=
  match depth with
  | O => OutOfFuel
  | S depth' =>
      Combination.GetWhereClause files (GetWhereClause depth')
        (m_ruleCombination p) (GetType p) referencedPlaylists
  end.

(** [CSmartPlaylist::CheckTypeCompatibility]. *)
Definition CheckTypeCompatibility (typeLeft typeRight : string) : bool :=
  if String.eqb typeLeft typeRight then true
  else if String.eqb typeLeft "mixed" &&
          (String.eqb typeRight "songs" || String.eqb typeRight "musicvideos") then true
  else if String.eqb typeRight "mixed" &&
          (String.eqb typeLeft "songs" || String.eqb typeLeft "musicvideos") then true
  else false.

(** [IsVideoType(type)] and [IsMusicType(type)], and their forms on the
    playlist's own type. *)
Definition IsVideoType_of (type : string) : bool :=
  String.eqb type "movies" || String.eqb type "tvshows" || String.eqb type "episodes" ||
  String.eqb type "musicvideos" || String.eqb type "mixed".

Definition IsMusicType_of (type : string) : bool :=
  String.eqb type "artists" || String.eqb type "albums" ||
  String.eqb type "songs" || String.eqb type "mixed".

Definition IsVideoType (p : CSmartPlaylist) : bool := IsVideoType_of (m_playlistType p).

Definition IsMusicType (p : CSmartPlaylist) : bool := IsMusicType_of (m_playlistType p).

Definition GetSaveLocation (p : CSmartPlaylist) : string :=
  if String.eqb (m_playlistType p) "mixed" then "mixed"
  else if IsMusicType p then "music"
  else "video".

(** [GetAvailableFields(type, fieldList)]: the names are appended to
    [fieldList]. *)
Definition GetAvailableFields (type : string) (fieldList : list string) : list string :=
  let typeFields := Rule.GetFields type in
  fold_left
    (fun fieldList field =>
       fold_left
         (fun fieldList i =>
            if Field_eqb field (Rule.tf_field i)
            then fieldList ++ [Rule.tf_string i] else fieldList)
         Rule.fields fieldList)
    typeFields fieldList.

End Playlist.
End Playlist.

(** ** Virtual folders

    [CSmartPlaylistRuleCombination::GetVirtualFolders] and
    [CSmartPlaylist::GetVirtualFolders]: the files of the playlists named by
    "virtualfolder" rules, here and in the playlists that "playlist" rules
    name.  [virtualFolders] is passed along and returned. *)

Module VirtualFolders.
Section VirtualFolders.
Context {ext : Externals}.
Variable files : gmap string CSmartPlaylist.

Section Combination.
(** [expand] is [CSmartPlaylist::GetVirtualFolders] of a loaded playlist. *)
Variable expand : CSmartPlaylist -> list string -> Outcome (list string).

(** One turn of the loop over the rules. *)
Definition ruleStep (strType : string) (virtualFolders : list string)
    (r : CSmartPlaylistRule) : Outcome (list string) :=
  if (negb (Field_eqb (m_field r) FieldVirtualFolder) &&
      negb (Field_eqb (m_field r) FieldPlaylist)) ||
     negb (op_eqb (m_operator r) OPERATOR_EQUALS)
  then Done virtualFolders
  else
    name ← at0 r;
    let playlistFile := GetPlaylistByName name strType in
    if Str.empty playlistFile then Done virtualFolders
    else if Field_eqb (m_field r) FieldVirtualFolder
    then Done (virtualFolders ++ [playlistFile])
    else
      match files !! playlistFile with
      | None => Done virtualFolders
      | Some playlist =>
          if Playlist.CheckTypeCompatibility (Playlist.GetType playlist) strType
          then expand playlist virtualFolders
          else Done virtualFolders
      end.

Fixpoint rulesLoop (strType : string) (virtualFolders : list string)
    (rules : list CSmartPlaylistRule) : Outcome (list string) :=
  match rules with
  | [] => Done virtualFolders
  | r :: rules' =>
      virtualFolders ← ruleStep strType virtualFolders r;
      rulesLoop strType virtualFolders rules'
  end.

(** The loop over the child combinations; [recurse] is [GetVirtualFolders]
    of a child. *)
Fixpoint combinationsLoop
    (recurse : CSmartPlaylistRuleCombination -> list string -> Outcome (list string))
    (its : list CSmartPlaylistRuleCombination) (virtualFolders : list string)
    : Outcome (list string) :=
  match its with
  | [] => Done virtualFolders
  | combo :: its' =>
      virtualFolders ← recurse combo virtualFolders;
      combinationsLoop recurse its' virtualFolders
  end.

(** [CSmartPlaylistRuleCombination::GetVirtualFolders(strType, virtualFolders)]. *)
Fixpoint Combination_GetVirtualFolders (c : CSmartPlaylistRuleCombination)
    (strType : string) (virtualFolders : list string) {struct c} : Outcome (list string) :=
  match c with
  | mkCombination _ m_combinations m_rules =>
      virtualFolders ←
        combinationsLoop (fun combo => Combination_GetVirtualFolders combo strType)
          m_combinations virtualFolders;
      rulesLoop strType virtualFolders m_rules
  end.

End Combination.

(** [CSmartPlaylist::GetVirtualFolders(virtualFolders)].  [depth] bounds
    the nesting of playlists entered from this call. *)
Fixpoint GetVirtualFolders (depth : nat) (p : CSmartPlaylist)
    (virtualFolders : list string) : Outcome (list string) :=
  match depth with
  | O => OutOfFuel
  | S depth' =>
      Combination_GetVirtualFolders (GetVirtualFolders depth')
        (m_ruleCombination p) (Playlist.GetType p) virtualFolders
  end.

(** The rules whose parameter the loop reads: those the test of line 1870
    lets through, of the field "virtualfolder" or "playlist" and with the
    operator "equals". *)
Definition readsParameter (r : CSmartPlaylistRule) : bool :=
  (Field_eqb (m_field r) FieldVirtualFolder || Field_eqb (m_field r) FieldPlaylist) &&
  op_eqb (m_operator r) OPERATOR_EQUALS.

(** Every rule of the combination and of its child combinations whose
    parameter is read has one: [m_parameter.at(0)] of line 1873 is in
    range. *)
Fixpoint parametersPresent (c : CSmartPlaylistRuleCombination) : bool :=
  match c with
  | mkCombination _ m_combinations m_rules =>
      forallb parametersPresent m_combinations &&
      forallb (fun r => negb (readsParameter r) || negb (Str.empty_list (m_parameter r)))
        m_rules
  end.

(** An outcome that, when it is a result, is [virtualFolders] followed by
    non-empty file names. *)
Definition extends (virtualFolders : list string) (out : Outcome (list string)) : Prop :=
  match out with
  | Done folders =>
      exists added : list string,
        folders = virtualFolders ++ added /\ Forall (fun f => f <> "") added
  | _ => True
  end.

End VirtualFolders.
End VirtualFolders.

(** ** A concrete set of collaborators

    Used to run the compiler on concrete playlists. *)

Module Sample.

(** Modelled from the spec: [CMediaTypes::FromString] is not among the
    sources; the media types of the glossary, in the singular, whether given
    in the plural or in the singular. *)
Definition fromString (type : string) : string :=
  if String.eqb type "songs" then "song"
  else if String.eqb type "albums" then "album"
  else if String.eqb type "artists" then "artist"
  else if String.eqb type "movies" then "movie"
  else if String.eqb type "tvshows" then "tvshow"
  else if String.eqb type "episodes" then "episode"
  else if String.eqb type "musicvideos" then "musicvideo"
  else if String.eqb type "music" ||
          String.eqb type "song" || String.eqb type "album" || String.eqb type "artist" ||
          String.eqb type "movie" || String.eqb type "tvshow" || String.eqb type "episode" ||
          String.eqb type "musicvideo" then type
  else "".

(** Modelled from the spec: the native-column resolver of section 6
    ([DatabaseUtils::GetField], not among the sources), for a few fields;
    empty when the field has no direct column for the media type. *)
Definition getField (field : Field) (mediaType : string) : string :=
  match field with
  | FieldTitle =>
      if String.eqb mediaType "song" then "songview.strTitle"
      else if String.eqb mediaType "movie" then "movie_view.c00"
      else ""
  | FieldPlaycount =>
      if String.eqb mediaType "song" then "songview.iTimesPlayed"
      else if String.eqb mediaType "movie" then "movie_view.playCount"
      else ""
  | FieldLastPlayed =>
      if String.eqb mediaType "song" then "songview.lastplayed"
      else if String.eqb mediaType "movie" then "movie_view.lastPlayed"
      else ""
  | FieldArtist | FieldAlbumArtist =>
      if String.eqb mediaType "artist" then "artistview.strArtist" else ""
  | FieldId =>
      if String.eqb mediaType "movie" then "movie_view.idMovie" else ""
  | FieldGenre =>
      if String.eqb mediaType "music" then "genre.strGenre" else ""
  | FieldRole =>
      if String.eqb mediaType "music" then "role.strRole" else ""
  | _ => ""
  end.

(** Modelled from the spec: the table a field is native to
    ([DatabaseUtils::GetNativeTable], not among the sources); the artist
    fields belong to the artist table, as [GetAlbumsWhereClause] notes. *)
Definition getNativeTable (field : Field) (mediaType : string) : string :=
  match field with
  | FieldArtist | FieldAlbumArtist => "artist"
  | FieldGenre | FieldTitle | FieldPlaycount | FieldLastPlayed => "song"
  | _ => ""
  end.

(** Modelled from the spec: parameter formatting of section 6
    ([CDatabase::PrepareSQL], not among the sources), without escaping. *)
Definition prepareSQL (format arg : string) : string := Str.Replace format "%s" arg.

Definition prepareSQL_int (format : string) (arg : Z) : string :=
  Str.Replace format "%i" (Str.of_Z arg).

(** Modelled from the spec: the operator templates of the base rule
    ([CDatabaseQueryRule::GetOperatorString], not among the sources). *)
Definition operatorString (op : SEARCH_OPERATOR) : string :=
  match op with
  | OPERATOR_CONTAINS | OPERATOR_DOES_NOT_CONTAIN => " LIKE '%%s%'"
  | OPERATOR_EQUALS | OPERATOR_DOES_NOT_EQUAL => " LIKE '%s'"
  | OPERATOR_LESS_THAN | OPERATOR_BEFORE => " < '%s'"
  | OPERATOR_GREATER_THAN | OPERATOR_AFTER => " > '%s'"
  | _ => " = '%s'"
  end.

(** Modelled from the spec: the generic fallback of section 4.2, step 6,
    [<columnName> <operator> <formattedParameter>]
    ([CDatabaseQueryRule::FormatWhereClause], not among the sources). *)
Definition baseFormatWhereClause (r : CSmartPlaylistRule)
    (negate oper param strType : string) : string :=
  negate +:+ getField (m_field r) (fromString strType) +:+ prepareSQL oper param.

Definition baseFormatParameters (r : CSmartPlaylistRule)
    (negate oper strType : string) : string :=
  Str.join (if Str.empty negate then " OR " else " AND ")
    (map (fun p => "(" +:+ baseFormatWhereClause r negate oper p strType +:+ ")")
       (m_parameter r)).

Definition negateOf (op : SEARCH_OPERATOR) : string :=
  match op with
  | OPERATOR_DOES_NOT_CONTAIN | OPERATOR_DOES_NOT_EQUAL | OPERATOR_FALSE => " NOT "
  | _ => ""
  end.

(** Modelled from the spec: [Rule.whereClause] of section 4.2 on the
    generic path ([CDatabaseQueryRule::GetWhereClause], not among the
    sources). *)
Definition ruleGetWhereClause (r : CSmartPlaylistRule) (strType : string) : string :=
  baseFormatParameters r (negateOf (m_operator r)) (operatorString (m_operator r)) strType.

(** Modelled from the spec: the playlist store of section 6
    ([CSmartPlaylistDirectory::GetPlaylistByName], not among the sources);
    a playlist named [name] is kept in the file [name.xsp]. *)
Definition getPlaylistByName (name playlistType : string) : string :=
  if Str.empty name then "" else "special://playlists/" +:+ name +:+ ".xsp".

Definition externals : Externals := {|
  MediaTypeNone := "";
  MediaTypeMusic := "music";
  MediaTypeArtist := "artist";
  MediaTypeAlbum := "album";
  MediaTypeSong := "song";
  MediaTypeMovie := "movie";
  MediaTypeMusicVideo := "musicvideo";
  MediaTypeTvShow := "tvshow";
  MediaTypeEpisode := "episode";
  FromString := fromString;
  DatabaseUtils_GetField := getField;
  DatabaseUtils_GetNativeTable := getNativeTable;
  PrepareSQL := prepareSQL;
  PrepareSQL_int := prepareSQL_int;
  TimeStringToSeconds := C.strtol10;
  StreamAUDIO := 1;
  StreamSUBTITLE := 2;
  Base_FormatParameter := fun _ operatorString param _ => prepareSQL operatorString param;
  Base_FormatWhereClause := baseFormatWhereClause;
  Base_FormatParameters := baseFormatParameters;
  Rule_GetWhereClause := ruleGetWhereClause;
  GetPlaylistByName := getPlaylistByName
|}.

Definition titleRule : CSmartPlaylistRule := mkRule FieldTitle OPERATOR_CONTAINS ["love"].

(** The playlist "Inner" of a given type, with one title rule. *)
Definition inner (type : string) : CSmartPlaylist :=
  mkPlaylist "Inner" type (mkCombination CombinationAnd [] [titleRule]).

(** A playlist whose only rule references the playlist "Inner". *)
Definition outer (type : string) (op : SEARCH_OPERATOR) : CSmartPlaylist :=
  mkPlaylist "Outer" type
    (mkCombination CombinationAnd [] [mkRule FieldPlaylist op ["Inner"]]).

Definition innerFile : string := "special://playlists/Inner.xsp".

(** The playlist "P" that references itself and has one title rule. *)
Definition selfP : CSmartPlaylist :=
  mkPlaylist "P" "songs"
    (mkCombination CombinationAnd []
       [mkRule FieldPlaylist OPERATOR_EQUALS ["P"]; titleRule]).

Definition selfFile : string := "special://playlists/P.xsp".

(** Two playlists that reference each other. *)
Definition ping : CSmartPlaylist :=
  mkPlaylist "Ping" "songs"
    (mkCombination CombinationOr []
       [mkRule FieldPlaylist OPERATOR_EQUALS ["Pong"]; titleRule]).

Definition pong : CSmartPlaylist :=
  mkPlaylist "Pong" "songs"
    (mkCombination CombinationAnd
       [mkCombination CombinationOr [] [mkRule FieldPlaylist OPERATOR_DOES_NOT_EQUAL ["Ping"]]]
       [titleRule]).

Definition circular : gmap string CSmartPlaylist :=
  <["special://playlists/Ping.xsp" := ping]>
    (<["special://playlists/Pong.xsp" := pong]> ∅).

End Sample.


(** ** What the scan of [GetRolesWhereClause] keeps of a rule group

    The scan of lines 1196-1223 sets its locals anew at every role rule:
    [bAlbumartistRule] and [bNegAlbumartistRule] at each rule whose value is
    "albumartist", [bArtistRule] and [bNegArtistRule] at each rule whose value
    is "artist".  Of several rules with the same value the last one is
    therefore the one that counts.  These definitions read the locals, and
    the flags that "Validate role rule logic" derives from them, off the list
    of rules. *)

Module RoleRules.

(** [r] is a role rule whose value is [name], whatever the case. *)
Definition namesRole (name : string) (r : CSmartPlaylistRule) : bool :=
  Field_eqb (m_field r) FieldRole &&
  match m_parameter r with
  | p :: _ => Str.EqualsNoCase p name
  | [] => false
  end.

(** The group has a role rule with the value "%" (line 1218). *)
Definition wildRole (rules : list CSmartPlaylistRule) : bool :=
  existsb (namesRole "%") rules.

(** [r] is a role rule of another role: its value is none of "albumartist",
    "artist" and "%", so that the scan keeps it in [roleRules] (line 1221). *)
Definition otherRole (r : CSmartPlaylistRule) : bool :=
  Field_eqb (m_field r) FieldRole &&
  match m_parameter r with
  | p :: _ =>
      negb (Str.EqualsNoCase p "albumartist") && negb (Str.EqualsNoCase p "artist") &&
      negb (Str.EqualsNoCase p "%")
  | [] => false
  end.

(** The last rule of the group that is a role rule with the value [name]:
    the one whose assignments (lines 1206-1209, 1214-1216) are not
    overwritten. *)
Fixpoint lastRole (name : string) (rules : list CSmartPlaylistRule)
    : option CSmartPlaylistRule :=
  match rules with
  | [] => None
  | r :: rules' =>
      match lastRole name rules' with
      | Some d => Some d
      | None => if namesRole name r then Some r else None
      end
  end.

(** The last role rule for [name] is a negated one, respectively one that is
    not negated. *)
Definition lastNegated (name : string) (rules : list CSmartPlaylistRule) : bool :=
  match lastRole name rules with
  | Some r => Combination.isNegOperator r
  | None => false
  end.

Definition lastPlain (name : string) (rules : list CSmartPlaylistRule) : bool :=
  match lastRole name rules with
  | Some r => negb (Combination.isNegOperator r)
  | None => false
  end.

(** The condition of line 1236, which turns [bAlbumArtists] off. *)
Definition albumRouteOff (t : combination) (rules : list CSmartPlaylistRule) : bool :=
  isAnd t && (lastNegated "albumartist" rules || lastPlain "artist" rules).

(** The condition of line 1238, which turns [bSongArtists] off. *)
Definition songRouteOff (t : combination) (rules : list CSmartPlaylistRule) : bool :=
  isAnd t && (lastNegated "artist" rules || lastPlain "albumartist" rules).

(** The flags (album-artist route, song-artist route) after "Validate role
    rule logic" (lines 1225-1244). *)
Definition validated (t : combination) (rules : list CSmartPlaylistRule) : bool * bool :=
  if wildRole rules then (true, true)
  else if albumRouteOff t rules && songRouteOff t rules then (true, false)
  else (negb (albumRouteOff t rules), negb (songRouteOff t rules)).

End RoleRules.

(** ** The specification's statements, where they are compared with the code *)

Module Spec.

(** The bound check an operator selects on a width band [[min, max]]:
    equals within the band, does-not-equal outside it, less-than below its
    minimum, greater-than above its maximum. *)
Definition boundCheck (op : SEARCH_OPERATOR) (min max : Z) : string :=
  match op with
  | OPERATOR_EQUALS => ">= " +:+ Str.of_Z min +:+ " AND iVideoWidth <= " +:+ Str.of_Z max
  | OPERATOR_DOES_NOT_EQUAL => "< " +:+ Str.of_Z min +:+ " OR iVideoWidth > " +:+ Str.of_Z max
  | OPERATOR_LESS_THAN => "< " +:+ Str.of_Z min
  | OPERATOR_GREATER_THAN => "> " +:+ Str.of_Z max
  | _ => ""
  end.

Definition resolutionQuery (op : SEARCH_OPERATOR) (min max : Z) : string :=
  " IN (SELECT DISTINCT idFile FROM streamdetails WHERE iVideoWidth " +:+
  boundCheck op min max +:+ ")".

(** The five bands with the thresholds as the specification words them:
    2161, 1081, 721 and 541. *)
Definition statedBand (iRes : Z) : Z * Z :=
  if 2161 <=? iRes then (1921, C.INT_MAX)
  else if 1081 <=? iRes then (1281, 1920)
  else if 721 <=? iRes then (961, 1280)
  else if 541 <=? iRes then (721, 960)
  else (0, 720).

(** The group has a negated, respectively a non-negated, role rule for
    [name], as the specification words its conditions: any such rule of the
    group counts. *)
Definition hasNegatedRole (name : string) (rules : list CSmartPlaylistRule) : bool :=
  existsb (fun r => RoleRules.namesRole name r && Combination.isNegOperator r) rules.

Definition hasPlainRole (name : string) (rules : list CSmartPlaylistRule) : bool :=
  existsb (fun r => RoleRules.namesRole name r && negb (Combination.isNegOperator r)) rules.

(** "Under AND-combination, a negated "albumartist" role rule or a
    non-negated "artist" role rule disables the album-artist route". *)
Definition statedAlbumRouteDisabled (t : combination) (rules : list CSmartPlaylistRule)
    : bool :=
  isAnd t && (hasNegatedRole "albumartist" rules || hasPlainRole "artist" rules).

(** "The mirror condition disables the song-artist route". *)
Definition statedSongRouteDisabled (t : combination) (rules : list CSmartPlaylistRule)
    : bool :=
  isAnd t && (hasNegatedRole "artist" rules || hasPlainRole "albumartist" rules).

(** The route-enable flags (album-artist route, song-artist route) as the
    specification words them: a "%" role value leaves both routes enabled;
    otherwise each route is enabled unless its condition disables it, and "if
    both would be disabled, the album-artist route is kept". *)
Definition statedRoutes (t : combination) (rules : list CSmartPlaylistRule) : bool * bool :=
  if RoleRules.wildRole rules then (true, true)
  else if statedAlbumRouteDisabled t rules && statedSongRouteDisabled t rules
  then (true, false)
  else (negb (statedAlbumRouteDisabled t rules), negb (statedSongRouteDisabled t rules)).

(** The rule group of the role example: role equals "albumartist", artist
    contains "Bob". *)
Definition roleExample (t : combination) : CSmartPlaylistRuleCombination :=
  mkCombination t []
    [ mkRule FieldRole OPERATOR_EQUALS ["albumartist"];
      mkRule FieldArtist OPERATOR_CONTAINS ["Bob"] ].

(** The album-artist route of an "albums" clause: the [album_artist]
    subquery holding the artist clause. *)
Definition albumArtistRoute (artistClause : string) : string :=
  "EXISTS (SELECT 1 FROM album_artist JOIN artist ON artist.idArtist = album_artist.idArtist WHERE album_artist.idAlbum = albumview.idAlbum AND (" +:+
  artistClause +:+ "))".

(** The song-artist route of an "albums" clause: the [song] subquery
    holding the [song_artist] subquery with the artist clause. *)
Definition songArtistRoute (artistClause : string) : string :=
  "EXISTS (SELECT 1 FROM song WHERE song.idAlbum = albumview.idAlbum AND (EXISTS (SELECT 1 FROM song_artist JOIN artist ON artist.idArtist = song_artist.idArtist WHERE song_artist.idSong = song.idSong AND song_artist.idRole = 1 AND (" +:+
  artistClause +:+ "))))".

(** The types under which [GetWhereClause] makes a nested playlist part of
    a query of type [strType]: the same type, "mixed" inside "songs" or
    "musicvideos", or no type at all. *)
Definition spliceable (nested strType : string) : Prop :=
  nested = strType \/
  (nested = "mixed" /\ (strType = "songs" \/ strType = "musicvideos")) \/
  nested = "".

(** What a nested clause contributes to the outer rule: itself, or its
    negation when the rule's operator is does-not-equal. *)
Definition spliced (r : CSmartPlaylistRule) (playlistQuery : string) : string :=
  if op_eqb (m_operator r) OPERATOR_DOES_NOT_EQUAL
  then "NOT (" +:+ Str.c_str playlistQuery +:+ ")"
  else playlistQuery.

(** A compile that returns or throws, and in which the referenced playlists
    only grow. *)
Definition returnsGrown (referenced : gset string) (out : Outcome (string * gset string))
    : Prop :=
  match out with
  | Done (_, referenced') => referenced ⊆ referenced'
  | OutOfRange => True
  | OutOfFuel => False
  end.

(** The same for the state of the loop over the rules. *)
Definition loopReturnsGrown (referenced : gset string)
    (out : Outcome (string * list CSmartPlaylistRule * gset string)) : Prop :=
  match out with
  | Done (_, _, referenced') => referenced ⊆ referenced'
  | OutOfRange => True
  | OutOfFuel => False
  end.

(** The playlist files not yet referenced: what is left to expand. *)
Definition unreferenced (files : gmap string CSmartPlaylist) (referenced : gset string)
    : nat :=
  size (dom files ∖ referenced).

(** The clause of one parameter value of a genre rule, as the loop of
    [FormatParameters] asks for it. *)
Definition valueClause {ext : Externals} (r : CSmartPlaylistRule) (oper p : string) : string :=
  Rule.FormatWhereClause r "" oper p MediaTypeMusic.

(** The EXISTS subquery on the genres of a song, holding [condition]. *)
Definition genreSubquery (condition : string) : string :=
  "EXISTS (SELECT 1 FROM song_genre JOIN genre ON genre.idGenre = song_genre.idGenre WHERE song_genre.idSong = songview.idSong" +:+
  (if Str.empty condition then "" else " AND " +:+ condition) +:+ ")".

(** The rewrite of a comparison on a column that may be NULL. *)
Definition nullFallback (column comparison : string) : string :=
  column +:+ " IS NULL OR " +:+ column +:+ comparison.

(** The same rewrite as the "songs" and "albums" branches spell it. *)
Definition nullFallbackMusic (column comparison : string) : string :=
  column +:+ " is NULL or " +:+ column +:+ comparison.

(** C6 as the specification states it: on every media type that offers the
    field, an affirmative less-than, before or not-in-the-last rule on last
    played, date added or playcount compiles to the NULL rewrite. *)
Definition statedNullFallback : Prop :=
  forall (ext : Externals) (r : CSmartPlaylistRule) (oper param strType : string),
    In (m_field r) [FieldLastPlayed; FieldDateAdded; FieldPlaycount] ->
    Rule.isBeforeOperator r = true ->
    In (m_field r) (Rule.GetFields strType) ->
    let column := Rule.GetField (m_field r) strType in
    let comparison := Rule.FormatParameter r oper param strType in
    Rule.FormatWhereClause r "" oper param strType = nullFallback column comparison \/
    Rule.FormatWhereClause r "" oper param strType = nullFallbackMusic column comparison.

End Spec.

(** * Properties *)

#[local] Arguments String.append !s1 s2 : simpl nomatch.

Lemma Field_of_tag_tag (f : Field) : Field_of_tag (Field_tag f) = f.
Proof. destruct f; reflexivity. Qed.

Lemma Field_tag_inj (f g : Field) : Field_tag f = Field_tag g -> f = g.
Proof.
  intros E. rewrite <- (Field_of_tag_tag f), <- (Field_of_tag_tag g).
  f_equal. exact E.
Qed.

Lemma Field_eqb_eq (f g : Field) : Field_eqb f g = true <-> f = g.
Proof.
  unfold Field_eqb. rewrite Pos.eqb_eq. split.
  - apply Field_tag_inj.
  - intros ->. reflexivity.
Qed.

Lemma Field_eqb_refl (f : Field) : Field_eqb f f = true.
Proof. apply Field_eqb_eq. reflexivity. Qed.

Lemma op_eqb_eq (a b : SEARCH_OPERATOR) : op_eqb a b = true <-> a = b.
Proof.
  split.
  - apply internal_SEARCH_OPERATOR_dec_bl.
  - apply internal_SEARCH_OPERATOR_dec_lb.
Qed.

(** ** Video resolution *)

Section VideoResolution.
Context {ext : Externals}.

Lemma band_cases (iRes : Z) :
  (2160 <= iRes /\ Rule.band iRes = (1921, C.INT_MAX)) \/
  (1080 <= iRes < 2160 /\ Rule.band iRes = (1281, 1920)) \/
  (720 <= iRes < 1080 /\ Rule.band iRes = (961, 1280)) \/
  (540 <= iRes < 720 /\ Rule.band iRes = (721, 960)) \/
  (iRes < 540 /\ Rule.band iRes = (0, 720)).
Proof.
  unfold Rule.band, Rule.INT_MAX.
  destruct (Z.leb_spec 2160 iRes); [left; split; [lia | reflexivity] | right].
  destruct (Z.leb_spec 1080 iRes); [left; split; [lia | reflexivity] | right].
  destruct (Z.leb_spec 720 iRes); [left; split; [lia | reflexivity] | right].
  destruct (Z.leb_spec 540 iRes); [left; split; [lia | reflexivity] | right].
  split; [lia | reflexivity].
Qed.

Lemma query_of_band (r : CSmartPlaylistRule) (parameter : string) (min max : Z) :
  Rule.band (C.to_int (C.strtol10 parameter)) = (min, max) ->
  Rule.GetVideoResolutionQuery r parameter = Spec.resolutionQuery (m_operator r) min max.
Proof.
  intros E. unfold Rule.GetVideoResolutionQuery, Spec.resolutionQuery, Spec.boundCheck.
  rewrite E. destruct (m_operator r); reflexivity.
Qed.

(** C7, as amended.  For every video-resolution rule the parsed parameter
    falls in exactly one of five bands, with the thresholds 2160, 1080, 720
    and 540: from 2160 the band is [1921, INT_MAX], from 1080 it is
    [1281, 1920], from 720 it is [961, 1280], from 540 it is [721, 960],
    below it is [0, 720]; and the operator selects the bound check on that
    band (equals within, does-not-equal outside, less-than below the
    minimum, greater-than above the maximum). *)
Theorem video_resolution_bands (r : CSmartPlaylistRule) (parameter : string) :
  let iRes := C.to_int (C.strtol10 parameter) in
  exists min max : Z,
    Rule.GetVideoResolutionQuery r parameter = Spec.resolutionQuery (m_operator r) min max /\
    ((2160 <= iRes /\ min = 1921 /\ max = C.INT_MAX) \/
     (1080 <= iRes < 2160 /\ min = 1281 /\ max = 1920) \/
     (720 <= iRes < 1080 /\ min = 961 /\ max = 1280) \/
     (540 <= iRes < 720 /\ min = 721 /\ max = 960) \/
     (iRes < 540 /\ min = 0 /\ max = 720)).
Proof.
  intros iRes.
  destruct (Rule.band iRes) as [min max] eqn:E.
  exists min, max. split; [apply query_of_band; exact E |].
  destruct (band_cases iRes) as [[H B] | [[H B] | [[H B] | [[H B] | [H B]]]]];
    rewrite E in B; injection B as -> ->; tauto.
Qed.

(** C7 as stated fails: with the thresholds 2161, 1081, 721 and 541 the
    parameter "1080" would fall in the band [961, 1280], and the code puts
    it in [1281, 1920]. *)
Lemma video_resolution_stated_thresholds_fail :
  let r := mkRule FieldVideoResolution OPERATOR_EQUALS ["1080"] in
  Spec.statedBand (C.to_int (C.strtol10 "1080")) = (961, 1280) /\
  Rule.GetVideoResolutionQuery r "1080" = Spec.resolutionQuery OPERATOR_EQUALS 1281 1920 /\
  Rule.GetVideoResolutionQuery r "1080" <> Spec.resolutionQuery OPERATOR_EQUALS 961 1280.
Proof.
  split; [reflexivity | split; [reflexivity |]].
  vm_compute. discriminate.
Qed.

(** C8, as amended.  Equals "1080" constrains the width to [1281, 1920],
    equals "2160" to [1921, INT_MAX], and less-than "720" constrains it to
    be below 961, the minimum of the band [961, 1280] in which 720 falls. *)
Theorem video_resolution_examples :
  Rule.GetVideoResolutionQuery (mkRule FieldVideoResolution OPERATOR_EQUALS ["1080"]) "1080" =
    " IN (SELECT DISTINCT idFile FROM streamdetails WHERE iVideoWidth >= 1281 AND iVideoWidth <= 1920)" /\
  Rule.GetVideoResolutionQuery (mkRule FieldVideoResolution OPERATOR_EQUALS ["2160"]) "2160" =
    " IN (SELECT DISTINCT idFile FROM streamdetails WHERE iVideoWidth >= 1921 AND iVideoWidth <= 2147483647)" /\
  Rule.GetVideoResolutionQuery (mkRule FieldVideoResolution OPERATOR_LESS_THAN ["720"]) "720" =
    " IN (SELECT DISTINCT idFile FROM streamdetails WHERE iVideoWidth < 961)".
Proof. repeat split; reflexivity. Qed.

(** C8 as stated fails in its last part: less-than "720" does not constrain
    the width to be below 0. *)
Lemma video_resolution_less_than_720_not_below_0 :
  Rule.GetVideoResolutionQuery (mkRule FieldVideoResolution OPERATOR_LESS_THAN ["720"]) "720" <>
    Spec.resolutionQuery OPERATOR_LESS_THAN 0 720.
Proof. vm_compute. discriminate. Qed.

End VideoResolution.

(** ** Type compatibility *)

(** C10.  [CheckTypeCompatibility] is symmetric in its two media types. *)
Theorem CheckTypeCompatibility_symmetric (a b : string) :
  Playlist.CheckTypeCompatibility a b = Playlist.CheckTypeCompatibility b a.
Proof.
  unfold Playlist.CheckTypeCompatibility.
  rewrite (String.eqb_sym b a).
  destruct (String.eqb a b); [reflexivity |].
  destruct (String.eqb a "mixed"), (String.eqb b "mixed"),
    (String.eqb a "songs"), (String.eqb b "songs"),
    (String.eqb a "musicvideos"), (String.eqb b "musicvideos"); reflexivity.
Qed.

(** ** Strings *)

Lemma empty_append (a b : string) : Str.empty (a +:+ b) = Str.empty a && Str.empty b.
Proof. destruct a; reflexivity. Qed.

Lemma empty_true (a : string) : Str.empty a = true <-> a = "".
Proof. destruct a; simpl; split; congruence. Qed.

Lemma empty_false (a : string) : Str.empty a = false <-> a <> "".
Proof. destruct a; simpl; split; congruence. Qed.

Lemma append_assoc (a b c : string) : (a +:+ b) +:+ c = a +:+ (b +:+ c).
Proof. induction a as [| x a IH]; simpl; [reflexivity | f_equal; exact IH]. Qed.

Lemma append_cons (x : ascii) (a b : string) : String x a +:+ b = String x (a +:+ b).
Proof. reflexivity. Qed.

Lemma append_empty_r (a : string) : a +:+ "" = a.
Proof. induction a as [| x a IH]; simpl; [reflexivity | f_equal; exact IH]. Qed.

(** ** The NULL rewrite of dates and counts *)

Section NullFallback.
Context {ext : Externals}.

Lemma nullFallback_not_empty (column comparison : string) :
  Str.empty (Spec.nullFallback column comparison) = false.
Proof. unfold Spec.nullFallback. rewrite empty_append, andb_false_r. reflexivity. Qed.

Lemma nullFallbackMusic_not_empty (column comparison : string) :
  Str.empty (Spec.nullFallbackMusic column comparison) = false.
Proof. unfold Spec.nullFallbackMusic. rewrite empty_append, andb_false_r. reflexivity. Qed.

(** What [FormatWhereClause] returns once the three stages have left
    [query]. *)
Lemma FormatWhereClause_stages (r : CSmartPlaylistRule) (negate oper param strType : string) :
  Rule.FormatWhereClause r negate oper param strType =
    let parameter := Rule.FormatParameter r oper param strType in
    let tq := Rule.typeBranch r negate parameter strType in
    let query :=
      Rule.playcountBranch r param parameter strType
        (Rule.streamBranch r negate param parameter (fst tq) (snd tq)) in
    if Str.empty query then Base_FormatWhereClause r negate oper param strType else query.
Proof.
  unfold Rule.FormatWhereClause.
  destruct (Rule.typeBranch r negate _ strType) as [table query]. reflexivity.
Qed.

Ltac null_stages Hop :=
  rewrite FormatWhereClause_stages;
  unfold Rule.typeBranch, Rule.streamBranch, Rule.playcountBranch;
  try rewrite Hop;
  cbv beta iota zeta
    delta [String.eqb Ascii.eqb Bool.eqb Field_eqb Field_tag Pos.eqb andb orb negb fst snd
           m_field].

Lemma lastplayed_music (op : SEARCH_OPERATOR) (ps : list string)
    (negate oper param strType : string) :
  let r := mkRule FieldLastPlayed op ps in
  Rule.isBeforeOperator r = true ->
  strType = "songs" \/ strType = "albums" ->
  Rule.FormatWhereClause r negate oper param strType =
    Spec.nullFallbackMusic (Rule.GetField FieldLastPlayed strType)
      (Rule.FormatParameter r oper param strType).
Proof.
  intros r Hop [-> | ->]; subst r; null_stages Hop;
    match goal with
    | |- context [Str.empty ?q] =>
        change q with (Spec.nullFallbackMusic (Rule.GetField FieldLastPlayed "songs")
                         (Rule.FormatParameter (mkRule FieldLastPlayed op ps) oper param "songs")) ||
        change q with (Spec.nullFallbackMusic (Rule.GetField FieldLastPlayed "albums")
                         (Rule.FormatParameter (mkRule FieldLastPlayed op ps) oper param "albums"))
    end;
    rewrite nullFallbackMusic_not_empty; reflexivity.
Qed.

Lemma dates_video (f : Field) (op : SEARCH_OPERATOR) (ps : list string)
    (negate oper param strType : string) :
  let r := mkRule f op ps in
  Rule.isBeforeOperator r = true ->
  f = FieldLastPlayed \/ f = FieldDateAdded ->
  strType = "movies" \/ strType = "musicvideos" \/ strType = "tvshows" \/
    strType = "episodes" ->
  Rule.FormatWhereClause r negate oper param strType =
    Spec.nullFallback (Rule.GetField f strType) (Rule.FormatParameter r oper param strType).
Proof.
  intros r Hop [-> | ->] [-> | [-> | [-> | ->]]]; subst r; null_stages Hop;
    match goal with
    | |- (if Str.empty ?q then _ else _) = ?rhs => change q with rhs
    end;
    rewrite nullFallback_not_empty; reflexivity.
Qed.

Lemma playcount_video (ps : list string) (negate oper param strType : string) :
  let r := mkRule FieldPlaycount OPERATOR_LESS_THAN ps in
  strType <> "songs" -> strType <> "albums" -> strType <> "tvshows" ->
  Rule.FormatWhereClause r negate oper param strType =
    Spec.nullFallback (Rule.GetField FieldPlaycount strType)
      (Rule.FormatParameter r oper param strType).
Proof.
  intros r H1 H2 H3. subst r. rewrite FormatWhereClause_stages.
  unfold Rule.playcountBranch.
  apply String.eqb_neq in H1, H2, H3. rewrite H1, H2, H3.
  cbn -[String.append Rule.GetField Rule.FormatParameter Rule.typeBranch Rule.streamBranch].
  rewrite ?orb_true_r.
  match goal with
  | |- (if Str.empty ?q then _ else _) = ?rhs => change q with rhs
  end.
  rewrite nullFallback_not_empty. reflexivity.
Qed.

Lemma playcount_music (op : SEARCH_OPERATOR) (ps : list string)
    (negate oper param strType : string) :
  let r := mkRule FieldPlaycount op ps in
  strType = "songs" \/ strType = "albums" ->
  Rule.FormatWhereClause r negate oper param strType =
    Base_FormatWhereClause r negate oper param strType.
Proof.
  intros r [-> | ->]; subst r; null_stages I; reflexivity.
Qed.

(** C6, as amended.  For a rule whose operator is less-than, before or
    not-in-the-last, [FormatWhereClause] returns the NULL rewrite of the
    comparison, [column IS NULL OR column<comparison>]:
    for last played on "songs" and "albums" (spelled [is NULL or]);
    for last played and date added on "movies", "musicvideos", "tvshows"
    and "episodes"; and for playcount with less-than on every media type
    other than "songs", "albums" and "tvshows".  Playcount on "songs" and
    "albums" is not rewritten: it takes the generic comparison of the base
    rule. *)
Theorem null_fallback (f : Field) (op : SEARCH_OPERATOR) (ps : list string)
    (negate oper param strType : string) :
  let r := mkRule f op ps in
  let column := Rule.GetField f strType in
  let comparison := Rule.FormatParameter r oper param strType in
  Rule.isBeforeOperator r = true ->
  (f = FieldLastPlayed -> strType = "songs" \/ strType = "albums" ->
   Rule.FormatWhereClause r negate oper param strType =
     Spec.nullFallbackMusic column comparison) /\
  (f = FieldLastPlayed \/ f = FieldDateAdded ->
   strType = "movies" \/ strType = "musicvideos" \/ strType = "tvshows" \/
     strType = "episodes" ->
   Rule.FormatWhereClause r negate oper param strType = Spec.nullFallback column comparison) /\
  (f = FieldPlaycount -> op = OPERATOR_LESS_THAN ->
   strType <> "songs" -> strType <> "albums" -> strType <> "tvshows" ->
   Rule.FormatWhereClause r negate oper param strType = Spec.nullFallback column comparison) /\
  (f = FieldPlaycount -> strType = "songs" \/ strType = "albums" ->
   Rule.FormatWhereClause r negate oper param strType =
     Base_FormatWhereClause r negate oper param strType).
Proof.
  intros r column comparison Hop. subst r column comparison. repeat split.
  - intros -> HT. apply lastplayed_music; assumption.
  - intros Hf HT. apply dates_video; assumption.
  - intros -> -> H1 H2 H3. apply playcount_video; assumption.
  - intros -> HT. apply playcount_music; assumption.
Qed.

End NullFallback.

Lemma null_fallback_witness :
  Rule.isBeforeOperator (mkRule FieldLastPlayed OPERATOR_BEFORE ["2020-01-01"]) = true /\
  Rule.FormatWhereClause (ext := Sample.externals)
    (mkRule FieldLastPlayed OPERATOR_BEFORE ["2020-01-01"]) "" " < '%s'" "2020-01-01" "movies" =
    "movie_view.lastPlayed IS NULL OR movie_view.lastPlayed < '2020-01-01'".
Proof.
  split; [reflexivity |].
  refine (eq_trans
    (proj1 (proj2 (null_fallback (ext := Sample.externals) FieldLastPlayed OPERATOR_BEFORE
       ["2020-01-01"] "" " < '%s'" "2020-01-01" "movies" eq_refl))
       (or_introl eq_refl) (or_introl eq_refl)) _).
  reflexivity.
Defined.

(** C6 as stated fails: playcount is offered for "songs", and a less-than
    rule on it compiles to the bare comparison. *)
Lemma null_fallback_not_for_song_playcount :
  In FieldPlaycount (Rule.GetFields "songs") /\
  Rule.FormatWhereClause (ext := Sample.externals)
    (mkRule FieldPlaycount OPERATOR_LESS_THAN ["5"]) "" " < '%s'" "5" "songs" =
    "songview.iTimesPlayed < '5'" /\
  ~ Spec.statedNullFallback.
Proof.
  split; [vm_compute; tauto |]. split; [reflexivity |].
  intros H.
  specialize (H Sample.externals (mkRule FieldPlaycount OPERATOR_LESS_THAN ["5"])
                " < '%s'" "5" "songs").
  destruct H as [H | H].
  - simpl. tauto.
  - reflexivity.
  - vm_compute. tauto.
  - vm_compute in H. discriminate H.
  - vm_compute in H. discriminate H.
Qed.

(** ** Multi-valued genre rules on "songs" *)

Section GenreParameters.
Context {ext : Externals}.
Variable r : CSmartPlaylistRule.
Variable oper : string.


Lemma join_cons (sep c : string) (l : list string) :
  Str.join sep (c :: l) = c +:+ Str.joinTail sep l.
Proof.
  revert c. induction l as [| d l IH]; intros c.
  - simpl. rewrite append_empty_r. reflexivity.
  - change (Str.join sep (c :: d :: l)) with (c +:+ sep +:+ Str.join sep (d :: l)).
    rewrite IH. reflexivity.
Qed.

Lemma gatherStep_affirmative (p w : string) (q : ExistsSubQuery.t) :
  w <> "" ->
  Rule.gatherStep r "" oper (w, q) p = ((w +:+ " OR ") +:+ Spec.valueClause r oper p, q).
Proof.
  intros Hw. apply empty_false in Hw. unfold Rule.gatherStep. simpl Str.empty.
  rewrite Hw. reflexivity.
Qed.

Lemma gather_affirmative (ps : list string) (w : string) (q : ExistsSubQuery.t) :
  w <> "" ->
  Forall (fun p => Spec.valueClause r oper p <> "") ps ->
  fold_left (Rule.gatherStep r "" oper) ps (w, q) =
    (w +:+ Str.joinTail " OR " (map (Spec.valueClause r oper) ps), q).
Proof.
  revert w. induction ps as [| p ps IH]; intros w Hw Hps.
  - simpl. rewrite append_empty_r. reflexivity.
  - inversion Hps as [| ? ? Hp Hps']; subst.
    cbn [fold_left]. rewrite gatherStep_affirmative by assumption. rewrite IH.
    + simpl map. simpl Str.joinTail. rewrite !append_assoc. reflexivity.
    + intros E. apply (f_equal Str.empty) in E. apply empty_false in Hw.
      rewrite !empty_append, Hw in E. discriminate E.
    + assumption.
Qed.

Lemma build_genre (c : string) :
  ExistsSubQuery.BuildSQL (ExistsSubQuery.AppendWhere Rule.genreExistsQuery c) c = Spec.genreSubquery c.
Proof. destruct c; reflexivity. Qed.

Lemma reset_genre (c : string) :
  ExistsSubQuery.set_where (ExistsSubQuery.AppendWhere Rule.genreExistsQuery c) "" = Rule.genreExistsQuery.
Proof. destruct c; reflexivity. Qed.

Lemma gatherStep_negated (negate p w : string) :
  negate <> "" ->
  Rule.gatherStep r negate oper (w, Rule.genreExistsQuery) p =
    ((if negb (Str.empty w) then w +:+ " AND " else w) +:+
     (negate +:+ Spec.genreSubquery (Spec.valueClause r oper p)), Rule.genreExistsQuery).
Proof.
  intros Hn. apply empty_false in Hn. unfold Rule.gatherStep. rewrite Hn.
  fold (Spec.valueClause r oper p). rewrite build_genre, reset_genre. reflexivity.
Qed.

Lemma gather_negated (negate : string) (ps : list string) (w : string) :
  negate <> "" -> w <> "" ->
  fold_left (Rule.gatherStep r negate oper) ps (w, Rule.genreExistsQuery) =
    (w +:+ Str.joinTail " AND " (map (fun p => negate +:+ Spec.genreSubquery (Spec.valueClause r oper p)) ps),
     Rule.genreExistsQuery).
Proof.
  intros Hn. revert w. induction ps as [| p ps IH]; intros w Hw.
  - simpl. rewrite append_empty_r. reflexivity.
  - cbn [fold_left]. rewrite gatherStep_negated by assumption.
    apply empty_false in Hw. rewrite Hw. simpl negb. cbv iota. rewrite IH.
    + simpl map. simpl Str.joinTail. rewrite !append_assoc. reflexivity.
    + intros E. apply (f_equal Str.empty) in E.
      rewrite !empty_append, Hw in E. discriminate E.
Qed.

Lemma genreSubquery_not_empty (c : string) : Str.empty (Spec.genreSubquery c) = false.
Proof. reflexivity. Qed.

Lemma genre_dispatch (negate : string) :
  m_field r = FieldGenre ->
  Rule.FormatParameters r negate oper "songs" =
    if Str.empty (Rule.gatherParameters r negate oper Rule.genreExistsQuery)
    then Base_FormatParameters r negate oper "songs"
    else Rule.gatherParameters r negate oper Rule.genreExistsQuery.
Proof. intros Hf. unfold Rule.FormatParameters. rewrite Hf. reflexivity. Qed.

Lemma gathered_affirmative :
  (1 < length (m_parameter r))%nat ->
  Forall (fun p => Spec.valueClause r oper p <> "") (m_parameter r) ->
  Rule.gatherParameters r "" oper Rule.genreExistsQuery =
    Spec.genreSubquery ("(" +:+ Str.join " OR " (map (Spec.valueClause r oper) (m_parameter r)) +:+ ")").
Proof.
  intros Hlen Hall. unfold Rule.gatherParameters.
  apply Nat.ltb_lt in Hlen. rewrite Hlen.
  destruct (m_parameter r) as [| p ps]; [discriminate Hlen |]. clear Hlen.
  inversion Hall as [| ? ? Hp Hps]; subst.
  cbn [fold_left].
  replace (Rule.gatherStep r "" oper ("", Rule.genreExistsQuery) p) with (Spec.valueClause r oper p, Rule.genreExistsQuery)
    by reflexivity.
  rewrite gather_affirmative by assumption.
  cbn [map]. rewrite <- join_cons.
  set (W := Str.join " OR " (Spec.valueClause r oper p :: map (Spec.valueClause r oper) ps)).
  assert (HW : Str.empty W = false).
  { subst W. rewrite join_cons, empty_append.
    apply empty_false in Hp. rewrite Hp. reflexivity. }
  rewrite HW. simpl andb. cbv iota.
  apply build_genre.
Qed.

Lemma gathered_negated (negate : string) :
  negate <> "" ->
  m_parameter r <> [] ->
  Rule.gatherParameters r negate oper Rule.genreExistsQuery =
    Str.join " AND "
      (map (fun p => negate +:+ Spec.genreSubquery (Spec.valueClause r oper p)) (m_parameter r)).
Proof.
  intros Hn Hps. unfold Rule.gatherParameters.
  destruct (m_parameter r) as [| p ps]; [congruence |]. clear Hps.
  cbn [fold_left]. rewrite gatherStep_negated by assumption.
  simpl Str.empty. simpl negb. cbv iota.
  change ("" +:+ (negate +:+ Spec.genreSubquery (Spec.valueClause r oper p)))
    with (negate +:+ Spec.genreSubquery (Spec.valueClause r oper p)).
  rewrite gather_negated; [| assumption |].
  - cbn [map]. rewrite <- join_cons.
    apply empty_false in Hn. rewrite Hn. reflexivity.
  - intros E. apply (f_equal Str.empty) in E. rewrite empty_append in E.
    apply empty_false in Hn. rewrite Hn in E. discriminate E.
Qed.

(** C5.  For a genre rule on "songs" with several parameter values: when
    the rule is not negated (and every value gives a clause), the clauses of
    all values are joined by OR, in parentheses, inside one EXISTS subquery;
    when it is negated, every value gets its own negated EXISTS subquery and
    these are joined by AND. *)
Theorem genre_values_gathered_or_split (negate : string) :
  m_field r = FieldGenre ->
  (1 < length (m_parameter r))%nat ->
  (negate = "" ->
   Forall (fun p => Spec.valueClause r oper p <> "") (m_parameter r) ->
   Rule.FormatParameters r negate oper "songs" =
     Spec.genreSubquery ("(" +:+ Str.join " OR " (map (Spec.valueClause r oper) (m_parameter r)) +:+ ")")) /\
  (negate <> "" ->
   Rule.FormatParameters r negate oper "songs" =
     Str.join " AND "
       (map (fun p => negate +:+ Spec.genreSubquery (Spec.valueClause r oper p)) (m_parameter r))).
Proof.
  intros Hf Hlen. rewrite genre_dispatch by assumption. split.
  - intros -> Hall. rewrite gathered_affirmative by assumption.
    rewrite genreSubquery_not_empty. reflexivity.
  - intros Hn.
    assert (Hps : m_parameter r <> []).
    { intros E. rewrite E in Hlen. simpl in Hlen. lia. }
    rewrite gathered_negated by assumption.
    destruct (m_parameter r) as [| p ps]; [congruence |].
    cbn [map]. rewrite join_cons, !empty_append.
    apply empty_false in Hn. rewrite Hn. reflexivity.
Qed.

End GenreParameters.

Lemma genre_values_witness :
  let r := mkRule FieldGenre OPERATOR_EQUALS ["Rock"; "Pop"] in
  (1 < length (m_parameter r))%nat /\
  Rule.FormatParameters (ext := Sample.externals) r "" " LIKE '%s'" "songs" =
    "EXISTS (SELECT 1 FROM song_genre JOIN genre ON genre.idGenre = song_genre.idGenre WHERE song_genre.idSong = songview.idSong AND (genre.strGenre LIKE 'Rock' OR genre.strGenre LIKE 'Pop'))" /\
  Rule.FormatParameters (ext := Sample.externals) r " NOT " " LIKE '%s'" "songs" =
    " NOT EXISTS (SELECT 1 FROM song_genre JOIN genre ON genre.idGenre = song_genre.idGenre WHERE song_genre.idSong = songview.idSong AND genre.strGenre LIKE 'Rock') AND  NOT EXISTS (SELECT 1 FROM song_genre JOIN genre ON genre.idGenre = song_genre.idGenre WHERE song_genre.idSong = songview.idSong AND genre.strGenre LIKE 'Pop')".
Proof.
  intros r.
  assert (Hlen : (1 < length (m_parameter r))%nat) by (simpl; lia).
  split; [exact Hlen | split].
  - refine (eq_trans
      (proj1 (genre_values_gathered_or_split (ext := Sample.externals) r " LIKE '%s'" ""
                eq_refl Hlen) eq_refl _) _).
    + repeat constructor; vm_compute; discriminate.
    + reflexivity.
  - refine (eq_trans
      (proj2 (genre_values_gathered_or_split (ext := Sample.externals) r " LIKE '%s'" " NOT "
                eq_refl Hlen) _) _).
    + discriminate.
    + vm_compute. reflexivity.
Defined.

(** Strings built from literals and variables: compute, then move every
    append to the right. *)
Ltac normalize_strings :=
  vm_compute; fold String.append;
  repeat (progress (rewrite ?append_assoc; cbn [String.append])).

(** ** Role rules and the two artist routes *)

Section Roles.
Context {ext : Externals}.

Lemma eq_nocase_length (a b : string) :
  Str.eq_nocase a b = true -> String.length a = String.length b.
Proof.
  revert b. induction a as [| x a IH]; intros [| y b]; simpl; try discriminate.
  - reflexivity.
  - intros H. apply andb_true_iff in H as [_ H]. f_equal. apply IH. exact H.
Qed.

Lemma EqualsNoCase_exclusive (p a b : string) :
  String.length (Str.c_str a) <> String.length (Str.c_str b) ->
  Str.EqualsNoCase p a = true -> Str.EqualsNoCase p b = false.
Proof.
  unfold Str.EqualsNoCase. intros Hne Ha.
  destruct (Str.eq_nocase (Str.c_str p) (Str.c_str b)) eqn:Hb; [| reflexivity].
  apply eq_nocase_length in Ha, Hb. congruence.
Qed.

(** How one rule moves the scan, in terms of the role it names. *)
Lemma scanStep_spec (t : combination) (s s' : Combination.RoleScan) (r : CSmartPlaylistRule) :
  Combination.scanStep t s r = Done s' ->
  Combination.bWildRoleRule s' = Combination.bWildRoleRule s || RoleRules.namesRole "%" r /\
  Combination.bAlbumartistRule s' =
    (if RoleRules.namesRole "albumartist" r then isAnd t else Combination.bAlbumartistRule s) /\
  Combination.bNegAlbumartistRule s' =
    (if RoleRules.namesRole "albumartist" r then Combination.isNegOperator r
     else Combination.bNegAlbumartistRule s) /\
  Combination.bArtistRule s' =
    (if RoleRules.namesRole "artist" r then isAnd t else Combination.bArtistRule s) /\
  Combination.bNegArtistRule s' =
    (if RoleRules.namesRole "artist" r then Combination.isNegOperator r
     else Combination.bNegArtistRule s).
Proof.
  unfold Combination.scanStep, RoleRules.namesRole, at0.
  destruct (Field_eqb (m_field r) FieldRole); simpl.
  - destruct (m_parameter r) as [| p ps]; simpl; [discriminate |].
    destruct (Str.EqualsNoCase p "albumartist") eqn:Haa.
    { rewrite (EqualsNoCase_exclusive p "albumartist" "artist"),
        (EqualsNoCase_exclusive p "albumartist" "%") by (assumption || (simpl; lia)).
      intros [= <-]. simpl. rewrite orb_false_r. repeat split; reflexivity. }
    destruct (Str.EqualsNoCase p "artist") eqn:Ha.
    { rewrite (EqualsNoCase_exclusive p "artist" "%") by (assumption || (simpl; lia)).
      intros [= <-]. simpl. rewrite orb_false_r. repeat split; reflexivity. }
    destruct (Str.EqualsNoCase p "%") eqn:Hw; intros [= <-]; simpl;
      rewrite ?orb_true_r, ?orb_false_r; repeat split; reflexivity.
  - intros [= <-]. rewrite orb_false_r. repeat split; reflexivity.
Qed.

Lemma scanRules_spec (t : combination) (rules : list CSmartPlaylistRule) :
  forall s0 s : Combination.RoleScan,
    Combination.scanRules t s0 rules = Done s ->
    Combination.bWildRoleRule s = Combination.bWildRoleRule s0 || RoleRules.wildRole rules /\
    Combination.bAlbumartistRule s =
      match RoleRules.lastRole "albumartist" rules with
      | Some _ => isAnd t
      | None => Combination.bAlbumartistRule s0
      end /\
    Combination.bNegAlbumartistRule s =
      match RoleRules.lastRole "albumartist" rules with
      | Some d => Combination.isNegOperator d
      | None => Combination.bNegAlbumartistRule s0
      end /\
    Combination.bArtistRule s =
      match RoleRules.lastRole "artist" rules with
      | Some _ => isAnd t
      | None => Combination.bArtistRule s0
      end /\
    Combination.bNegArtistRule s =
      match RoleRules.lastRole "artist" rules with
      | Some d => Combination.isNegOperator d
      | None => Combination.bNegArtistRule s0
      end.
Proof.
  induction rules as [| r rules IH]; intros s0 s.
  - simpl. intros [= <-]. rewrite orb_false_r. repeat split; reflexivity.
  - simpl Combination.scanRules.
    destruct (Combination.scanStep t s0 r) as [s1 | |] eqn:Hstep; simpl; try discriminate.
    intros Hrest.
    apply scanStep_spec in Hstep as (Hw & Haa & Hnaa & Ha & Hna).
    apply IH in Hrest as (Hw' & Haa' & Hnaa' & Ha' & Hna').
    unfold RoleRules.wildRole in *. simpl existsb. simpl RoleRules.lastRole.
    rewrite Hw', Haa', Hnaa', Ha', Hna', Hw, Haa, Hnaa, Ha, Hna.
    rewrite orb_assoc.
    destruct (RoleRules.lastRole "albumartist" rules), (RoleRules.lastRole "artist" rules),
      (RoleRules.namesRole "albumartist" r), (RoleRules.namesRole "artist" r);
      repeat split; reflexivity.
Qed.

(** The scan throws only on a role rule without parameters, and is not
    bounded by the depth of playlists. *)
Lemma scanRules_throws (t : combination) (rules : list CSmartPlaylistRule) :
  forall s0 : Combination.RoleScan,
    match Combination.scanRules t s0 rules with
    | Done _ => True
    | OutOfRange => Exists (fun r => m_field r = FieldRole /\ m_parameter r = []) rules
    | OutOfFuel => False
    end.
Proof.
  induction rules as [| r rules IH]; intros s0; simpl; [exact I |].
  destruct (Combination.scanStep t s0 r) as [s1 | |] eqn:Hstep; simpl.
  - specialize (IH s1). destruct (Combination.scanRules t s1 rules); auto.
  - apply Exists_cons_hd. unfold Combination.scanStep, at0 in Hstep.
    destruct (Field_eqb (m_field r) FieldRole) eqn:Hf; [| discriminate].
    apply Field_eqb_eq in Hf. split; [exact Hf |].
    destruct (m_parameter r) as [| p ps]; [reflexivity |]. simpl in Hstep.
    destruct (Str.EqualsNoCase p "albumartist"), (Str.EqualsNoCase p "artist"),
      (Str.EqualsNoCase p "%"); discriminate.
  - unfold Combination.scanStep, at0 in Hstep.
    destruct (Field_eqb (m_field r) FieldRole); [| discriminate].
    destruct (m_parameter r) as [| p ps]; simpl in Hstep; [discriminate |].
    destruct (Str.EqualsNoCase p "albumartist"), (Str.EqualsNoCase p "artist"),
      (Str.EqualsNoCase p "%"); discriminate.
Qed.

(** The flags of "Validate role rule logic", in terms of the rules. *)
Lemma validateRoles_routes (t : combination) (rules : list CSmartPlaylistRule)
    (b : bool) (s : Combination.RoleScan) :
  Combination.scanRules t (Combination.scanStart b) rules = Done s ->
  Combination.validateRoles s = RoleRules.validated t rules.
Proof.
  intros Hs. apply scanRules_spec in Hs as (Hw & Haa & Hnaa & Ha & Hna).
  unfold Combination.validateRoles, RoleRules.validated, RoleRules.albumRouteOff,
    RoleRules.songRouteOff, RoleRules.lastNegated, RoleRules.lastPlain.
  rewrite Hw, Haa, Hnaa, Ha, Hna. simpl.
  destruct (RoleRules.wildRole rules); [reflexivity |].
  destruct (RoleRules.lastRole "albumartist" rules) as [da |],
    (RoleRules.lastRole "artist" rules) as [d |], (isAnd t);
    try destruct (Combination.isNegOperator da);
    try destruct (Combination.isNegOperator d); reflexivity.
Qed.

Lemma routes_one_enabled (t : combination) (rules : list CSmartPlaylistRule) :
  fst (RoleRules.validated t rules) || snd (RoleRules.validated t rules) = true.
Proof.
  unfold RoleRules.validated. destruct (RoleRules.wildRole rules); [reflexivity |].
  destruct (RoleRules.albumRouteOff t rules), (RoleRules.songRouteOff t rules); reflexivity.
Qed.

(** The rules of other roles, as the scan gathers them. *)
Lemma scanStep_roleRules (t : combination) (s s' : Combination.RoleScan)
    (r : CSmartPlaylistRule) :
  Combination.scanStep t s r = Done s' ->
  Combination.roleRules s' =
    Combination.roleRules s ++ (if RoleRules.otherRole r then [r] else []).
Proof.
  unfold Combination.scanStep, RoleRules.otherRole, at0.
  destruct (Field_eqb (m_field r) FieldRole); simpl.
  - destruct (m_parameter r) as [| p ps]; simpl; [discriminate |].
    destruct (Str.EqualsNoCase p "albumartist"), (Str.EqualsNoCase p "artist"),
      (Str.EqualsNoCase p "%"); intros [= <-]; simpl; rewrite ?app_nil_r; reflexivity.
  - intros [= <-]. rewrite app_nil_r. reflexivity.
Qed.

Lemma scanRules_roleRules (t : combination) (rules : list CSmartPlaylistRule) :
  forall s0 s : Combination.RoleScan,
    Combination.scanRules t s0 rules = Done s ->
    Combination.roleRules s =
      Combination.roleRules s0 ++ List.filter RoleRules.otherRole rules.
Proof.
  induction rules as [| r rules IH]; intros s0 s.
  - simpl. intros [= <-]. rewrite app_nil_r. reflexivity.
  - simpl Combination.scanRules.
    destruct (Combination.scanStep t s0 r) as [s1 | |] eqn:Hstep; simpl; try discriminate.
    intros Hrest. apply scanStep_roleRules in Hstep. apply IH in Hrest.
    rewrite Hrest, Hstep, <- app_assoc.
    destruct (RoleRules.otherRole r); reflexivity.
Qed.

Lemma empty_list_filter (f : CSmartPlaylistRule -> bool) (rules : list CSmartPlaylistRule) :
  Str.empty_list (List.filter f rules) = negb (existsb f rules).
Proof.
  induction rules as [| r rules IH]; [reflexivity |].
  cbn [List.filter existsb]. destruct (f r); [reflexivity | exact IH].
Qed.

(** C1, as amended.  For every rule group, [GetRolesWhereClause] either
    throws on a role rule without parameters, or returns, and then:
    the flags after "Validate role rule logic" are [RoleRules.validated]: a
    "%" role rule leaves both routes enabled; otherwise, under AND, the last
    "albumartist" role rule of the group, when negated, or the last "artist"
    role rule, when not negated, disables the album-artist route, the mirror
    condition on the last rules disables the song-artist route, and when both
    would be disabled the album-artist route is kept.  The song-artist flag
    is returned as validated.  The album-artist flag is returned as
    validated, except that it is off when the group has rules of other roles
    that give a role clause while the song-artist route is enabled (line
    1288).  With a "%" rule the role clause is empty; with neither a "%" rule
    nor a rule of another role the call returns early with the clause of the
    artist role and the join and role-rule flags off.  At least one route is
    always enabled. *)
Theorem role_route_flags (c : CSmartPlaylistRuleCombination) (flags0 : Combination.RoleFlags) :
  match Combination.GetRolesWhereClause c flags0 with
  | Done (roleClause, flags) =>
      let validated := RoleRules.validated (m_type c) (m_rules c) in
      (exists s : Combination.RoleScan,
         Combination.scanRules (m_type c)
           (Combination.scanStart (Combination.bRoleRules flags0)) (m_rules c) = Done s /\
         Combination.validateRoles s = validated) /\
      Combination.bSongArtists flags = snd validated /\
      Combination.bAlbumArtists flags =
        fst validated &&
        negb (existsb RoleRules.otherRole (m_rules c) && negb (Str.empty roleClause) &&
              snd validated) /\
      (RoleRules.wildRole (m_rules c) = true ->
       roleClause = "" /\ Combination.bAlbumArtists flags = true /\
       Combination.bSongArtists flags = true) /\
      (RoleRules.wildRole (m_rules c) = false ->
       existsb RoleRules.otherRole (m_rules c) = false ->
       roleClause = "song_artist.idRole = 1" /\
       Combination.bJoinRole flags = false /\ Combination.bRoleRules flags = false) /\
      Combination.bAlbumArtists flags || Combination.bSongArtists flags = true
  | OutOfRange =>
      Exists (fun r => m_field r = FieldRole /\ m_parameter r = []) (m_rules c)
  | OutOfFuel => False
  end.
Proof.
  unfold Combination.GetRolesWhereClause.
  pose proof (scanRules_throws (m_type c) (m_rules c)
                (Combination.scanStart (Combination.bRoleRules flags0))) as Hthrow.
  destruct (Combination.scanRules (m_type c) _ (m_rules c)) as [s | |] eqn:Hscan;
    simpl; [| exact Hthrow | exact Hthrow].
  pose proof (validateRoles_routes _ _ _ _ Hscan) as Hroutes.
  pose proof (routes_one_enabled (m_type c) (m_rules c)) as Hone.
  pose proof (scanRules_roleRules _ _ _ _ Hscan) as Hothers. simpl in Hothers.
  apply scanRules_spec in Hscan as Hspec. destruct Hspec as (Hw & _).
  simpl in Hw. rewrite Hroutes, Hw, Hothers.
  destruct (RoleRules.validated (m_type c) (m_rules c)) as [album song] eqn:Hr.
  simpl in Hone.
  assert (Hwild : RoleRules.wildRole (m_rules c) = true -> album = true /\ song = true).
  { intros E. unfold RoleRules.validated in Hr. rewrite E in Hr. injection Hr as <- <-. auto. }
  assert (Hs : exists s' : Combination.RoleScan,
            Done s = Done s' /\ Combination.validateRoles s' = (album, song))
    by (exists s; split; [reflexivity | exact Hroutes]).
  destruct (RoleRules.wildRole (m_rules c)) eqn:Ew; simpl.
  - destruct (Hwild eq_refl) as [-> ->].
    destruct (existsb RoleRules.otherRole (m_rules c)); simpl;
      (split; [exact Hs |]); repeat split; auto; discriminate.
  - rewrite empty_list_filter.
    destruct (existsb RoleRules.otherRole (m_rules c)) eqn:Eo; simpl.
    + destruct (fold_left _ (List.filter RoleRules.otherRole (m_rules c)) ("", ""))
        as [roleClause cur].
      simpl. destruct (Str.empty roleClause) eqn:Ec, song, album; simpl; simpl in Hone;
        (split; [exact Hs |]); repeat split; auto; discriminate.
    + destruct album; (split; [exact Hs |]); repeat split; auto; discriminate.
Qed.

End Roles.

(** ** The role example on "albums" *)

Section RoleExample.
Context {ext : Externals}.

Lemma roleExample_roles (t : combination) :
  Combination.GetRolesWhereClause (Spec.roleExample t) Combination.roleFlagsStart =
    Done ("song_artist.idRole = 1",
          Combination.mkRoleFlags true (negb (isAnd t)) false false).
Proof. destruct t; reflexivity. Qed.

(** C2.  What [GetAlbumsWhereClause] returns for the group {role equals
    "albumartist", artist contains "Bob"} on "albums", the artist field being
    native to the artist table and the artist rule giving a clause.  Under OR
    the fragment is the two routes joined by OR, as stated.  Under AND the
    role rule leaves only the album-artist route enabled, yet the fragment is
    the album-artist route joined by AND with the song-artist route: the
    branch of line 1626 combines [albumartistSubclause] with [songSubSQL]
    because the artist field is not empty, where the comments of lines 1205,
    1234 and 1620 call for album artists only. *)
Theorem role_example_albums :
  let artistClause :=
    Str.Replace (Rule_GetWhereClause (mkRule FieldArtist OPERATOR_CONTAINS ["Bob"]) "artist")
      "artistview" "artist" in
  Combination.IsFieldNative FieldArtist MediaTypeAlbum "artist" = true ->
  Combination.IsFieldNative FieldRole MediaTypeAlbum "artist" = false ->
  Combination.IsFieldNative FieldRole MediaTypeAlbum "song" = false ->
  artistClause <> "" ->
  Combination.GetAlbumsWhereClause (Spec.roleExample CombinationAnd) =
    Done (Spec.albumArtistRoute artistClause +:+ " AND (" +:+
          Spec.songArtistRoute artistClause +:+ ")") /\
  Combination.GetAlbumsWhereClause (Spec.roleExample CombinationOr) =
    Done (Spec.albumArtistRoute artistClause +:+ " OR (" +:+
          Spec.songArtistRoute artistClause +:+ ")").
Proof.
  intros artistClause Hartist Hrole1 Hrole2 Hq.
  assert (Hfold : forall t,
    fold_left (Combination.albumsStep t) (m_rules (Spec.roleExample t)) ("", "", "", "") =
      ("", "", "", artistClause)).
  { intros t. cbn [fold_left m_rules Spec.roleExample].
    unfold Combination.albumsStep at 2. cbn [m_field].
    rewrite Hrole1, Hrole2. cbn [Field_eqb Field_tag Pos.eqb].
    unfold Combination.albumsStep. cbn [m_field].
    rewrite Hartist. cbn [Field_eqb Field_tag Pos.eqb].
    fold artistClause. unfold Combination.CombineClause.
    destruct artistClause; [congruence | reflexivity]. }
  unfold Combination.GetAlbumsWhereClause.
  rewrite !roleExample_roles. cbn [mbind Outcome_bind]. unfold Combination.albumsClause.
  rewrite !Hfold.
  destruct artistClause as [| a q]; [congruence |].
  split; normalize_strings; reflexivity.
Qed.

End RoleExample.

Lemma role_example_albums_witness :
  Combination.GetAlbumsWhereClause (ext := Sample.externals) (Spec.roleExample CombinationAnd) =
    Done (Spec.albumArtistRoute "(artist.strArtist LIKE '%Bob%')" +:+ " AND (" +:+
          Spec.songArtistRoute "(artist.strArtist LIKE '%Bob%')" +:+ ")") /\
  Combination.GetAlbumsWhereClause (ext := Sample.externals) (Spec.roleExample CombinationOr) =
    Done (Spec.albumArtistRoute "(artist.strArtist LIKE '%Bob%')" +:+ " OR (" +:+
          Spec.songArtistRoute "(artist.strArtist LIKE '%Bob%')" +:+ ")").
Proof.
  refine (role_example_albums (ext := Sample.externals) _ _ _ _).
  - reflexivity.
  - reflexivity.
  - reflexivity.
  - vm_compute. discriminate.
Defined.

(** C2 fails under AND, on the sample collaborators.  The role rule leaves
    only the album-artist route enabled in the flags, and the fragment of
    [GetAlbumsWhereClause] holds the song-artist route all the same.  On the
    same group [GetSongsWhereClause] gives the album-artist route alone, and
    so does [GetAlbumsWhereClause] for the rule [albumartist contains "Bob"],
    which the comment of line 1620 takes the role rule to be the same as. *)
Lemma role_example_and_holds_song_artist :
  let fragment :=
    "EXISTS (SELECT 1 FROM album_artist JOIN artist ON artist.idArtist = album_artist.idArtist WHERE album_artist.idAlbum = albumview.idAlbum AND ((artist.strArtist LIKE '%Bob%'))) AND (EXISTS (SELECT 1 FROM song WHERE song.idAlbum = albumview.idAlbum AND (EXISTS (SELECT 1 FROM song_artist JOIN artist ON artist.idArtist = song_artist.idArtist WHERE song_artist.idSong = song.idSong AND song_artist.idRole = 1 AND ((artist.strArtist LIKE '%Bob%'))))))" in
  let albumArtistOnly :=
    "EXISTS (SELECT 1 FROM album_artist JOIN artist ON artist.idArtist = album_artist.idArtist WHERE album_artist.idAlbum = albumview.idAlbum AND ((artist.strArtist LIKE '%Bob%')))" in
  let songsFragment :=
    "EXISTS (SELECT 1 FROM album_artist JOIN artist ON artist.idArtist = album_artist.idArtist WHERE album_artist.idAlbum = songview.idAlbum AND ((artist.strArtist LIKE '%Bob%')))" in
  (Combination.GetAlbumsWhereClause (ext := Sample.externals)
     (Spec.roleExample CombinationAnd) = Done fragment /\
   Str.contains "EXISTS (SELECT 1 FROM song_artist" fragment = true) /\
  Combination.GetRolesWhereClause (ext := Sample.externals)
    (Spec.roleExample CombinationAnd) Combination.roleFlagsStart =
    Done ("song_artist.idRole = 1", Combination.mkRoleFlags true false false false) /\
  (Combination.GetSongsWhereClause (ext := Sample.externals)
     (Spec.roleExample CombinationAnd) = Done songsFragment /\
   Str.contains "song_artist" songsFragment = false) /\
  Combination.GetAlbumsWhereClause (ext := Sample.externals)
    (mkCombination CombinationAnd [] [mkRule FieldAlbumArtist OPERATOR_CONTAINS ["Bob"]]) =
    Done albumArtistOnly.
Proof. repeat split; vm_compute; reflexivity. Qed.

(** ** Nested playlists *)

Lemma combination_rect' (P : CSmartPlaylistRuleCombination -> Prop) :
  (forall t cs rs, Forall P cs -> P (mkCombination t cs rs)) ->
  forall c, P c.
Proof.
  intros H. fix IH 1. intros [t cs rs]. apply H.
  induction cs as [| c cs IHcs]; constructor; [apply IH | exact IHcs].
Qed.

Section NestedPlaylists.
Context {ext : Externals}.
Variable files : gmap string CSmartPlaylist.

Lemma sameTypeForQuery_spliceable (nested strType : string) :
  Combination.sameTypeForQuery nested strType = true <-> Spec.spliceable nested strType.
Proof.
  unfold Combination.sameTypeForQuery, Spec.spliceable.
  rewrite !orb_true_iff, !andb_true_iff, !orb_true_iff, !String.eqb_eq, empty_true.
  tauto.
Qed.

Lemma SetType_same (p : CSmartPlaylist) : Combination.SetType p (m_playlistType p) = p.
Proof. destruct p; reflexivity. Qed.

(** A playlist rule whose file is already referenced, or that resolves to no
    file, is skipped: empty fragment, same set, whatever the nested compile
    would do. *)
Lemma playlistRule_skipped (expand : CSmartPlaylist -> gset string -> Outcome (string * gset string))
    (r : CSmartPlaylistRule) (strType name : string) (rest : list string)
    (referenced : gset string) :
  m_parameter r = name :: rest ->
  GetPlaylistByName name strType = "" \/ GetPlaylistByName name strType ∈ referenced ->
  Combination.playlistRule files expand r strType referenced = Done ("", referenced).
Proof.
  intros Hp H. unfold Combination.playlistRule, at0. rewrite Hp. simpl.
  destruct H as [-> | H]; [reflexivity |].
  rewrite (bool_decide_eq_true_2 _ H). rewrite andb_false_r. reflexivity.
Qed.

(** A playlist rule whose file is new and loads. *)
Lemma playlistRule_loaded (expand : CSmartPlaylist -> gset string -> Outcome (string * gset string))
    (r : CSmartPlaylistRule) (strType name : string) (rest : list string)
    (referenced : gset string) (playlist : CSmartPlaylist) :
  m_parameter r = name :: rest ->
  GetPlaylistByName name strType <> "" ->
  GetPlaylistByName name strType ∉ referenced ->
  files !! GetPlaylistByName name strType = Some playlist ->
  Combination.playlistRule files expand r strType referenced =
    if Combination.sameTypeForQuery (m_playlistType playlist) strType
    then
      match expand (Combination.SetType playlist strType)
              ({[GetPlaylistByName name strType]} ∪ referenced) with
      | Done (playlistQuery, referenced') => Done (Spec.spliced r playlistQuery, referenced')
      | OutOfRange => OutOfRange
      | OutOfFuel => OutOfFuel
      end
    else Done ("", {[GetPlaylistByName name strType]} ∪ referenced).
Proof.
  intros Hp Hfile Hnew Hload. unfold Combination.playlistRule, at0. rewrite Hp. simpl.
  apply empty_false in Hfile. rewrite Hfile, (bool_decide_eq_false_2 _ Hnew). simpl.
  rewrite Hload.
  destruct (Combination.sameTypeForQuery (m_playlistType playlist) strType) eqn:Hsame.
  - destruct (expand _ _) as [[q referenced'] | |]; simpl; try reflexivity.
    rewrite String.eqb_refl. unfold Spec.spliced.
    destruct (op_eqb (m_operator r) OPERATOR_DOES_NOT_EQUAL); reflexivity.
  - simpl.
    destruct (String.eqb (m_playlistType playlist) strType) eqn:E; [| reflexivity].
    unfold Combination.sameTypeForQuery in Hsame. rewrite E in Hsame. discriminate Hsame.
Qed.

(** C3, as amended.  A playlist rule that names a playlist not yet
    referenced, whose file loads, splices that playlist's clause exactly
    when the playlist's type is the type being compiled, or is "mixed"
    while "songs" or "musicvideos" is compiled, or is empty; the clause is
    wrapped in NOT (...) when the rule's operator is does-not-equal.
    Otherwise the rule contributes an empty fragment, without error.  So a
    "songs" compile splices a nested "mixed" playlist, while a "mixed"
    compile splices neither a nested "songs" nor a nested "movies"
    playlist. *)
Theorem nested_playlist_spliced
    (expand : CSmartPlaylist -> gset string -> Outcome (string * gset string))
    (r : CSmartPlaylistRule) (strType name : string) (rest : list string)
    (referenced : gset string) (playlist : CSmartPlaylist) :
  let file := GetPlaylistByName name strType in
  m_parameter r = name :: rest ->
  file <> "" ->
  file ∉ referenced ->
  files !! file = Some playlist ->
  (Spec.spliceable (m_playlistType playlist) strType ->
   Combination.playlistRule files expand r strType referenced =
     match expand (Combination.SetType playlist strType) ({[file]} ∪ referenced) with
     | Done (playlistQuery, referenced') => Done (Spec.spliced r playlistQuery, referenced')
     | OutOfRange => OutOfRange
     | OutOfFuel => OutOfFuel
     end) /\
  (~ Spec.spliceable (m_playlistType playlist) strType ->
   Combination.playlistRule files expand r strType referenced =
     Done ("", {[file]} ∪ referenced)) /\
  (m_playlistType playlist = "mixed" -> strType = "songs" ->
   Spec.spliceable (m_playlistType playlist) strType) /\
  (strType = "mixed" ->
   m_playlistType playlist = "songs" \/ m_playlistType playlist = "movies" ->
   ~ Spec.spliceable (m_playlistType playlist) strType).
Proof.
  intros file Hp Hfile Hnew Hload. subst file.
  rewrite (playlistRule_loaded expand r strType name rest referenced playlist)
    by assumption.
  repeat split.
  - intros Hs. apply sameTypeForQuery_spliceable in Hs. rewrite Hs. reflexivity.
  - intros Hs.
    destruct (Combination.sameTypeForQuery (m_playlistType playlist) strType) eqn:E;
      [| reflexivity].
    apply sameTypeForQuery_spliceable in E. contradiction.
  - intros -> ->. right. left. auto.
  - intros -> Ht [E | [[E _] | E]]; destruct Ht as [Ht | Ht]; rewrite Ht in E;
      discriminate E.
Qed.

Lemma unreferenced_mono (referenced referenced' : gset string) :
  referenced ⊆ referenced' ->
  (Spec.unreferenced files referenced' <= Spec.unreferenced files referenced)%nat.
Proof.
  intros H. apply subseteq_size. intros x Hx.
  apply elem_of_difference in Hx as [Hd Hx]. apply elem_of_difference.
  split; [exact Hd |]. intros Hr. apply Hx, H, Hr.
Qed.

Lemma unreferenced_insert (file : string) (referenced : gset string) (p : CSmartPlaylist) :
  file ∉ referenced ->
  files !! file = Some p ->
  (Spec.unreferenced files ({[file]} ∪ referenced) < Spec.unreferenced files referenced)%nat.
Proof.
  intros Hnew Hload. apply subset_size.
  assert (Hin : file ∈ dom files) by (apply elem_of_dom; eauto).
  split.
  - intros x Hx. apply elem_of_difference in Hx as [Hd Hx]. apply elem_of_difference.
    split; [exact Hd |]. intros Hr. apply Hx, elem_of_union. right. exact Hr.
  - intros Hsub.
    assert (Hf : file ∈ dom files ∖ referenced) by (apply elem_of_difference; auto).
    apply Hsub, elem_of_difference in Hf as [_ Hf].
    apply Hf, elem_of_union. left. apply elem_of_singleton. reflexivity.
Qed.

(** The cross-entity clause never depends on the depth of playlists. *)
Lemma GetRolesWhereClause_no_fuel (c : CSmartPlaylistRuleCombination)
    (flags : Combination.RoleFlags) :
  Combination.GetRolesWhereClause c flags <> OutOfFuel.
Proof.
  unfold Combination.GetRolesWhereClause.
  pose proof (scanRules_throws (m_type c) (m_rules c)
                (Combination.scanStart (Combination.bRoleRules flags))) as H.
  destruct (Combination.scanRules (m_type c) _ (m_rules c)) as [s | |]; simpl;
    [| discriminate | contradiction].
  destruct (Combination.validateRoles s) as [album song].
  destruct (negb (Combination.bWildRoleRule s) && _); [discriminate |].
  destruct (fold_left _ _ _). discriminate.
Qed.

Lemma GetCombinedWhereClause_no_fuel (c : CSmartPlaylistRuleCombination) (strType : string) :
  Combination.GetCombinedWhereClause c strType <> OutOfFuel.
Proof.
  unfold Combination.GetCombinedWhereClause, Combination.GetArtistsWhereClause,
    Combination.GetAlbumsWhereClause, Combination.GetSongsWhereClause.
  pose proof (GetRolesWhereClause_no_fuel c Combination.roleFlagsStart) as H.
  destruct (Combination.GetRolesWhereClause c Combination.roleFlagsStart) as [[q f] | |];
    [| | congruence];
    destruct (String.eqb strType "artists"), (String.eqb strType "albums"),
      (String.eqb strType "songs"); discriminate.
Qed.

Ltac grown :=
  unfold Spec.loopReturnsGrown, Spec.returnsGrown in *; cbn [mbind Outcome_bind] in *.

Ltac grown' := unfold Spec.loopReturnsGrown, Spec.returnsGrown in *; simpl in *.

Section Bounded.
Variable n : nat.
Variable expand : CSmartPlaylist -> gset string -> Outcome (string * gset string).
Hypothesis expand_returns :
  forall (p : CSmartPlaylist) (referenced : gset string),
    (Spec.unreferenced files referenced < n)%nat ->
    Spec.returnsGrown referenced (expand p referenced).

Lemma playlistRule_returns (r : CSmartPlaylistRule) (strType : string)
    (referenced : gset string) :
  (Spec.unreferenced files referenced <= n)%nat ->
  Spec.returnsGrown referenced (Combination.playlistRule files expand r strType referenced).
Proof.
  intros Hn. unfold Combination.playlistRule, at0.
  destruct (m_parameter r) as [| name rest]; simpl; [exact I |].
  destruct (negb (Str.empty (GetPlaylistByName name strType)) &&
            negb (bool_decide (GetPlaylistByName name strType ∈ referenced))) eqn:Hc;
    [| simpl; set_solver].
  apply andb_true_iff in Hc as [_ Hnew]. apply negb_true_iff in Hnew.
  apply bool_decide_eq_false in Hnew.
  destruct (files !! GetPlaylistByName name strType) as [playlist |] eqn:Hload;
    [| simpl; set_solver].
  pose proof (unreferenced_insert _ _ _ Hnew Hload) as Hlt.
  destruct (Combination.sameTypeForQuery (m_playlistType playlist) strType).
  - pose proof (expand_returns (Combination.SetType playlist strType)
                  ({[GetPlaylistByName name strType]} ∪ referenced)) as He.
    destruct (expand _ _) as [[q referenced1] | |]; grown'.
    + assert (Hsub : referenced ⊆ referenced1) by (specialize (He ltac:(lia)); set_solver).
      destruct (String.eqb strType strType),
        (op_eqb (m_operator r) OPERATOR_DOES_NOT_EQUAL); exact Hsub.
    + exact I.
    + apply He. lia.
  - simpl.
    destruct (String.eqb (m_playlistType playlist) strType),
      (op_eqb (m_operator r) OPERATOR_DOES_NOT_EQUAL); simpl; set_solver.
Qed.

Lemma ruleStep_returns (t : combination) (strType rule : string)
    (joined : list CSmartPlaylistRule) (referenced : gset string) (r : CSmartPlaylistRule) :
  (Spec.unreferenced files referenced <= n)%nat ->
  Spec.loopReturnsGrown referenced
    (Combination.ruleStep files expand t strType (rule, joined, referenced) r).
Proof.
  intros Hn. unfold Combination.ruleStep.
  destruct (Field_eqb (m_field r) FieldVirtualFolder); [simpl; set_solver |].
  destruct (Field_eqb (m_field r) FieldPlaylist).
  - pose proof (playlistRule_returns r strType referenced Hn) as H.
    destruct (Combination.playlistRule files expand r strType referenced)
      as [[q referenced1] | |]; grown'; assumption.
  - destruct (negb (Combination.IsFieldRuleSimple (m_field r) (FromString strType)));
      simpl; set_solver.
Qed.

Lemma rulesLoop_returns (t : combination) (strType : string)
    (rules : list CSmartPlaylistRule) :
  forall (rule : string) (joined : list CSmartPlaylistRule) (referenced : gset string),
    (Spec.unreferenced files referenced <= n)%nat ->
    Spec.loopReturnsGrown referenced
      (Combination.rulesLoop files expand t strType (rule, joined, referenced) rules).
Proof.
  induction rules as [| r rules IH]; intros rule joined referenced Hn.
  - simpl. set_solver.
  - cbn [Combination.rulesLoop].
    pose proof (ruleStep_returns t strType rule joined referenced r Hn) as Hstep.
    destruct (Combination.ruleStep files expand t strType (rule, joined, referenced) r)
      as [[[rule1 joined1] referenced1] | |]; grown; try assumption.
    pose proof (unreferenced_mono _ _ Hstep) as Hle.
    specialize (IH rule1 joined1 referenced1 ltac:(lia)).
    destruct (Combination.rulesLoop files expand t strType (rule1, joined1, referenced1) rules)
      as [[[rule2 joined2] referenced2] | |]; grown; try assumption.
    transitivity referenced1; assumption.
Qed.

Lemma joinedClause_returns (t : combination) (strType rule : string)
    (joined : list CSmartPlaylistRule) (referenced : gset string) :
  Spec.returnsGrown referenced
    (Combination.joinedClause t strType (rule, joined, referenced)).
Proof.
  unfold Combination.joinedClause.
  destruct (negb (Str.empty_list joined)); [| simpl; set_solver].
  pose proof (GetCombinedWhereClause_no_fuel (mkCombination t [] joined) strType) as H.
  destruct (Combination.GetCombinedWhereClause (mkCombination t [] joined) strType);
    simpl; [set_solver | exact I | congruence].
Qed.

Lemma combinationsLoop_returns
    (recurse : CSmartPlaylistRuleCombination -> gset string -> Outcome (string * gset string))
    (t : combination) (cs : list CSmartPlaylistRuleCombination) :
  Forall (fun c => forall referenced,
            (Spec.unreferenced files referenced <= n)%nat ->
            Spec.returnsGrown referenced (recurse c referenced)) cs ->
  forall (first : bool) (rule : string) (referenced : gset string),
    (Spec.unreferenced files referenced <= n)%nat ->
    Spec.returnsGrown referenced
      (Combination.combinationsLoop recurse t cs first rule referenced).
Proof.
  induction 1 as [| c cs Hc _ IH]; intros first rule referenced Hn.
  - simpl. reflexivity.
  - cbn [Combination.combinationsLoop]. specialize (Hc referenced Hn).
    destruct (recurse c referenced) as [[sub referenced1] | |]; grown; try assumption.
    pose proof (unreferenced_mono _ _ Hc) as Hle.
    match goal with
    | |- match Combination.combinationsLoop _ _ _ _ ?rule1 _ with _ => _ end =>
        specialize (IH false rule1 referenced1 ltac:(lia));
        destruct (Combination.combinationsLoop recurse t cs false rule1 referenced1)
          as [[q referenced2] | |]
    end; try assumption.
    transitivity referenced1; assumption.
Qed.

Lemma GetWhereClause_returns (c : CSmartPlaylistRuleCombination) :
  forall (strType : string) (referenced : gset string),
    (Spec.unreferenced files referenced <= n)%nat ->
    Spec.returnsGrown referenced (Combination.GetWhereClause files expand c strType referenced).
Proof.
  induction c as [t cs rs IHcs] using combination_rect'.
  intros strType referenced Hn. cbn [Combination.GetWhereClause].
  assert (Hloop :
    Spec.returnsGrown referenced
      (Combination.combinationsLoop
         (fun combo => Combination.GetWhereClause files expand combo strType)
         t cs true "" referenced)).
  { apply combinationsLoop_returns; [| exact Hn].
    eapply Forall_impl; [exact IHcs |]. intros c Hc referenced0. apply Hc. }
  destruct (Combination.combinationsLoop _ t cs true "" referenced)
    as [[rule referenced1] | |]; grown; try assumption.
  pose proof (unreferenced_mono _ _ Hloop) as Hle.
  pose proof (rulesLoop_returns t strType rs rule [] referenced1 ltac:(lia)) as Hrules.
  destruct (Combination.rulesLoop files expand t strType (rule, [], referenced1) rs)
    as [[[rule1 joined1] referenced2] | |]; grown; try assumption.
  pose proof (joinedClause_returns t strType rule1 joined1 referenced2) as Hj.
  destruct (Combination.joinedClause t strType (rule1, joined1, referenced2))
    as [[q referenced3] | |]; grown; try assumption.
  transitivity referenced1; [assumption |].
  transitivity referenced2; assumption.
Qed.

End Bounded.

Lemma Playlist_GetWhereClause_returns (depth : nat) :
  forall (p : CSmartPlaylist) (referenced : gset string),
    (Spec.unreferenced files referenced < depth)%nat ->
    Spec.returnsGrown referenced (Playlist.GetWhereClause files depth p referenced).
Proof.
  induction depth as [| depth IH]; intros p referenced Hn; [lia |].
  simpl. apply (GetWhereClause_returns depth); [exact IH | lia].
Qed.

(** *** The result does not depend on the bound *)

Section Deeper.
Variable expand expand' : CSmartPlaylist -> gset string -> Outcome (string * gset string).
Hypothesis deeper :
  forall (p : CSmartPlaylist) (referenced : gset string),
    expand p referenced <> OutOfFuel -> expand' p referenced = expand p referenced.

Lemma bind_fuel {A B : Type} (m : Outcome A) (k : A -> Outcome B) :
  mbind k m <> OutOfFuel -> m <> OutOfFuel.
Proof. destruct m; simpl; congruence. Qed.

Lemma playlistRule_deeper (r : CSmartPlaylistRule) (strType : string)
    (referenced : gset string) :
  Combination.playlistRule files expand r strType referenced <> OutOfFuel ->
  Combination.playlistRule files expand' r strType referenced =
    Combination.playlistRule files expand r strType referenced.
Proof.
  unfold Combination.playlistRule.
  destruct (at0 r) as [name | |]; simpl; try reflexivity.
  destruct (negb (Str.empty (GetPlaylistByName name strType)) && _); [| reflexivity].
  destruct (files !! GetPlaylistByName name strType) as [playlist |]; [| reflexivity].
  destruct (Combination.sameTypeForQuery (m_playlistType playlist) strType);
    [| reflexivity].
  intros H. rewrite deeper; [reflexivity |].
  intros E. rewrite E in H. apply H. reflexivity.
Qed.

Lemma ruleStep_deeper (t : combination) (strType : string)
    (st : string * list CSmartPlaylistRule * gset string) (r : CSmartPlaylistRule) :
  Combination.ruleStep files expand t strType st r <> OutOfFuel ->
  Combination.ruleStep files expand' t strType st r =
    Combination.ruleStep files expand t strType st r.
Proof.
  unfold Combination.ruleStep. destruct st as [[rule joined] referenced].
  destruct (Field_eqb (m_field r) FieldVirtualFolder); [reflexivity |].
  destruct (Field_eqb (m_field r) FieldPlaylist); [| reflexivity].
  intros H. rewrite playlistRule_deeper; [reflexivity |].
  intros E. rewrite E in H. apply H. reflexivity.
Qed.

Lemma rulesLoop_deeper (t : combination) (strType : string)
    (rules : list CSmartPlaylistRule) :
  forall st : string * list CSmartPlaylistRule * gset string,
    Combination.rulesLoop files expand t strType st rules <> OutOfFuel ->
    Combination.rulesLoop files expand' t strType st rules =
      Combination.rulesLoop files expand t strType st rules.
Proof.
  induction rules as [| r rules IH]; intros st H; [reflexivity |].
  cbn [Combination.rulesLoop] in *.
  rewrite ruleStep_deeper by (eapply bind_fuel; exact H).
  destruct (Combination.ruleStep files expand t strType st r) as [st1 | |];
    cbn [mbind Outcome_bind] in *; try reflexivity.
  apply IH. exact H.
Qed.

Lemma combinationsLoop_deeper
    (recurse recurse' : CSmartPlaylistRuleCombination -> gset string ->
                        Outcome (string * gset string))
    (t : combination) (cs : list CSmartPlaylistRuleCombination) :
  Forall (fun c => forall referenced,
            recurse c referenced <> OutOfFuel ->
            recurse' c referenced = recurse c referenced) cs ->
  forall (first : bool) (rule : string) (referenced : gset string),
    Combination.combinationsLoop recurse t cs first rule referenced <> OutOfFuel ->
    Combination.combinationsLoop recurse' t cs first rule referenced =
      Combination.combinationsLoop recurse t cs first rule referenced.
Proof.
  induction 1 as [| c cs Hc _ IH]; intros first rule referenced H; [reflexivity |].
  cbn [Combination.combinationsLoop] in *.
  rewrite Hc by (eapply bind_fuel; exact H).
  destruct (recurse c referenced) as [[sub referenced1] | |];
    cbn [mbind Outcome_bind] in *; try reflexivity.
  apply IH. exact H.
Qed.

Lemma GetWhereClause_deeper (c : CSmartPlaylistRuleCombination) :
  forall (strType : string) (referenced : gset string),
    Combination.GetWhereClause files expand c strType referenced <> OutOfFuel ->
    Combination.GetWhereClause files expand' c strType referenced =
      Combination.GetWhereClause files expand c strType referenced.
Proof.
  induction c as [t cs rs IHcs] using combination_rect'.
  intros strType referenced H. cbn [Combination.GetWhereClause] in *.
  rewrite (combinationsLoop_deeper
             (fun combo => Combination.GetWhereClause files expand combo strType)
             (fun combo => Combination.GetWhereClause files expand' combo strType)).
  - destruct (Combination.combinationsLoop _ t cs true "" referenced)
      as [[rule referenced1] | |]; cbn [mbind Outcome_bind] in *; try reflexivity.
    rewrite rulesLoop_deeper by (eapply bind_fuel; exact H). reflexivity.
  - eapply Forall_impl; [exact IHcs |]. intros c Hc referenced0. apply Hc.
  - eapply bind_fuel. exact H.
Qed.

End Deeper.

Lemma Playlist_GetWhereClause_deeper (depth : nat) :
  forall (p : CSmartPlaylist) (referenced : gset string),
    Playlist.GetWhereClause files depth p referenced <> OutOfFuel ->
    Playlist.GetWhereClause files (S depth) p referenced =
      Playlist.GetWhereClause files depth p referenced.
Proof.
  induction depth as [| depth IH]; intros p referenced H.
  - simpl in H. congruence.
  - change (Combination.GetWhereClause files (Playlist.GetWhereClause files (S depth))
              (m_ruleCombination p) (Playlist.GetType p) referenced =
            Combination.GetWhereClause files (Playlist.GetWhereClause files depth)
              (m_ruleCombination p) (Playlist.GetType p) referenced).
    apply GetWhereClause_deeper; [exact IH | exact H].
Qed.

Lemma Playlist_GetWhereClause_stable (depth extra : nat) (p : CSmartPlaylist)
    (referenced : gset string) :
  Playlist.GetWhereClause files depth p referenced <> OutOfFuel ->
  Playlist.GetWhereClause files (extra + depth) p referenced =
    Playlist.GetWhereClause files depth p referenced.
Proof.
  intros H. induction extra as [| extra IH]; [reflexivity |].
  change (S extra + depth)%nat with (S (extra + depth)).
  rewrite Playlist_GetWhereClause_deeper; [exact IH |]. rewrite IH. exact H.
Qed.

(** C9.  For every playlist and every finite set of playlist files,
    circular and self-referencing ones included, the compile terminates: a
    bound on the nesting above the number of files not yet referenced is
    never reached, so the compile returns (or throws on a rule without
    parameters), and a larger bound gives the same outcome.  The referenced
    playlists only grow during a compile, and a playlist rule whose file is
    already referenced is skipped: empty fragment, same set, no expansion. *)
Theorem compile_terminates (p : CSmartPlaylist) (referenced : gset string) (depth : nat) :
  (Spec.unreferenced files referenced < depth)%nat ->
  Playlist.GetWhereClause files depth p referenced <> OutOfFuel /\
  (forall (clause : string) (referenced' : gset string),
     Playlist.GetWhereClause files depth p referenced = Done (clause, referenced') ->
     referenced ⊆ referenced') /\
  (forall extra : nat,
     Playlist.GetWhereClause files (extra + depth) p referenced =
       Playlist.GetWhereClause files depth p referenced) /\
  (forall (expand : CSmartPlaylist -> gset string -> Outcome (string * gset string))
          (r : CSmartPlaylistRule) (strType name : string) (rest : list string)
          (seen : gset string),
     m_parameter r = name :: rest ->
     GetPlaylistByName name strType ∈ seen ->
     Combination.playlistRule files expand r strType seen = Done ("", seen)).
Proof.
  intros Hn.
  pose proof (Playlist_GetWhereClause_returns depth p referenced Hn) as H.
  assert (Hfuel : Playlist.GetWhereClause files depth p referenced <> OutOfFuel).
  { intros E. rewrite E in H. exact H. }
  repeat split.
  - exact Hfuel.
  - intros clause referenced' E. rewrite E in H. exact H.
  - intros extra. apply Playlist_GetWhereClause_stable. exact Hfuel.
  - intros expand r strType name rest seen Hp Hin.
    apply (playlistRule_skipped expand r strType name rest seen Hp). right. exact Hin.
Qed.

(** C4, as amended.  [CSmartPlaylist::GetWhereClause] passes the referenced
    playlists on to the root combination as it receives them; a playlist's
    file enters the set when a playlist rule naming it is expanded.  So for
    a playlist that names itself: from a set that does not hold its file the
    self-referencing rule expands the playlist once, with the file
    referenced from then on, and contributes the clause of that expansion;
    wherever the file is already referenced - inside that expansion, so -
    the rule is skipped and contributes an empty fragment. *)
Theorem self_reference_expanded_once (p : CSmartPlaylist) (r : CSmartPlaylistRule)
    (name : string) (rest : list string) (depth : nat) (referenced : gset string) :
  let file := GetPlaylistByName name (m_playlistType p) in
  m_parameter r = name :: rest ->
  file <> "" ->
  files !! file = Some p ->
  Playlist.GetWhereClause files (S depth) p referenced =
    Combination.GetWhereClause files (Playlist.GetWhereClause files depth)
      (m_ruleCombination p) (m_playlistType p) referenced /\
  (file ∉ referenced ->
   Combination.playlistRule files (Playlist.GetWhereClause files depth) r
     (m_playlistType p) referenced =
     match Playlist.GetWhereClause files depth p ({[file]} ∪ referenced) with
     | Done (playlistQuery, referenced') => Done (Spec.spliced r playlistQuery, referenced')
     | OutOfRange => OutOfRange
     | OutOfFuel => OutOfFuel
     end) /\
  (forall (expand : CSmartPlaylist -> gset string -> Outcome (string * gset string))
          (seen : gset string),
     file ∈ seen ->
     Combination.playlistRule files expand r (m_playlistType p) seen = Done ("", seen)).
Proof.
  intros file Hp Hfile Hload. subst file. repeat split.
  - intros Hnew.
    rewrite (playlistRule_loaded (Playlist.GetWhereClause files depth) r
               (m_playlistType p) name rest referenced p) by assumption.
    unfold Combination.sameTypeForQuery. rewrite String.eqb_refl. simpl.
    rewrite SetType_same. reflexivity.
  - intros expand seen Hin.
    apply (playlistRule_skipped expand r (m_playlistType p) name rest seen Hp).
    right. exact Hin.
Qed.

End NestedPlaylists.

(** ** The nested playlist examples *)

Lemma nested_playlist_spliced_witness :
  let files : gmap string CSmartPlaylist := <[Sample.innerFile := Sample.inner "mixed"]> ∅ in
  let r := mkRule FieldPlaylist OPERATOR_DOES_NOT_EQUAL ["Inner"] in
  Combination.playlistRule (ext := Sample.externals) files
    (Playlist.GetWhereClause (ext := Sample.externals) files 1) r "songs" ∅ =
    Done ("NOT ((songview.strTitle LIKE '%love%'))", {[Sample.innerFile]}).
Proof.
  intros files r.
  refine (eq_trans
    (proj1 (nested_playlist_spliced (ext := Sample.externals) files
              (Playlist.GetWhereClause (ext := Sample.externals) files 1)
              r "songs" "Inner" [] ∅ (Sample.inner "mixed") eq_refl _ _ _) _) _).
  - vm_compute. discriminate.
  - apply not_elem_of_empty.
  - vm_compute. reflexivity.
  - right. left. split; [reflexivity | left; reflexivity].
  - vm_compute. reflexivity.
Defined.

(** C3 as stated fails: "mixed" and "songs" are compatible types, and yet a
    "mixed" compile that references a "songs" playlist does not splice its
    clause: the rule contributes an empty fragment. *)
Lemma mixed_outer_does_not_splice_songs :
  let files : gmap string CSmartPlaylist := <[Sample.innerFile := Sample.inner "songs"]> ∅ in
  exists nestedClause : string,
    Playlist.GetWhereClause (ext := Sample.externals) files 2 (Sample.inner "songs") ∅ =
      Done (nestedClause, ∅) /\
    nestedClause <> "" /\
    Playlist.CheckTypeCompatibility "mixed" "songs" = true /\
    Playlist.GetWhereClause (ext := Sample.externals) files 2
      (Sample.outer "mixed" OPERATOR_EQUALS) ∅ = Done ("", {[Sample.innerFile]}).
Proof.
  intros files. exists "(songview.strTitle LIKE '%love%')".
  split; [vm_compute; reflexivity |].
  split; [discriminate |].
  split; [reflexivity |].
  vm_compute. reflexivity.
Qed.

Lemma self_reference_expanded_once_witness :
  let files : gmap string CSmartPlaylist := <[Sample.selfFile := Sample.selfP]> ∅ in
  let r := mkRule FieldPlaylist OPERATOR_EQUALS ["P"] in
  Combination.playlistRule (ext := Sample.externals) files
    (Playlist.GetWhereClause (ext := Sample.externals) files 1) r "songs" ∅ =
    Done ("(songview.strTitle LIKE '%love%')", {[Sample.selfFile]}) /\
  Combination.playlistRule (ext := Sample.externals) files
    (Playlist.GetWhereClause (ext := Sample.externals) files 0) r "songs"
    {[Sample.selfFile]} = Done ("", {[Sample.selfFile]}).
Proof.
  intros files r.
  assert (Hfile : Sample.getPlaylistByName "P" "songs" <> "") by (vm_compute; discriminate).
  assert (Hload : files !! Sample.getPlaylistByName "P" "songs" = Some Sample.selfP)
    by (vm_compute; reflexivity).
  split.
  - refine (eq_trans
      (proj1 (proj2 (self_reference_expanded_once (ext := Sample.externals) files
                       Sample.selfP r "P" [] 1 ∅ eq_refl Hfile Hload)) _) _).
    + apply not_elem_of_empty.
    + vm_compute. reflexivity.
  - refine (proj2 (proj2 (self_reference_expanded_once (ext := Sample.externals) files
                            Sample.selfP r "P" [] 0 ∅ eq_refl Hfile Hload)) _ _ _).
    apply elem_of_singleton. reflexivity.
Defined.

(** C4 as stated fails: compiled from the empty set, the self-referencing
    rule of "P" is expanded once and contributes the clause of "P", not an
    empty fragment; the compile of "P" holds that clause twice. *)
Lemma self_reference_not_empty_fragment :
  let files : gmap string CSmartPlaylist := <[Sample.selfFile := Sample.selfP]> ∅ in
  Combination.playlistRule (ext := Sample.externals) files
    (Playlist.GetWhereClause (ext := Sample.externals) files 1)
    (mkRule FieldPlaylist OPERATOR_EQUALS ["P"]) "songs" ∅ <> Done ("", ∅) /\
  Combination.playlistRule (ext := Sample.externals) files
    (Playlist.GetWhereClause (ext := Sample.externals) files 1)
    (mkRule FieldPlaylist OPERATOR_EQUALS ["P"]) "songs" ∅ =
    Done ("(songview.strTitle LIKE '%love%')", {[Sample.selfFile]}) /\
  Playlist.GetWhereClause (ext := Sample.externals) files 2 Sample.selfP ∅ =
    Done ("(songview.strTitle LIKE '%love%') AND ((songview.strTitle LIKE '%love%'))",
          {[Sample.selfFile]}).
Proof.
  intros files.
  assert (E : Combination.playlistRule (ext := Sample.externals) files
                (Playlist.GetWhereClause (ext := Sample.externals) files 1)
                (mkRule FieldPlaylist OPERATOR_EQUALS ["P"]) "songs" ∅ =
              Done ("(songview.strTitle LIKE '%love%')", {[Sample.selfFile]}))
    by (vm_compute; reflexivity).
  split; [rewrite E; discriminate |].
  split; [exact E |].
  vm_compute. reflexivity.
Qed.

Lemma compile_terminates_witness :
  (Spec.unreferenced Sample.circular ∅ < 3)%nat /\
  Playlist.GetWhereClause (ext := Sample.externals) Sample.circular 3 Sample.ping ∅ <>
    OutOfFuel.
Proof.
  assert (H : (Spec.unreferenced Sample.circular ∅ < 3)%nat) by (vm_compute; lia).
  split; [exact H |].
  exact (proj1 (compile_terminates (ext := Sample.externals) Sample.circular
                  Sample.ping ∅ 3 H)).
Defined.

(** ** A group with the role value "%" *)

Lemma role_route_flags_witness :
  let c :=
    mkCombination CombinationAnd []
      [ mkRule FieldRole OPERATOR_EQUALS ["%"];
        mkRule FieldRole OPERATOR_DOES_NOT_EQUAL ["AlbumArtist"] ] in
  exists flags : Combination.RoleFlags,
    Combination.GetRolesWhereClause (ext := Sample.externals) c Combination.roleFlagsStart =
      Done ("", flags) /\
    Combination.bAlbumArtists flags = true /\
    Combination.bSongArtists flags = true.
Proof.
  intros c.
  pose proof (role_route_flags (ext := Sample.externals) c Combination.roleFlagsStart) as H.
  destruct (Combination.GetRolesWhereClause c Combination.roleFlagsStart)
    as [[clause flags] | |] eqn:E.
  - destruct H as (_ & _ & _ & Hw & _).
    destruct (Hw eq_refl) as (-> & Ha & Hs). exists flags. auto.
  - exfalso. vm_compute in E. discriminate E.
  - contradiction.
Defined.

(** ** Groups on which the flags are not those of the statement *)

(** C1 as stated fails.  Under AND the group {role equals "albumartist",
    role does-not-equal "albumartist"} has a non-negated and a negated
    "albumartist" role rule: as stated both routes would be disabled and the
    album-artist route kept, but the last rule decides and the call returns
    the album-artist route off and the song-artist route on.  And for a group
    with the one rule [role equals "Composer"], where the statement leaves
    both routes enabled, the call returns the album-artist route off, under
    AND and under OR. *)
Lemma role_flags_differ_from_stated :
  let twice :=
    mkCombination CombinationAnd []
      [ mkRule FieldRole OPERATOR_EQUALS ["albumartist"];
        mkRule FieldRole OPERATOR_DOES_NOT_EQUAL ["albumartist"] ] in
  let composer t := mkCombination t [] [mkRule FieldRole OPERATOR_EQUALS ["Composer"]] in
  (Spec.statedRoutes (m_type twice) (m_rules twice) = (true, false) /\
   Combination.GetRolesWhereClause (ext := Sample.externals) twice Combination.roleFlagsStart =
     Done ("song_artist.idRole = 1", Combination.mkRoleFlags false true false false)) /\
  (Spec.statedRoutes CombinationAnd (m_rules (composer CombinationAnd)) = (true, true) /\
   Combination.GetRolesWhereClause (ext := Sample.externals) (composer CombinationAnd)
     Combination.roleFlagsStart =
     Done ("(role.strRole LIKE 'Composer')", Combination.mkRoleFlags false true true true)) /\
  (Spec.statedRoutes CombinationOr (m_rules (composer CombinationOr)) = (true, true) /\
   Combination.GetRolesWhereClause (ext := Sample.externals) (composer CombinationOr)
     Combination.roleFlagsStart =
     Done ("(role.strRole LIKE 'Composer')", Combination.mkRoleFlags false true true true)).
Proof. repeat split; vm_compute; reflexivity. Qed.

(** * Further properties of the code *)

Ltac each_case H :=
  simpl in H;
  repeat match type of H with
         | _ \/ _ => destruct H as [H | H]
         | False => destruct H
         end.

Ltac string_cases t :=
  repeat match goal with
         | |- context [String.eqb t ?s] =>
             destruct (String.eqb_spec t s) as [-> | ?]
         end.

(** ** The [fields] and [groups] tables *)

(** X1.  [TranslateField] maps the name that [TranslateField(int)] gives a
    field back to the field, for every field that has a row in the [fields]
    table; a field without a row is named "none", which is [FieldNone]. *)
Theorem TranslateField_round_trip (f : Field) :
  Rule.TranslateField (Rule.TranslateFieldName f) =
    if existsb (fun row => Field_eqb f (Rule.tf_field row)) Rule.fields then f else FieldNone.
Proof. destruct f; vm_compute; reflexivity. Qed.

Lemma eq_nocase_trans (a b c : string) :
  Str.eq_nocase a b = true -> Str.eq_nocase a c = Str.eq_nocase b c.
Proof.
  revert b c. induction a as [| x a IH]; intros [| y b] [| z c]; simpl; try discriminate;
    try reflexivity.
  intros H. apply andb_true_iff in H as [Hxy Hab].
  apply Ascii.eqb_eq in Hxy. rewrite Hxy. f_equal. apply IH. exact Hab.
Qed.

Lemma find_pointwise {A : Type} (p q : A -> bool) (l : list A) :
  (forall x, p x = q x) -> find p l = find q l.
Proof.
  intros H. induction l as [| x l IH]; simpl; [reflexivity |]. rewrite H, IH. reflexivity.
Qed.

(** Every row of [fields] is the first row of its field. *)
Lemma fields_names_unique :
  forallb
    (fun row => String.eqb (Rule.TranslateFieldName (Rule.tf_field row)) (Rule.tf_string row))
    Rule.fields = true.
Proof. vm_compute. reflexivity. Qed.

(** X2.  [TranslateField] ignores case: names that are equal up to case
    give the same field.  The name of the field it gives is "none" or the
    given name up to case. *)
Theorem TranslateField_ignores_case (a b : string) :
  Str.EqualsNoCase a b = true ->
  Rule.TranslateField a = Rule.TranslateField b /\
  (Rule.TranslateFieldName (Rule.TranslateField a) = "none" \/
   Str.EqualsNoCase a (Rule.TranslateFieldName (Rule.TranslateField a)) = true).
Proof.
  intros Hab. split.
  - unfold Rule.TranslateField.
    rewrite (find_pointwise _ (fun f => Str.EqualsNoCase b (Rule.tf_string f)));
      [reflexivity |].
    intros row. unfold Str.EqualsNoCase in *. apply eq_nocase_trans. exact Hab.
  - unfold Rule.TranslateField.
    destruct (find _ Rule.fields) as [row |] eqn:Hfind.
    + right. apply find_some in Hfind as [Hin Hrow].
      pose proof fields_names_unique as Hu.
      rewrite forallb_forall in Hu. specialize (Hu row Hin).
      apply String.eqb_eq in Hu. rewrite Hu. exact Hrow.
    + left. reflexivity.
Qed.

Lemma TranslateField_ignores_case_witness :
  Str.EqualsNoCase "AlbumArtist" "albumartist" = true /\
  Rule.TranslateField "AlbumArtist" = Rule.TranslateField "albumartist" /\
  (Rule.TranslateFieldName (Rule.TranslateField "AlbumArtist") = "none" \/
   Str.EqualsNoCase "AlbumArtist"
     (Rule.TranslateFieldName (Rule.TranslateField "AlbumArtist")) = true).
Proof.
  split; [reflexivity |].
  apply TranslateField_ignores_case. reflexivity.
Defined.

(** X3.  [TranslateGroup] maps the name that [TranslateGroup(Field)] gives
    a group back to the group, for every field that has a row in the
    [groups] table; a field without a row is named "", which is
    [FieldUnknown]. *)
Theorem TranslateGroup_round_trip (f : Field) :
  Rule.TranslateGroup (Rule.TranslateGroupName f) =
    if existsb (fun i => Field_eqb f (Rule.g_field i)) Rule.groups then f else FieldUnknown.
Proof. destruct f; vm_compute; reflexivity. Qed.

(** X4.  Every group that [GetGroups] offers for a type has a row in the
    [groups] table, so that its name translates back to it; the only group
    offered that can be mixed is the set, which is offered for "movies". *)
Theorem GetGroups_have_names (type : string) (f : Field) :
  In f (Rule.GetGroups type) ->
  Rule.TranslateGroup (Rule.TranslateGroupName f) = f /\
  (Rule.CanGroupMix f = true -> f = FieldSet /\ type = "movies").
Proof.
  unfold Rule.GetGroups.
  destruct (String.eqb_spec type "movies") as [-> | Hm].
  - simpl. intros H. each_case H; subst f; vm_compute; split; auto; discriminate.
  - destruct (String.eqb type "artists"), (String.eqb type "albums"),
      (String.eqb type "tvshows"), (String.eqb type "musicvideos");
      simpl; intros H; each_case H; subst f; vm_compute; split; auto; discriminate.
Qed.

Lemma GetGroups_have_names_witness :
  In FieldSet (Rule.GetGroups "movies") /\
  Rule.TranslateGroup (Rule.TranslateGroupName FieldSet) = FieldSet /\
  (Rule.CanGroupMix FieldSet = true -> FieldSet = FieldSet /\ "movies" = "movies").
Proof.
  assert (H : In FieldSet (Rule.GetGroups "movies")) by (vm_compute; tauto).
  split; [exact H | exact (GetGroups_have_names "movies" FieldSet H)].
Defined.

(** ** The fields and orders offered for a type *)

(** The lists [GetFields] can return. *)
Lemma GetFields_cases (type : string) :
  In (Rule.GetFields type)
    (map Rule.GetFields
       ["mixed"; "songs"; "albums"; "artists"; "tvshows"; "episodes"; "movies";
        "musicvideos"; ""]).
Proof.
  unfold Rule.GetFields at 1.
  repeat (destruct (String.eqb type _); [simpl; tauto |]).
  simpl; tauto.
Qed.

Lemma GetOrders_cases (type : string) :
  In (Rule.GetOrders type)
    (map Rule.GetOrders
       ["mixed"; "songs"; "albums"; "artists"; "tvshows"; "episodes"; "movies";
        "musicvideos"; ""]).
Proof.
  unfold Rule.GetOrders at 1.
  repeat (destruct (String.eqb type _); [simpl; tauto |]).
  simpl; tauto.
Qed.

(** The type of a field that [GetFields] offers besides the playlist and the
    virtual folder. *)
Lemma GetFields_type (type : string) (f : Field) :
  In f (Rule.GetFields type) ->
  In type ["mixed"; "songs"; "albums"; "artists"; "tvshows"; "episodes"; "movies";
           "musicvideos"] \/
  In f [FieldPlaylist; FieldVirtualFolder].
Proof.
  unfold Rule.GetFields.
  repeat match goal with
         | |- context [String.eqb type ?t] =>
             destruct (String.eqb_spec type t) as [-> | _]; [intros _; left; simpl; tauto |]
         end.
  intros H. right. exact H.
Qed.

(** The names are appended to the list given. *)
Lemma available_app (rows : list Rule.translateField) (fs : list Field) (l : list string) :
  fold_left
    (fun fieldList field =>
       fold_left
         (fun fieldList i =>
            if Field_eqb field (Rule.tf_field i)
            then fieldList ++ [Rule.tf_string i] else fieldList)
         rows fieldList)
    fs l =
  l ++ fold_left
    (fun fieldList field =>
       fold_left
         (fun fieldList i =>
            if Field_eqb field (Rule.tf_field i)
            then fieldList ++ [Rule.tf_string i] else fieldList)
         rows fieldList)
    fs [].
Proof.
  assert (Hin : forall (f : Field) (rows : list Rule.translateField) (l : list string),
    fold_left (fun fieldList i =>
                 if Field_eqb f (Rule.tf_field i)
                 then fieldList ++ [Rule.tf_string i] else fieldList) rows l =
    l ++ fold_left (fun fieldList i =>
                 if Field_eqb f (Rule.tf_field i)
                 then fieldList ++ [Rule.tf_string i] else fieldList) rows []).
  { intros f rows0. induction rows0 as [| i rows0 IH]; intros l0; simpl.
    - rewrite app_nil_r. reflexivity.
    - destruct (Field_eqb f (Rule.tf_field i)).
      + rewrite IH. rewrite (IH [_]). rewrite app_assoc. reflexivity.
      + apply IH. }
  revert l. induction fs as [| f fs IH]; intros l; cbn [fold_left].
  - rewrite app_nil_r. reflexivity.
  - rewrite IH. rewrite (IH (fold_left _ rows [])).
    rewrite (Hin f rows l). rewrite <- app_assoc. reflexivity.
Qed.

(** X5.  For every type, [GetAvailableFields] appends to the list it is
    given exactly one name for each field of [GetFields(type)], in the same
    order: the name [TranslateField(int)] gives the field, which
    [TranslateField] maps back to the field. *)
Theorem GetAvailableFields_round_trip (type : string) (fieldList : list string) :
  exists names : list string,
    Playlist.GetAvailableFields type fieldList = fieldList ++ names /\
    map Rule.TranslateField names = Rule.GetFields type /\
    names = map Rule.TranslateFieldName (Rule.GetFields type).
Proof.
  exists (Playlist.GetAvailableFields type []). split.
  - unfold Playlist.GetAvailableFields. apply available_app.
  - unfold Playlist.GetAvailableFields.
    pose proof (GetFields_cases type) as H.
    each_case H; rewrite <- H; split; vm_compute; reflexivity.
Qed.

(** X6.  For every type, known or not, [GetFields] offers no field twice,
    and the playlist and the virtual folder are the last two fields
    offered. *)
Theorem GetFields_no_duplicates (type : string) :
  NoDup (Rule.GetFields type) /\
  exists fields : list Field,
    Rule.GetFields type = fields ++ [FieldPlaylist; FieldVirtualFolder].
Proof.
  split.
  - apply (NoDup_fmap_1 Field_tag).
    pose proof (GetFields_cases type) as H.
    each_case H; rewrite <- H; apply (bool_decide_unpack _); vm_compute; exact I.
  - unfold Rule.GetFields.
    match goal with |- context [let '(_, _) := ?e in _] => destruct e as [fs isVideo] end.
    eexists. reflexivity.
Qed.

(** X7.  For every type, known or not, [GetOrders] offers no sort method
    twice; the first one offered is [SortByNone] and the last one
    [SortByRandom]. *)
Theorem GetOrders_no_duplicates (type : string) :
  NoDup (Rule.GetOrders type) /\
  exists orders : list SortBy,
    Rule.GetOrders type = SortByNone :: orders ++ [SortByRandom].
Proof.
  split.
  - pose proof (GetOrders_cases type) as H.
    each_case H; rewrite <- H; apply (bool_decide_unpack _); vm_compute; exact I.
  - pose proof (GetOrders_cases type) as H.
    each_case H; rewrite <- H;
      match goal with
      | |- exists _, ?l = _ => exists (removelast (tl l)); vm_compute; reflexivity
      end.
Qed.

(** ** Validation and boolean queries *)

(** X8.  [Validate] accepts every input for a rule whose field is of a
    text, date, boolean, playlist or text-list type: the [fields] table
    gives these fields no validator.  Neither [StringUtils::Split] nor a
    validator is consulted. *)
Theorem Validate_unvalidated_types
    (Split : string -> string -> list string)
    (call : Validator -> string -> CSmartPlaylistRule -> bool)
    (input : string) (rule : CSmartPlaylistRule) :
  In (Rule.GetFieldType (m_field rule))
    [TEXT_FIELD; DATE_FIELD; BOOLEAN_FIELD; PLAYLIST_FIELD; TEXTIN_FIELD] ->
  Rule.Validate Split call input (Some rule) = true.
Proof.
  destruct rule as [f op ps]. unfold Rule.Validate. cbn [m_field].
  destruct f; vm_compute; intros H; try reflexivity;
    repeat (destruct H as [H | H]; [discriminate H |]); destruct H.
Qed.

Lemma Validate_unvalidated_types_witness :
  In (Rule.GetFieldType (m_field (mkRule FieldGenre OPERATOR_CONTAINS ["Rock / Pop"])))
    [TEXT_FIELD; DATE_FIELD; BOOLEAN_FIELD; PLAYLIST_FIELD; TEXTIN_FIELD] /\
  Rule.Validate (fun _ _ => ["Rock"; "Pop"]) (fun _ _ _ => false) "Rock / Pop"
    (Some (mkRule FieldGenre OPERATOR_CONTAINS ["Rock / Pop"])) = true.
Proof.
  assert (H : In (Rule.GetFieldType
                    (m_field (mkRule FieldGenre OPERATOR_CONTAINS ["Rock / Pop"])))
    [TEXT_FIELD; DATE_FIELD; BOOLEAN_FIELD; PLAYLIST_FIELD; TEXTIN_FIELD])
    by (vm_compute; tauto).
  split; [exact H |].
  exact (Validate_unvalidated_types (fun _ _ => ["Rock"; "Pop"]) (fun _ _ _ => false)
           "Rock / Pop" _ H).
Defined.

Lemma append_not_empty_r (a b : string) : b <> "" -> a +:+ b <> "".
Proof. destruct a; simpl; [auto | discriminate]. Qed.

Section BooleanQuery.
Context {ext : Externals}.

(** X9.  [GetBooleanQuery] gives a query only for a field that the [fields]
    table types as boolean, and only for the types "movies", "episodes",
    "tvshows" and "albums"; for every other field or type it returns the
    empty string. *)
Theorem GetBooleanQuery_boolean_fields (r : CSmartPlaylistRule) (negate strType : string) :
  Rule.GetBooleanQuery r negate strType <> "" ->
  Rule.GetFieldType (m_field r) = BOOLEAN_FIELD /\
  In strType ["movies"; "episodes"; "tvshows"; "albums"].
Proof.
  unfold Rule.GetBooleanQuery.
  destruct (String.eqb_spec strType "movies") as [-> | _];
    [| destruct (String.eqb_spec strType "episodes") as [-> | _];
       [| destruct (String.eqb_spec strType "tvshows") as [-> | _];
          [| destruct (String.eqb_spec strType "albums") as [-> | _]]]];
    cbn [String.eqb Ascii.eqb Bool.eqb];
    repeat match goal with
           | |- context [Field_eqb (m_field r) ?f] =>
               destruct (Field_eqb (m_field r) f) eqn:?
           end;
    intros H; try congruence;
    match goal with
    | E : Field_eqb (m_field r) _ = true |- _ => apply Field_eqb_eq in E; rewrite E
    end;
    (split; [reflexivity | simpl; tauto]).
Qed.

(** X10.  Every boolean field that [GetFields] offers for a type has its
    boolean query for that type: [GetBooleanQuery] is not empty, but for the
    compilation field of "albums", where it is the negation followed by the
    column of the field. *)
Theorem GetBooleanQuery_offered_fields (type negate : string) (r : CSmartPlaylistRule) :
  In (m_field r) (Rule.GetFields type) ->
  Rule.GetFieldType (m_field r) = BOOLEAN_FIELD ->
  (m_field r = FieldCompilation /\
   Rule.GetBooleanQuery r negate type = negate +:+ Rule.GetField FieldCompilation type) \/
  Rule.GetBooleanQuery r negate type <> "".
Proof.
  destruct r as [f op ps]. cbn [m_field]. intros Hin Hbool.
  destruct (GetFields_type type f Hin) as [Htype | Hf].
  - each_case Htype; subst type; vm_compute in Hin; each_case Hin; subst f;
      try discriminate Hbool; clear Hbool;
      unfold Rule.GetBooleanQuery;
      cbn [String.eqb Ascii.eqb Bool.eqb m_field Field_eqb Field_tag Pos.eqb];
      first [ left; split; reflexivity
            | right;
              first [ discriminate
                    | apply append_not_empty_r; discriminate
                    | apply append_not_empty_r, append_not_empty_r; discriminate ] ].
  - each_case Hf; subst f; discriminate Hbool.
Qed.

End BooleanQuery.

Lemma GetBooleanQuery_boolean_fields_witness :
  Rule.GetBooleanQuery (ext := Sample.externals)
    (mkRule FieldInProgress OPERATOR_TRUE []) "" "tvshows" <> "" /\
  Rule.GetFieldType (m_field (mkRule FieldInProgress OPERATOR_TRUE [])) = BOOLEAN_FIELD /\
  In "tvshows" ["movies"; "episodes"; "tvshows"; "albums"].
Proof.
  assert (H : Rule.GetBooleanQuery (ext := Sample.externals)
                (mkRule FieldInProgress OPERATOR_TRUE []) "" "tvshows" <> "")
    by (vm_compute; discriminate).
  split; [exact H |].
  exact (GetBooleanQuery_boolean_fields (ext := Sample.externals) _ "" "tvshows" H).
Defined.

Lemma GetBooleanQuery_offered_fields_witness :
  In (m_field (mkRule FieldTrailer OPERATOR_FALSE [])) (Rule.GetFields "movies") /\
  Rule.GetFieldType (m_field (mkRule FieldTrailer OPERATOR_FALSE [])) = BOOLEAN_FIELD /\
  ((m_field (mkRule FieldTrailer OPERATOR_FALSE []) = FieldCompilation /\
    Rule.GetBooleanQuery (ext := Sample.externals)
      (mkRule FieldTrailer OPERATOR_FALSE []) " NOT " "movies" =
      " NOT " +:+ Rule.GetField (ext := Sample.externals) FieldCompilation "movies") \/
   Rule.GetBooleanQuery (ext := Sample.externals)
     (mkRule FieldTrailer OPERATOR_FALSE []) " NOT " "movies" <> "").
Proof.
  assert (H : In (m_field (mkRule FieldTrailer OPERATOR_FALSE [])) (Rule.GetFields "movies"))
    by (vm_compute; tauto).
  split; [exact H |]. split; [reflexivity |].
  exact (GetBooleanQuery_offered_fields (ext := Sample.externals) "movies" " NOT " _ H eq_refl).
Defined.

(** ** Playlist types *)

(** X11.  A playlist is of a video type and of a music type at once exactly
    when its type is "mixed".  [GetSaveLocation] is "mixed" for such a
    playlist, "music" for one of a music type only, and "video" for every
    other playlist, whether its type is a video type or not known at all. *)
Theorem GetSaveLocation_by_kind (p : CSmartPlaylist) :
  (Playlist.IsVideoType p && Playlist.IsMusicType p = true <-> m_playlistType p = "mixed") /\
  Playlist.GetSaveLocation p =
    (if Playlist.IsVideoType p && Playlist.IsMusicType p then "mixed"
     else if Playlist.IsMusicType p then "music"
     else "video").
Proof.
  unfold Playlist.GetSaveLocation, Playlist.IsVideoType, Playlist.IsMusicType,
    Playlist.IsVideoType_of, Playlist.IsMusicType_of.
  generalize (m_playlistType p) as t. intros t.
  string_cases t; simpl; split; try reflexivity; split; congruence.
Qed.

(** X12.  The test under which [GetWhereClause] compiles a nested playlist
    into the query is, for a playlist that has a type, stronger than
    [CheckTypeCompatibility], the test under which [GetVirtualFolders]
    enters it: every typed playlist whose rules are compiled into a query of
    a type is compatible with that type. *)
Theorem expanded_playlists_are_compatible (playlistType strType : string) :
  Combination.sameTypeForQuery playlistType strType = true ->
  playlistType <> "" ->
  Playlist.CheckTypeCompatibility playlistType strType = true.
Proof.
  unfold Combination.sameTypeForQuery, Playlist.CheckTypeCompatibility.
  intros H Hne.
  destruct (String.eqb playlistType strType); [reflexivity |].
  destruct (String.eqb playlistType "mixed" &&
            (String.eqb strType "songs" || String.eqb strType "musicvideos"));
    [reflexivity |].
  simpl in H. destruct playlistType; [congruence | discriminate].
Qed.

Lemma expanded_playlists_are_compatible_witness :
  Combination.sameTypeForQuery "mixed" "songs" = true /\ "mixed" <> "" /\
  Playlist.CheckTypeCompatibility "mixed" "songs" = true.
Proof.
  split; [reflexivity |]. split; [discriminate |].
  apply expanded_playlists_are_compatible; [reflexivity | discriminate].
Defined.

(** ** Combining clauses *)

Lemma CombineClause_both (t : combination) (original clause : string) :
  original <> "" -> clause <> "" ->
  Combination.CombineClause t original clause =
    original +:+ (if isAnd t then " AND " else " OR ") +:+ Combination.paren clause.
Proof.
  intros Ho Hc. unfold Combination.CombineClause, Combination.paren.
  destruct original as [| x o]; [congruence |]. destruct clause as [| y c]; [congruence |].
  cbn [Str.empty negb]. rewrite !append_assoc. reflexivity.
Qed.

Lemma CombineClause_chain (t : combination) (clauses : list string) :
  forall original : string, original <> "" ->
    fold_left (Combination.CombineClause t) clauses original =
      original +:+
      Str.joinTail (if isAnd t then " AND " else " OR ")
        (map Combination.paren (List.filter (fun c => negb (Str.empty c)) clauses)).
Proof.
  induction clauses as [| c clauses IH]; intros original Hne.
  - cbn [fold_left List.filter map Str.joinTail]. rewrite append_empty_r. reflexivity.
  - cbn [fold_left List.filter].
    destruct c as [| x c].
    + cbn [Str.empty negb]. change (Combination.CombineClause t original "") with original.
      apply IH. exact Hne.
    + cbn [Str.empty negb map Str.joinTail].
      rewrite CombineClause_both by (assumption || discriminate).
      rewrite IH.
      * rewrite !append_assoc. reflexivity.
      * destruct original; [congruence | discriminate].
Qed.

(** X13.  Combining a list of clauses with [CombineClause], from the empty
    clause on, skips the empty ones: the result is the first non-empty
    clause as it is, followed by each later non-empty clause in parentheses
    after " AND " or " OR ".  No connective is left without a clause, and
    the result is empty when every clause is. *)
Theorem CombineClause_skips_empty_clauses (t : combination) (clauses : list string) :
  fold_left (Combination.CombineClause t) clauses "" =
    match List.filter (fun c => negb (Str.empty c)) clauses with
    | [] => ""
    | first :: rest =>
        first +:+
        Str.joinTail (if isAnd t then " AND " else " OR ") (map Combination.paren rest)
    end.
Proof.
  induction clauses as [| c clauses IH]; [reflexivity |].
  cbn [fold_left List.filter]. destruct c as [| x c].
  - exact IH.
  - cbn [Str.empty negb].
    change (Combination.CombineClause t "" (String x c)) with (String x c).
    apply CombineClause_chain. discriminate.
Qed.

(** ** The WHERE clause of a combination *)

Section WhereClause.
Context {ext : Externals}.
Variable files : gmap string CSmartPlaylist.
Variable expand : CSmartPlaylist -> gset string -> Outcome (string * gset string).

Lemma rulesLoop_without_virtual_folders (t : combination) (strType : string)
    (rules : list CSmartPlaylistRule) :
  forall st,
    Combination.rulesLoop files expand t strType st
      (List.filter (fun r => negb (Field_eqb (m_field r) FieldVirtualFolder)) rules) =
    Combination.rulesLoop files expand t strType st rules.
Proof.
  induction rules as [| r rules IH]; intros st; [reflexivity |].
  cbn [List.filter Combination.rulesLoop].
  destruct (Field_eqb (m_field r) FieldVirtualFolder) eqn:Hvf; cbn [negb].
  - unfold Combination.ruleStep. destruct st as [[rule joined] refs].
    rewrite Hvf. cbn [mbind Outcome_bind]. apply IH.
  - cbn [Combination.rulesLoop].
    destruct (Combination.ruleStep files expand t strType st r); cbn [mbind Outcome_bind];
      [apply IH | reflexivity | reflexivity].
Qed.

(** X14.  [GetWhereClause] of a combination does not look at the rules of
    the "virtualfolder" field: without them the combination compiles to the
    same outcome, clause and referenced playlists alike, whatever their
    operators and parameters are (a virtual folder rule without parameters
    does not throw). *)
Theorem GetWhereClause_ignores_virtual_folders (t : combination)
    (cs : list CSmartPlaylistRuleCombination) (rules : list CSmartPlaylistRule)
    (strType : string) (referencedPlaylists : gset string) :
  Combination.GetWhereClause files expand
    (mkCombination t cs
       (List.filter (fun r => negb (Field_eqb (m_field r) FieldVirtualFolder)) rules))
    strType referencedPlaylists =
  Combination.GetWhereClause files expand (mkCombination t cs rules) strType
    referencedPlaylists.
Proof.
  cbn [Combination.GetWhereClause].
  destruct (Combination.combinationsLoop _ t cs true "" referencedPlaylists)
    as [[rule refs] | |]; cbn [mbind Outcome_bind]; [| reflexivity | reflexivity].
  rewrite rulesLoop_without_virtual_folders. reflexivity.
Qed.

(** The loop over the rules of a type that is neither artists, albums nor
    songs, when no rule names a playlist. *)
Lemma rulesLoop_simple (t : combination) (strType : string) (rules : list CSmartPlaylistRule) :
  FromString strType <> MediaTypeArtist ->
  FromString strType <> MediaTypeAlbum ->
  FromString strType <> MediaTypeSong ->
  Forall (fun r => m_field r <> FieldPlaylist) rules ->
  forall (rule : string) (refs : gset string),
    Combination.rulesLoop files expand t strType (rule, [], refs) rules =
      Done (fold_left (Combination.CombineClause t)
              (map (fun r => Rule_GetWhereClause r strType)
                 (List.filter (fun r => negb (Field_eqb (m_field r) FieldVirtualFolder))
                    rules))
              rule,
            [], refs).
Proof.
  intros Ha Hb Hs Hrules.
  assert (Hsimple : forall f, Combination.IsFieldRuleSimple f (FromString strType) = true).
  { intros f. unfold Combination.IsFieldRuleSimple.
    destruct (Field_eqb f FieldNone || String.eqb (FromString strType) MediaTypeNone);
      [reflexivity |].
    apply String.eqb_neq in Ha, Hb, Hs. rewrite Ha, Hb, Hs. reflexivity. }
  induction Hrules as [| r rules Hr Hrules IH]; intros rule refs; [reflexivity |].
  cbn [Combination.rulesLoop List.filter]. unfold Combination.ruleStep.
  destruct (Field_eqb (m_field r) FieldVirtualFolder) eqn:Hvf;
    cbn [negb mbind Outcome_bind map fold_left].
  - apply IH.
  - destruct (Field_eqb (m_field r) FieldPlaylist) eqn:Hp.
    { apply Field_eqb_eq in Hp. contradiction. }
    rewrite Hsimple. cbn [negb mbind Outcome_bind map fold_left]. apply IH.
Qed.

(** X15.  For a type whose media type is neither artist, album nor song -
    the video types - and rules that name no playlist, [GetWhereClause]
    compiles the child combinations and then combines, in order, the clause
    of each rule on its own ([CDatabaseQueryRule::GetWhereClause]), virtual
    folder rules left out: no rule is held back for a combined clause, the
    referenced playlists are those the child combinations leave, and the
    rules throw nothing. *)
Theorem GetWhereClause_video_rules (t : combination)
    (cs : list CSmartPlaylistRuleCombination) (rules : list CSmartPlaylistRule)
    (strType : string) (referencedPlaylists : gset string) :
  FromString strType <> MediaTypeArtist ->
  FromString strType <> MediaTypeAlbum ->
  FromString strType <> MediaTypeSong ->
  Forall (fun r => m_field r <> FieldPlaylist) rules ->
  Combination.GetWhereClause files expand (mkCombination t cs rules) strType
    referencedPlaylists =
    '(rule, referencedPlaylists) ←
      Combination.GetWhereClause files expand (mkCombination t cs []) strType
        referencedPlaylists;
    Done (fold_left (Combination.CombineClause t)
            (map (fun r => Rule_GetWhereClause r strType)
               (List.filter (fun r => negb (Field_eqb (m_field r) FieldVirtualFolder))
                  rules))
            rule,
          referencedPlaylists).
Proof.
  intros Ha Hb Hs Hrules.
  cbn [Combination.GetWhereClause].
  destruct (Combination.combinationsLoop _ t cs true "" referencedPlaylists)
    as [[rule refs] | |];
    cbn [mbind Outcome_bind Combination.rulesLoop]; [| reflexivity | reflexivity].
  rewrite rulesLoop_simple by assumption.
  reflexivity.
Qed.

Lemma rulesLoop_playlist_without_parameter (t : combination) (strType : string)
    (rules : list CSmartPlaylistRule) :
  Exists (fun r => m_field r = FieldPlaylist /\ m_parameter r = []) rules ->
  forall st out, Combination.rulesLoop files expand t strType st rules <> Done out.
Proof.
  induction 1 as [r rules [Hf Hp] | r rules Hex IH]; intros st out;
    cbn [Combination.rulesLoop].
  - unfold Combination.ruleStep. destruct st as [[rule joined] refs].
    rewrite Hf. cbn [Field_eqb Field_tag Pos.eqb].
    unfold Combination.playlistRule, at0. rewrite Hp. cbn [mbind Outcome_bind]. discriminate.
  - destruct (Combination.ruleStep files expand t strType st r) as [st' | |];
      cbn [mbind Outcome_bind]; [apply IH | discriminate | discriminate].
Qed.

End WhereClause.

Lemma GetWhereClause_video_rules_witness :
  let rules := [Sample.titleRule; mkRule FieldVirtualFolder OPERATOR_EQUALS []] in
  let expand : CSmartPlaylist -> gset string -> Outcome (string * gset string) :=
    fun _ _ => OutOfFuel in
  Sample.fromString "movies" <> "artist" /\
  Sample.fromString "movies" <> "album" /\
  Sample.fromString "movies" <> "song" /\
  Forall (fun r => m_field r <> FieldPlaylist) rules /\
  Combination.GetWhereClause (ext := Sample.externals) ∅ expand
    (mkCombination CombinationAnd [] rules) "movies" ∅ =
    Done ("(movie_view.c00 LIKE '%love%')", ∅).
Proof.
  intros rules expand.
  assert (Ha : Sample.fromString "movies" <> "artist") by (vm_compute; discriminate).
  assert (Hb : Sample.fromString "movies" <> "album") by (vm_compute; discriminate).
  assert (Hs : Sample.fromString "movies" <> "song") by (vm_compute; discriminate).
  assert (Hr : Forall (fun r => m_field r <> FieldPlaylist) rules)
    by (repeat constructor; discriminate).
  repeat (split; [assumption |]).
  rewrite (GetWhereClause_video_rules (ext := Sample.externals) ∅ expand CombinationAnd []
             rules "movies" ∅ Ha Hb Hs Hr).
  vm_compute. reflexivity.
Defined.

(** ** Role rules and rules without parameters *)

Section Throws.
Context {ext : Externals}.

Lemma scanRules_no_role (t : combination) (rules : list CSmartPlaylistRule)
    (s : Combination.RoleScan) :
  Forall (fun r => m_field r <> FieldRole) rules ->
  Combination.scanRules t s rules = Done s.
Proof.
  induction 1 as [| r rules Hr Hrules IH]; [reflexivity |].
  cbn [Combination.scanRules]. unfold Combination.scanStep.
  destruct (Field_eqb (m_field r) FieldRole) eqn:E.
  - apply Field_eqb_eq in E. contradiction.
  - cbn [mbind Outcome_bind]. exact IH.
Qed.

(** X16.  For a combination without a rule of the "role" field,
    [GetRolesWhereClause] returns the clause of the artist role,
    [song_artist.idRole = 1]; it leaves both artist routes enabled, and the
    role join and the role-rules flag off, whatever the flags were at the
    call. *)
Theorem GetRolesWhereClause_without_role_rules (c : CSmartPlaylistRuleCombination)
    (flags : Combination.RoleFlags) :
  Forall (fun r => m_field r <> FieldRole) (m_rules c) ->
  Combination.GetRolesWhereClause c flags =
    Done ("song_artist.idRole = 1", Combination.mkRoleFlags true true false false).
Proof.
  intros H. unfold Combination.GetRolesWhereClause.
  rewrite scanRules_no_role by exact H. reflexivity.
Qed.

Lemma scanRules_bad_role (t : combination) (rules : list CSmartPlaylistRule) :
  Exists (fun r => m_field r = FieldRole /\ m_parameter r = []) rules ->
  forall s, Combination.scanRules t s rules = OutOfRange.
Proof.
  induction 1 as [r rules [Hf Hp] | r rules Hex IH]; intros s; cbn [Combination.scanRules].
  - unfold Combination.scanStep, at0. rewrite Hf, Hp. reflexivity.
  - pose proof (scanRules_throws t [r] s) as Hr. cbn [Combination.scanRules] in Hr.
    destruct (Combination.scanStep t s r) as [s' | |]; cbn [mbind Outcome_bind] in *.
    + apply IH.
    + reflexivity.
    + contradiction.
Qed.

Lemma GetRolesWhereClause_throws (c : CSmartPlaylistRuleCombination)
    (flags : Combination.RoleFlags) :
  (Exists (fun r => m_field r = FieldRole /\ m_parameter r = []) (m_rules c) /\
   Combination.GetRolesWhereClause c flags = OutOfRange) \/
  (~ Exists (fun r => m_field r = FieldRole /\ m_parameter r = []) (m_rules c) /\
   exists out, Combination.GetRolesWhereClause c flags = Done out).
Proof.
  unfold Combination.GetRolesWhereClause.
  pose proof (scanRules_throws (m_type c) (m_rules c)
                (Combination.scanStart (Combination.bRoleRules flags))) as Hthrow.
  destruct (Combination.scanRules (m_type c) _ (m_rules c)) as [s | |] eqn:Hscan;
    cbn [mbind Outcome_bind]; [| left; auto | contradiction].
  right. split.
  - intros Hex. rewrite (scanRules_bad_role _ _ Hex) in Hscan. discriminate.
  - destruct (Combination.validateRoles s) as [album song].
    destruct (negb (Combination.bWildRoleRule s) && _); [eexists; reflexivity |].
    destruct (fold_left _ _ _). eexists; reflexivity.
Qed.

Lemma combined_types (strType : string) :
  In strType ["artists"; "albums"; "songs"] <->
  String.eqb strType "artists" || String.eqb strType "albums" ||
  String.eqb strType "songs" = true.
Proof.
  rewrite !orb_true_iff, !String.eqb_eq. simpl. intuition congruence.
Qed.

(** X17.  [GetCombinedWhereClause] throws [std::out_of_range] exactly when
    the type is "artists", "albums" or "songs" and some rule of the "role"
    field has no parameter; in every other case it returns, and for every
    other type what it returns is the empty string, whatever the rules
    are. *)
Theorem GetCombinedWhereClause_throws (c : CSmartPlaylistRuleCombination) (strType : string) :
  (Combination.GetCombinedWhereClause c strType = OutOfRange <->
   In strType ["artists"; "albums"; "songs"] /\
   Exists (fun r => m_field r = FieldRole /\ m_parameter r = []) (m_rules c)) /\
  Combination.GetCombinedWhereClause c strType <> OutOfFuel /\
  (~ In strType ["artists"; "albums"; "songs"] ->
   Combination.GetCombinedWhereClause c strType = Done "").
Proof.
  rewrite combined_types.
  destruct (String.eqb strType "artists" || String.eqb strType "albums" ||
            String.eqb strType "songs") eqn:E.
  - assert (Hshape : exists k : string -> Combination.RoleFlags -> string,
      Combination.GetCombinedWhereClause c strType =
        ('(roleClause, flags) ← Combination.GetRolesWhereClause c Combination.roleFlagsStart;
         Done (k roleClause flags))).
    { unfold Combination.GetCombinedWhereClause, Combination.GetArtistsWhereClause,
        Combination.GetAlbumsWhereClause, Combination.GetSongsWhereClause.
      destruct (String.eqb strType "artists"); [eexists; reflexivity |].
      destruct (String.eqb strType "albums"); [eexists; reflexivity |].
      destruct (String.eqb strType "songs"); [eexists; reflexivity | discriminate E]. }
    destruct Hshape as [k ->].
    destruct (GetRolesWhereClause_throws c Combination.roleFlagsStart)
      as [[Hex ->] | [Hnex [[roleClause flags] ->]]]; cbn [mbind Outcome_bind].
    + split; [split; [intros _; split; [reflexivity | exact Hex] | reflexivity] |].
      split; [discriminate | intros Hn; exfalso; apply Hn; reflexivity].
    + split; [split; [discriminate | intros [_ Hex]; contradiction] |].
      split; [discriminate | intros Hn; exfalso; apply Hn; reflexivity].
  - assert (Hnone : Combination.GetCombinedWhereClause c strType = Done "").
    { unfold Combination.GetCombinedWhereClause.
      destruct (String.eqb strType "artists"); [discriminate E |].
      destruct (String.eqb strType "albums"); [discriminate E |].
      destruct (String.eqb strType "songs"); [discriminate E | reflexivity]. }
    rewrite Hnone.
    split; [split; [discriminate | intros [Hin _]; discriminate Hin] |].
    split; [discriminate | reflexivity].
Qed.

(** X18.  A playlist whose root combination holds a rule of the "playlist"
    field without a parameter does not compile: [GetWhereClause] throws
    [std::out_of_range], whatever the other rules and the playlist files
    are. *)
Theorem playlist_rule_without_parameter_throws (files : gmap string CSmartPlaylist)
    (p : CSmartPlaylist) (referencedPlaylists : gset string) (depth : nat) :
  Exists (fun r => m_field r = FieldPlaylist /\ m_parameter r = [])
    (m_rules (m_ruleCombination p)) ->
  (Spec.unreferenced files referencedPlaylists < depth)%nat ->
  Playlist.GetWhereClause files depth p referencedPlaylists = OutOfRange.
Proof.
  intros Hex Hdepth.
  pose proof (Playlist_GetWhereClause_returns files depth p referencedPlaylists Hdepth)
    as Hreturns.
  destruct depth as [| depth]; [lia |].
  cbn [Playlist.GetWhereClause] in *.
  destruct (m_ruleCombination p) as [t cs rules]. cbn [m_rules] in Hex.
  cbn [Combination.GetWhereClause] in *.
  destruct (Combination.combinationsLoop _ t cs true "" referencedPlaylists)
    as [[rule refs] | |]; cbn [mbind Outcome_bind] in *;
    [| reflexivity | contradiction].
  pose proof (rulesLoop_playlist_without_parameter files (Playlist.GetWhereClause files depth)
                t (Playlist.GetType p) rules Hex (rule, [], refs)) as Hloop.
  destruct (Combination.rulesLoop _ _ _ _ _ rules) as [st | |]; cbn [mbind Outcome_bind] in *;
    [| reflexivity | contradiction].
  exfalso. exact (Hloop st eq_refl).
Qed.

End Throws.

Lemma GetRolesWhereClause_without_role_rules_witness :
  let c := mkCombination CombinationAnd []
             [Sample.titleRule; mkRule FieldArtist OPERATOR_CONTAINS ["Bob"]] in
  Forall (fun r => m_field r <> FieldRole) (m_rules c) /\
  Combination.GetRolesWhereClause (ext := Sample.externals) c
    (Combination.mkRoleFlags false false true true) =
    Done ("song_artist.idRole = 1", Combination.mkRoleFlags true true false false).
Proof.
  intros c.
  assert (H : Forall (fun r => m_field r <> FieldRole) (m_rules c))
    by (repeat constructor; discriminate).
  split; [exact H |].
  exact (GetRolesWhereClause_without_role_rules (ext := Sample.externals) c _ H).
Defined.

Lemma playlist_rule_without_parameter_throws_witness :
  let p := mkPlaylist "Q" "songs"
             (mkCombination CombinationOr []
                [Sample.titleRule; mkRule FieldPlaylist OPERATOR_EQUALS []]) in
  Exists (fun r => m_field r = FieldPlaylist /\ m_parameter r = [])
    (m_rules (m_ruleCombination p)) /\
  (Spec.unreferenced Sample.circular ∅ < 3)%nat /\
  Playlist.GetWhereClause (ext := Sample.externals) Sample.circular 3 p ∅ = OutOfRange.
Proof.
  intros p.
  assert (Hex : Exists (fun r => m_field r = FieldPlaylist /\ m_parameter r = [])
                  (m_rules (m_ruleCombination p)))
    by (apply Exists_cons_tl, Exists_cons_hd; split; reflexivity).
  assert (H : (Spec.unreferenced Sample.circular ∅ < 3)%nat) by (vm_compute; lia).
  split; [exact Hex |]. split; [exact H |].
  exact (playlist_rule_without_parameter_throws (ext := Sample.externals)
           Sample.circular p ∅ 3 Hex H).
Defined.

(** ** Virtual folders *)

Section Folders.
Context {ext : Externals}.
Variable files : gmap string CSmartPlaylist.

Lemma extends_refl (vf : list string) : VirtualFolders.extends vf (Done vf).
Proof. exists []. split; [rewrite app_nil_r; reflexivity | constructor]. Qed.

Lemma extends_bind (vf : list string) (m : Outcome (list string))
    (k : list string -> Outcome (list string)) :
  VirtualFolders.extends vf m -> (forall vf', VirtualFolders.extends vf' (k vf')) ->
  VirtualFolders.extends vf (m ≫= k).
Proof.
  intros Hm Hk. destruct m as [vf' | |]; cbn [mbind Outcome_bind]; [| exact I | exact I].
  destruct Hm as (a1 & -> & H1). specialize (Hk (vf ++ a1)).
  destruct (k (vf ++ a1)) as [out | |]; [| exact I | exact I].
  destruct Hk as (a2 & -> & H2). exists (a1 ++ a2). split.
  - rewrite app_assoc. reflexivity.
  - apply Forall_app. split; assumption.
Qed.

Section Expand.
Variable expand : CSmartPlaylist -> list string -> Outcome (list string).
Hypothesis expand_extends : forall p vf, VirtualFolders.extends vf (expand p vf).

Lemma ruleStep_extends (strType : string) (vf : list string) (r : CSmartPlaylistRule) :
  VirtualFolders.extends vf (VirtualFolders.ruleStep files expand strType vf r).
Proof.
  unfold VirtualFolders.ruleStep.
  destruct (_ || _); [apply extends_refl |].
  destruct (at0 r) as [name | |]; cbn [mbind Outcome_bind]; [| exact I | exact I].
  destruct (Str.empty (GetPlaylistByName name strType)) eqn:He; [apply extends_refl |].
  destruct (Field_eqb (m_field r) FieldVirtualFolder).
  - exists [GetPlaylistByName name strType]. split; [reflexivity |].
    constructor; [| constructor]. apply empty_false. exact He.
  - destruct (files !! GetPlaylistByName name strType) as [playlist |]; [| apply extends_refl].
    destruct (Playlist.CheckTypeCompatibility _ _); [apply expand_extends | apply extends_refl].
Qed.

Lemma folders_rulesLoop_extends (strType : string) (rules : list CSmartPlaylistRule) :
  forall vf, VirtualFolders.extends vf (VirtualFolders.rulesLoop files expand strType vf rules).
Proof.
  induction rules as [| r rules IH]; intros vf; cbn [VirtualFolders.rulesLoop].
  - apply extends_refl.
  - apply extends_bind; [apply ruleStep_extends | exact IH].
Qed.

Lemma Combination_GetVirtualFolders_extends (strType : string) :
  forall (c : CSmartPlaylistRuleCombination) (vf : list string),
    VirtualFolders.extends vf
      (VirtualFolders.Combination_GetVirtualFolders files expand c strType vf).
Proof.
  induction c as [t cs rules IHcs] using combination_rect'. intros vf.
  cbn [VirtualFolders.Combination_GetVirtualFolders].
  apply extends_bind; [| intros vf'; apply folders_rulesLoop_extends].
  revert vf. induction IHcs as [| c cs Hc Hcs IH]; intros vf;
    cbn [VirtualFolders.combinationsLoop].
  - apply extends_refl.
  - apply extends_bind; [apply Hc | exact IH].
Qed.

End Expand.

Lemma GetVirtualFolders_extends (depth : nat) :
  forall (p : CSmartPlaylist) (vf : list string),
    VirtualFolders.extends vf (VirtualFolders.GetVirtualFolders files depth p vf).
Proof.
  induction depth as [| depth IH]; intros p vf; cbn [VirtualFolders.GetVirtualFolders].
  - exact I.
  - apply Combination_GetVirtualFolders_extends. exact IH.
Qed.

(** X19.  [GetVirtualFolders] only appends: the list it returns is the list
    it was given, followed by the file names it found, and none of the file
    names it adds is empty.  This holds through child combinations and
    through the playlists that playlist rules name. *)
Theorem GetVirtualFolders_appends (depth : nat) (p : CSmartPlaylist)
    (virtualFolders folders : list string) :
  VirtualFolders.GetVirtualFolders files depth p virtualFolders = Done folders ->
  exists added : list string,
    folders = virtualFolders ++ added /\ Forall (fun f => f <> "") added.
Proof.
  intros H. pose proof (GetVirtualFolders_extends depth p virtualFolders) as He.
  rewrite H in He. exact He.
Qed.

Lemma folders_rulesLoop_never (expand : CSmartPlaylist -> list string -> Outcome (list string))
    (strType : string) (rules : list CSmartPlaylistRule) (r : CSmartPlaylistRule)
    (name : string) (rest : list string) (p : CSmartPlaylist) :
  In r rules ->
  m_field r = FieldPlaylist -> m_operator r = OPERATOR_EQUALS ->
  m_parameter r = name :: rest ->
  files !! GetPlaylistByName name strType = Some p ->
  GetPlaylistByName name strType <> "" ->
  Playlist.CheckTypeCompatibility (Playlist.GetType p) strType = true ->
  (forall vf out, expand p vf <> Done out) ->
  forall vf out, VirtualFolders.rulesLoop files expand strType vf rules <> Done out.
Proof.
  intros Hin Hf Hop Hp Hfile Hne Hcompat Hexp.
  induction rules as [| r' rules IH]; [destruct Hin |].
  intros vf out. cbn [VirtualFolders.rulesLoop].
  destruct Hin as [-> | Hin].
  - unfold VirtualFolders.ruleStep, at0. rewrite Hf, Hop, Hp.
    cbn [Field_eqb Field_tag Pos.eqb negb andb orb op_eqb SEARCH_OPERATOR_beq
         mbind Outcome_bind].
    apply empty_false in Hne. rewrite Hne, Hfile, Hcompat.
    pose proof (Hexp vf) as Hv.
    destruct (expand p vf) as [vf' | |]; cbn [mbind Outcome_bind];
      [exfalso; exact (Hv vf' eq_refl) | discriminate | discriminate].
  - destruct (VirtualFolders.ruleStep files expand strType vf r') as [vf' | |];
      cbn [mbind Outcome_bind]; [apply IH; exact Hin | discriminate | discriminate].
Qed.

Section NoThrow.
Variable expand : CSmartPlaylist -> list string -> Outcome (list string).
Hypothesis expand_no_throw :
  forall f q vf, files !! f = Some q -> expand q vf <> OutOfRange.

Lemma ruleStep_no_throw (strType : string) (vf : list string) (r : CSmartPlaylistRule) :
  negb (VirtualFolders.readsParameter r) || negb (Str.empty_list (m_parameter r)) = true ->
  VirtualFolders.ruleStep files expand strType vf r <> OutOfRange.
Proof.
  unfold VirtualFolders.ruleStep, VirtualFolders.readsParameter, at0. intros Hr.
  destruct (Field_eqb (m_field r) FieldVirtualFolder), (Field_eqb (m_field r) FieldPlaylist),
    (op_eqb (m_operator r) OPERATOR_EQUALS); simpl in *; try discriminate;
    (destruct (m_parameter r) as [| name ps]; [discriminate Hr |]);
    cbn [mbind Outcome_bind];
    destruct (Str.empty (GetPlaylistByName name strType)); try discriminate;
    destruct (files !! GetPlaylistByName name strType) as [q |] eqn:Hq; try discriminate;
    destruct (Playlist.CheckTypeCompatibility _ _); try discriminate;
    exact (expand_no_throw _ q vf Hq).
Qed.

Lemma rulesLoop_no_throw (strType : string) (rules : list CSmartPlaylistRule) :
  forallb (fun r => negb (VirtualFolders.readsParameter r) ||
                    negb (Str.empty_list (m_parameter r))) rules = true ->
  forall vf, VirtualFolders.rulesLoop files expand strType vf rules <> OutOfRange.
Proof.
  induction rules as [| r rules IH]; intros Hall vf; cbn [VirtualFolders.rulesLoop];
    [discriminate |].
  cbn [forallb] in Hall. apply andb_true_iff in Hall as [Hr Hall].
  pose proof (ruleStep_no_throw strType vf r Hr) as Hstep.
  destruct (VirtualFolders.ruleStep files expand strType vf r) as [vf' | |];
    cbn [mbind Outcome_bind]; [apply IH; exact Hall | congruence | discriminate].
Qed.

Lemma Combination_GetVirtualFolders_no_throw (strType : string) :
  forall (c : CSmartPlaylistRuleCombination) (vf : list string),
    VirtualFolders.parametersPresent c = true ->
    VirtualFolders.Combination_GetVirtualFolders files expand c strType vf <> OutOfRange.
Proof.
  induction c as [t cs rules IHcs] using combination_rect'. intros vf Hc.
  cbn [VirtualFolders.parametersPresent] in Hc. apply andb_true_iff in Hc as [Hcs Hrules].
  cbn [VirtualFolders.Combination_GetVirtualFolders].
  assert (Hloop : VirtualFolders.combinationsLoop
                    (fun combo => VirtualFolders.Combination_GetVirtualFolders files expand
                                    combo strType) cs vf <> OutOfRange).
  { revert vf Hcs. induction IHcs as [| c cs Hc _ IH]; intros vf Hcs;
      cbn [VirtualFolders.combinationsLoop]; [discriminate |].
    cbn [forallb] in Hcs. apply andb_true_iff in Hcs as [Hc' Hcs].
    specialize (Hc vf Hc').
    destruct (VirtualFolders.Combination_GetVirtualFolders files expand c strType vf)
      as [vf' | |]; cbn [mbind Outcome_bind]; [apply IH; exact Hcs | congruence | discriminate]. }
  destruct (VirtualFolders.combinationsLoop _ cs vf) as [vf' | |]; cbn [mbind Outcome_bind];
    [apply rulesLoop_no_throw; exact Hrules | congruence | discriminate].
Qed.

End NoThrow.

(** With a parameter on every rule that is read, in every playlist of the
    store, a playlist of the store does not throw. *)
Lemma GetVirtualFolders_no_throw :
  (forall f q, files !! f = Some q ->
               VirtualFolders.parametersPresent (m_ruleCombination q) = true) ->
  forall (depth : nat) (f : string) (q : CSmartPlaylist) (vf : list string),
    files !! f = Some q ->
    VirtualFolders.GetVirtualFolders files depth q vf <> OutOfRange.
Proof.
  intros Hall. induction depth as [| depth IH]; intros f q vf Hq;
    cbn [VirtualFolders.GetVirtualFolders]; [discriminate |].
  apply Combination_GetVirtualFolders_no_throw.
  - intros f' q' vf' Hq'. exact (IH f' q' vf' Hq').
  - exact (Hall f q Hq).
Qed.

(** X20.  [GetVirtualFolders] keeps no set of the playlists it has entered.
    For a playlist with a rule [playlist equals name] among the rules of its
    root combination, where [name] is resolved to a file that loads as the
    playlist itself, the call does not return a list, whatever the bound on
    the nesting.  When moreover every rule that is read, in every playlist of
    the store, has a parameter, the call does not throw either: it enters the
    playlist again and again and exhausts every bound on the nesting. *)
Theorem GetVirtualFolders_self_reference (p : CSmartPlaylist) (r : CSmartPlaylistRule)
    (name : string) (rest : list string) :
  In r (m_rules (m_ruleCombination p)) ->
  m_field r = FieldPlaylist -> m_operator r = OPERATOR_EQUALS ->
  m_parameter r = name :: rest ->
  files !! GetPlaylistByName name (Playlist.GetType p) = Some p ->
  GetPlaylistByName name (Playlist.GetType p) <> "" ->
  (forall (depth : nat) (virtualFolders folders : list string),
     VirtualFolders.GetVirtualFolders files depth p virtualFolders <> Done folders) /\
  ((forall f q, files !! f = Some q ->
                VirtualFolders.parametersPresent (m_ruleCombination q) = true) ->
   forall (depth : nat) (virtualFolders : list string),
     VirtualFolders.GetVirtualFolders files depth p virtualFolders = OutOfFuel).
Proof.
  intros Hin Hf Hop Hp Hfile Hne.
  assert (Hnever : forall (depth : nat) (vf out : list string),
            VirtualFolders.GetVirtualFolders files depth p vf <> Done out).
  { induction depth as [| depth IH]; intros vf out; cbn [VirtualFolders.GetVirtualFolders];
      [discriminate |].
    destruct (m_ruleCombination p) as [t cs rules] eqn:Hc. cbn [m_rules] in Hin.
    cbn [VirtualFolders.Combination_GetVirtualFolders].
    destruct (VirtualFolders.combinationsLoop _ cs vf) as [vf' | |]; cbn [mbind Outcome_bind];
      [| discriminate | discriminate].
    apply (folders_rulesLoop_never _ _ rules r name rest p); try assumption.
    unfold Playlist.CheckTypeCompatibility. rewrite String.eqb_refl. reflexivity. }
  split; [exact Hnever |].
  intros Hall depth vf.
  pose proof (Hnever depth vf) as Hd.
  pose proof (GetVirtualFolders_no_throw Hall depth _ p vf Hfile) as Ht.
  destruct (VirtualFolders.GetVirtualFolders files depth p vf) as [out | |];
    [exfalso; exact (Hd out eq_refl) | congruence | reflexivity].
Qed.

(** X21.  [GetVirtualFolders] of a combination reads only the rules of the
    "virtualfolder" and "playlist" fields whose operator is "equals": with
    every other rule removed, and whether the combination is an AND or an OR
    one, the outcome is the same.  Rules of other fields or operators do not
    throw when they have no parameter. *)
Theorem GetVirtualFolders_relevant_rules
    (expand : CSmartPlaylist -> list string -> Outcome (list string))
    (t t' : combination) (cs : list CSmartPlaylistRuleCombination)
    (rules : list CSmartPlaylistRule) (strType : string) (virtualFolders : list string) :
  VirtualFolders.Combination_GetVirtualFolders files expand (mkCombination t cs rules)
    strType virtualFolders =
  VirtualFolders.Combination_GetVirtualFolders files expand
    (mkCombination t' cs
       (List.filter
          (fun r => (Field_eqb (m_field r) FieldVirtualFolder ||
                     Field_eqb (m_field r) FieldPlaylist) &&
                    op_eqb (m_operator r) OPERATOR_EQUALS) rules))
    strType virtualFolders.
Proof.
  cbn [VirtualFolders.Combination_GetVirtualFolders].
  destruct (VirtualFolders.combinationsLoop _ cs virtualFolders) as [vf | |];
    cbn [mbind Outcome_bind]; [| reflexivity | reflexivity].
  revert vf. induction rules as [| r rules IH]; intros vf; [reflexivity |].
  cbn [List.filter VirtualFolders.rulesLoop].
  destruct ((Field_eqb (m_field r) FieldVirtualFolder || Field_eqb (m_field r) FieldPlaylist) &&
            op_eqb (m_operator r) OPERATOR_EQUALS) eqn:E.
  - cbn [VirtualFolders.rulesLoop].
    destruct (VirtualFolders.ruleStep files expand strType vf r); cbn [mbind Outcome_bind];
      [apply IH | reflexivity | reflexivity].
  - unfold VirtualFolders.ruleStep at 1.
    replace (negb (Field_eqb (m_field r) FieldVirtualFolder) &&
             negb (Field_eqb (m_field r) FieldPlaylist) ||
             negb (op_eqb (m_operator r) OPERATOR_EQUALS)) with true.
    + cbn [mbind Outcome_bind]. apply IH.
    + destruct (Field_eqb (m_field r) FieldVirtualFolder),
        (Field_eqb (m_field r) FieldPlaylist), (op_eqb (m_operator r) OPERATOR_EQUALS);
        simpl in *; congruence.
Qed.

End Folders.

Lemma GetVirtualFolders_appends_witness :
  let p := mkPlaylist "Shelves" "movies"
             (mkCombination CombinationOr
                [mkCombination CombinationAnd []
                   [mkRule FieldVirtualFolder OPERATOR_EQUALS ["Inner"]]]
                [Sample.titleRule; mkRule FieldVirtualFolder OPERATOR_EQUALS ["Outer"]]) in
  let folders := ["first.xsp"; "special://playlists/Inner.xsp";
                  "special://playlists/Outer.xsp"] in
  VirtualFolders.GetVirtualFolders (ext := Sample.externals) ∅ 1 p ["first.xsp"] =
    Done folders /\
  exists added : list string,
    folders = ["first.xsp"] ++ added /\ Forall (fun f => f <> "") added.
Proof.
  intros p folders.
  assert (H : VirtualFolders.GetVirtualFolders (ext := Sample.externals) ∅ 1 p ["first.xsp"] =
                Done folders) by (vm_compute; reflexivity).
  split; [exact H |].
  exact (GetVirtualFolders_appends (ext := Sample.externals) ∅ 1 p ["first.xsp"] folders H).
Defined.

Lemma GetVirtualFolders_self_reference_witness :
  let files : gmap string CSmartPlaylist := <[Sample.selfFile := Sample.selfP]> ∅ in
  let r := mkRule FieldPlaylist OPERATOR_EQUALS ["P"] in
  In r (m_rules (m_ruleCombination Sample.selfP)) /\
  files !! Sample.getPlaylistByName "P" "songs" = Some Sample.selfP /\
  Sample.getPlaylistByName "P" "songs" <> "" /\
  (forall f q, files !! f = Some q ->
               VirtualFolders.parametersPresent (m_ruleCombination q) = true) /\
  (forall (depth : nat) (virtualFolders folders : list string),
     VirtualFolders.GetVirtualFolders (ext := Sample.externals) files depth Sample.selfP
       virtualFolders <> Done folders) /\
  (forall (depth : nat) (virtualFolders : list string),
     VirtualFolders.GetVirtualFolders (ext := Sample.externals) files depth Sample.selfP
       virtualFolders = OutOfFuel).
Proof.
  intros files r.
  assert (Hin : In r (m_rules (m_ruleCombination Sample.selfP))) by (left; reflexivity).
  assert (Hload : files !! Sample.getPlaylistByName "P" "songs" = Some Sample.selfP)
    by (vm_compute; reflexivity).
  assert (Hfile : Sample.getPlaylistByName "P" "songs" <> "") by (vm_compute; discriminate).
  assert (Hall : forall f q, files !! f = Some q ->
                   VirtualFolders.parametersPresent (m_ruleCombination q) = true).
  { intros f q Hq. unfold files in Hq.
    apply lookup_insert_Some in Hq as [[_ <-] | [_ Hq]]; [reflexivity |].
    rewrite lookup_empty in Hq. discriminate Hq. }
  split; [exact Hin |]. split; [exact Hload |]. split; [exact Hfile |].
  split; [exact Hall |].
  pose (H := GetVirtualFolders_self_reference (ext := Sample.externals) files Sample.selfP r
               "P" [] Hin eq_refl eq_refl eq_refl Hload Hfile).
  split; [exact (proj1 H) | exact (proj2 H Hall)].
Defined.

(** ** The view of a video resolution rule *)

Section Resolution.
Context {ext : Externals}.



End Resolution.


(** ** Simple rules and combined rules *)

Section Partition.
Context {ext : Externals}.
Variable files : gmap string CSmartPlaylist.
Variable expand : CSmartPlaylist -> gset string -> Outcome (string * gset string).

Lemma rulesLoop_partition (t : combination) (strType : string)
    (rules : list CSmartPlaylistRule) :
  Forall (fun r => m_field r <> FieldPlaylist) rules ->
  forall (rule : string) (joined : list CSmartPlaylistRule) (refs : gset string),
    Combination.rulesLoop files expand t strType (rule, joined, refs) rules =
      Done (fold_left (Combination.CombineClause t)
              (map (fun r => Rule_GetWhereClause r strType)
                 (List.filter
                    (fun r => negb (Field_eqb (m_field r) FieldVirtualFolder) &&
                              Combination.IsFieldRuleSimple (m_field r) (FromString strType))
                    rules))
              rule,
            joined ++
            List.filter
              (fun r => negb (Field_eqb (m_field r) FieldVirtualFolder) &&
                        negb (Combination.IsFieldRuleSimple (m_field r) (FromString strType)))
              rules,
            refs).
Proof.
  induction 1 as [| r rules Hr Hrules IH]; intros rule joined refs.
  - cbn [Combination.rulesLoop List.filter map fold_left]. rewrite app_nil_r. reflexivity.
  - cbn [Combination.rulesLoop List.filter]. unfold Combination.ruleStep.
    destruct (Field_eqb (m_field r) FieldVirtualFolder) eqn:Hvf;
      cbn [negb andb mbind Outcome_bind map fold_left].
    + apply IH.
    + destruct (Field_eqb (m_field r) FieldPlaylist) eqn:Hp.
      { apply Field_eqb_eq in Hp. contradiction. }
      destruct (Combination.IsFieldRuleSimple (m_field r) (FromString strType));
        cbn [negb mbind Outcome_bind map fold_left].
      * apply IH.
      * change (Combination.CombineClause t rule "") with rule.
        rewrite IH. rewrite <- app_assoc. reflexivity.
Qed.

(** X23.  For rules that name no playlist, [GetWhereClause] of a
    combination is built in three steps, whatever the order of the rules:
    the clause of the child combinations; then, combined onto it in their
    order, the clauses of the rules whose field is simple for the type, each
    compiled on its own; then, when there are rules whose field is not
    simple, the combined clause [GetCombinedWhereClause] gives for them, in
    their order.  Virtual folder rules are in neither group and the
    referenced playlists are those the child combinations leave. *)
Theorem GetWhereClause_simple_then_combined (t : combination)
    (cs : list CSmartPlaylistRuleCombination) (rules : list CSmartPlaylistRule)
    (strType : string) (referencedPlaylists : gset string) :
  Forall (fun r => m_field r <> FieldPlaylist) rules ->
  let simple r :=
    negb (Field_eqb (m_field r) FieldVirtualFolder) &&
    Combination.IsFieldRuleSimple (m_field r) (FromString strType) in
  let combined r :=
    negb (Field_eqb (m_field r) FieldVirtualFolder) &&
    negb (Combination.IsFieldRuleSimple (m_field r) (FromString strType)) in
  Combination.GetWhereClause files expand (mkCombination t cs rules) strType
    referencedPlaylists =
    '(rule, referencedPlaylists) ←
      Combination.GetWhereClause files expand (mkCombination t cs []) strType
        referencedPlaylists;
    let rule :=
      fold_left (Combination.CombineClause t)
        (map (fun r => Rule_GetWhereClause r strType) (List.filter simple rules)) rule in
    match List.filter combined rules with
    | [] => Done (rule, referencedPlaylists)
    | joinedRules =>
        whereclause ←
          Combination.GetCombinedWhereClause (mkCombination t [] joinedRules) strType;
        Done (Combination.CombineClause t rule whereclause, referencedPlaylists)
    end.
Proof.
  intros Hrules simple combined.
  cbn [Combination.GetWhereClause].
  destruct (Combination.combinationsLoop _ t cs true "" referencedPlaylists)
    as [[rule refs] | |];
    cbn [mbind Outcome_bind Combination.rulesLoop]; [| reflexivity | reflexivity].
  rewrite rulesLoop_partition by assumption.
  cbn [mbind Outcome_bind app]. unfold Combination.joinedClause.
  fold simple. fold combined.
  destruct (List.filter combined rules); reflexivity.
Qed.

End Partition.

Lemma GetWhereClause_simple_then_combined_witness :
  let artist := mkRule FieldArtist OPERATOR_CONTAINS ["Bob"] in
  let rules := [artist; Sample.titleRule] in
  let expand : CSmartPlaylist -> gset string -> Outcome (string * gset string) :=
    fun _ _ => OutOfFuel in
  Forall (fun r => m_field r <> FieldPlaylist) rules /\
  Combination.GetWhereClause (ext := Sample.externals) ∅ expand
    (mkCombination CombinationAnd [] rules) "songs" ∅ =
    (whereclause ←
       Combination.GetCombinedWhereClause (ext := Sample.externals)
         (mkCombination CombinationAnd [] [artist]) "songs";
     Done ("(songview.strTitle LIKE '%love%') AND (" +:+ whereclause +:+ ")", ∅)).
Proof.
  intros artist rules expand.
  assert (Hr : Forall (fun r => m_field r <> FieldPlaylist) rules)
    by (repeat constructor; discriminate).
  split; [exact Hr |].
  rewrite (GetWhereClause_simple_then_combined (ext := Sample.externals) ∅ expand
             CombinationAnd [] rules "songs" ∅ Hr).
  vm_compute. reflexivity.
Defined.

(** ** Artist rules on songs *)

Section SongsArtists.
Context {ext : Externals}.

Lemma scanRules_without_artist (t : combination) (rules : list CSmartPlaylistRule) :
  forall s,
    Combination.scanRules t s
      (List.filter (fun r => negb (Field_eqb (m_field r) FieldArtist)) rules) =
    Combination.scanRules t s rules.
Proof.
  induction rules as [| r rules IH]; intros s; [reflexivity |].
  cbn [List.filter Combination.scanRules].
  destruct (Field_eqb (m_field r) FieldArtist) eqn:Ha; cbn [negb Combination.scanRules].
  - apply Field_eqb_eq in Ha. unfold Combination.scanStep. rewrite Ha.
    cbn [Field_eqb Field_tag Pos.eqb mbind Outcome_bind]. apply IH.
  - destruct (Combination.scanStep t s r); cbn [mbind Outcome_bind];
      [apply IH | reflexivity | reflexivity].
Qed.

Lemma GetRolesWhereClause_without_artist (t : combination)
    (cs cs' : list CSmartPlaylistRuleCombination) (rules : list CSmartPlaylistRule)
    (flags : Combination.RoleFlags) :
  Combination.GetRolesWhereClause
    (mkCombination t cs' (List.filter (fun r => negb (Field_eqb (m_field r) FieldArtist)) rules))
    flags =
  Combination.GetRolesWhereClause (mkCombination t cs rules) flags.
Proof.
  unfold Combination.GetRolesWhereClause. cbn [m_type m_rules].
  rewrite scanRules_without_artist. reflexivity.
Qed.

Lemma CombineClause_not_empty (t : combination) (original clause : string) :
  original <> "" \/ clause <> "" -> Combination.CombineClause t original clause <> "".
Proof.
  unfold Combination.CombineClause.
  destruct original as [| x o], clause as [| y c]; cbn [Str.empty negb];
    intros [H | H]; try congruence; try discriminate.
Qed.

Lemma songsStep_fold (t : combination) (rules : list CSmartPlaylistRule) :
  Combination.IsFieldNative FieldArtist MediaTypeAlbum "artist" = true ->
  forall a b c d e e' : string,
    exists a' b' c' d' e1 e2 : string,
      fold_left (Combination.songsStep t) rules (a, b, c, d, e) = (a', b', c', d', e1) /\
      fold_left (Combination.songsStep t)
        (List.filter (fun r => negb (Field_eqb (m_field r) FieldArtist)) rules)
        (a, b, c, d, e') = (a', b', c', d', e2) /\
      (d <> "" \/
       Exists (fun r => m_field r = FieldAlbumArtist /\
                        Combination.IsFieldNative FieldAlbumArtist MediaTypeAlbum "artist" = true /\
                        Str.Replace (Rule_GetWhereClause r "artist") "artistview" "artist" <> "")
         rules ->
       d' <> "").
Proof.
  intros Hnative. induction rules as [| r rules IH]; intros a b c d e e'.
  - exists a, b, c, d, e, e'. repeat split. intros [H | H]; [exact H | inversion H].
  - cbn [fold_left List.filter].
    destruct (Field_eqb (m_field r) FieldArtist) eqn:Ha; cbn [negb fold_left].
    + apply Field_eqb_eq in Ha. unfold Combination.songsStep at 2. rewrite Ha, Hnative.
      cbn [Field_eqb Field_tag Pos.eqb].
      destruct (IH a b c d (Combination.CombineClause t e
                  (Str.Replace (Rule_GetWhereClause r "artist") "artistview" "artist")) e')
        as (a' & b' & c' & d' & e1 & e2 & H1 & H2 & H3).
      exists a', b', c', d', e1, e2. repeat split; try assumption.
      intros [H | H]; apply H3; [left; exact H |].
      inversion H as [? ? [Hf _] | ? ? Hex]; subst; [congruence | right; exact Hex].
    + assert (Hstep : exists a1 b1 c1 d1,
        (forall e0, exists e3, Combination.songsStep t (a, b, c, d, e0) r = (a1, b1, c1, d1, e3)) /\
        (d <> "" \/
         (m_field r = FieldAlbumArtist /\
          Combination.IsFieldNative FieldAlbumArtist MediaTypeAlbum "artist" = true /\
          Str.Replace (Rule_GetWhereClause r "artist") "artistview" "artist" <> "") ->
         d1 <> "")).
      { unfold Combination.songsStep. rewrite Ha.
        destruct (Combination.IsFieldNative (m_field r) MediaTypeAlbum "artist") eqn:Hn1.
        - destruct (Field_eqb (m_field r) FieldAlbumArtist) eqn:Haa.
          + eexists a, b, c, _. split; [intros e0; eexists; reflexivity |].
            intros [H | (_ & _ & H)]; apply CombineClause_not_empty; auto.
          + eexists a, b, _, d. split; [intros e0; eexists; reflexivity |].
            intros [H | (Hf & _ & _)]; [exact H |].
            rewrite Hf in Haa. discriminate Haa.
        - assert (Hd : d <> "" \/
            (m_field r = FieldAlbumArtist /\
             Combination.IsFieldNative FieldAlbumArtist MediaTypeAlbum "artist" = true /\
             Str.Replace (Rule_GetWhereClause r "artist") "artistview" "artist" <> "") ->
            d <> "").
          { intros [H | (Hf & Hn & _)]; [exact H |]. rewrite Hf in Hn1. congruence. }
          destruct (Combination.IsFieldNative (m_field r) MediaTypeArtist "album").
          + eexists _, b, c, d. split; [intros e0; eexists; reflexivity | exact Hd].
          + destruct (Field_eqb (m_field r) FieldSource).
            * eexists a, _, c, d. split; [intros e0; eexists; reflexivity | exact Hd].
            * exists a, b, c, d. split; [intros e0; eexists; reflexivity | exact Hd]. }
      destruct Hstep as (a1 & b1 & c1 & d1 & Hstep & Hd1).
      destruct (Hstep e) as [e3 ->]. destruct (Hstep e') as [e4 ->].
      destruct (IH a1 b1 c1 d1 e3 e4) as (a' & b' & c' & d' & e1 & e2 & H1 & H2 & H3).
      exists a', b', c', d', e1, e2. repeat split; try assumption.
      intros [H | H]; apply H3.
      * left. apply Hd1. left. exact H.
      * inversion H as [? ? Hr | ? ? Hex]; subst; [left; apply Hd1; right; exact Hr |
                                                    right; exact Hex].
Qed.

Lemma songsClause_albumartist (c c' : CSmartPlaylistRuleCombination) (roleClause : string)
    (flags : Combination.RoleFlags) (a b s d e e' : string) :
  m_type c' = m_type c ->
  fold_left (Combination.songsStep (m_type c)) (m_rules c) ("", "", "", "", "") =
    (a, b, s, d, e) ->
  fold_left (Combination.songsStep (m_type c)) (m_rules c') ("", "", "", "", "") =
    (a, b, s, d, e') ->
  d <> "" ->
  Combination.songsClause c' roleClause flags = Combination.songsClause c roleClause flags.
Proof.
  intros Ht Hc Hc' Hd. unfold Combination.songsClause.
  rewrite Ht, Hc, Hc'. destruct flags as [bAlbumArtists bSongArtists bJoinRole bRoleRules].
  destruct d as [| x d]; [congruence |].
  unfold Combination.artistClauses, Combination.songArtistStart, Combination.songartistClause.
  cbn [Str.empty negb andb orb].
  rewrite !orb_true_r.
  destruct e as [| y e], e' as [| y' e']; cbn [Str.empty negb andb orb];
    change (Combination.CombineClause (m_type c)
              (Combination.CombineClause (m_type c) s (String x d)) "")
      with (Combination.CombineClause (m_type c) s (String x d));
    destruct bRoleRules; cbn [andb orb negb]; rewrite ?orb_true_r, ?andb_false_r;
    reflexivity.
Qed.

(** X24.  In [GetSongsWhereClause], a rule of the album artist field that
    gives a clause makes the clause one on album artists only: the rules of
    the artist field then contribute nothing, and the clause is the one the
    combination gives without them.  (The artist fields being native to the
    artist table.) *)
Theorem GetSongsWhereClause_albumartist_overrides_artist (c : CSmartPlaylistRuleCombination) :
  Combination.IsFieldNative FieldArtist MediaTypeAlbum "artist" = true ->
  Exists (fun r => m_field r = FieldAlbumArtist /\
                   Combination.IsFieldNative FieldAlbumArtist MediaTypeAlbum "artist" = true /\
                   Str.Replace (Rule_GetWhereClause r "artist") "artistview" "artist" <> "")
    (m_rules c) ->
  Combination.GetSongsWhereClause
    (mkCombination (m_type c) (m_combinations c)
       (List.filter (fun r => negb (Field_eqb (m_field r) FieldArtist)) (m_rules c))) =
  Combination.GetSongsWhereClause c.
Proof.
  intros Hnative Hex. unfold Combination.GetSongsWhereClause.
  destruct c as [t cs rules]. cbn [m_type m_combinations m_rules] in *.
  rewrite (GetRolesWhereClause_without_artist t cs cs rules).
  destruct (Combination.GetRolesWhereClause (mkCombination t cs rules) _)
    as [[roleClause flags] | |]; cbn [mbind Outcome_bind]; [| reflexivity | reflexivity].
  f_equal.
  destruct (songsStep_fold t rules Hnative "" "" "" "" "" "")
    as (a & b & s & d & e1 & e2 & H1 & H2 & Hd).
  apply (songsClause_albumartist (mkCombination t cs rules) _ roleClause flags a b s d e1 e2);
    [reflexivity | exact H1 | exact H2 | apply Hd; right; exact Hex].
Qed.

End SongsArtists.

Lemma GetSongsWhereClause_albumartist_overrides_artist_witness :
  let artist := mkRule FieldArtist OPERATOR_CONTAINS ["Bob"] in
  let albumartist := mkRule FieldAlbumArtist OPERATOR_CONTAINS ["Ann"] in
  let c := mkCombination CombinationAnd [] [artist; albumartist] in
  Combination.IsFieldNative (ext := Sample.externals) FieldArtist "album" "artist" = true /\
  Exists (fun r => m_field r = FieldAlbumArtist /\
                   Combination.IsFieldNative (ext := Sample.externals)
                     FieldAlbumArtist "album" "artist" = true /\
                   Str.Replace (Sample.ruleGetWhereClause r "artist") "artistview" "artist"
                     <> "")
    (m_rules c) /\
  Combination.GetSongsWhereClause (ext := Sample.externals)
    (mkCombination CombinationAnd [] [albumartist]) =
  Combination.GetSongsWhereClause (ext := Sample.externals) c /\
  Combination.GetSongsWhereClause (ext := Sample.externals) c =
    Done "EXISTS (SELECT 1 FROM album_artist JOIN artist ON artist.idArtist = album_artist.idArtist WHERE album_artist.idAlbum = songview.idAlbum AND ((artist.strArtist LIKE '%Ann%')))".
Proof.
  intros artist albumartist c.
  assert (Hn : Combination.IsFieldNative (ext := Sample.externals)
                 FieldArtist "album" "artist" = true) by reflexivity.
  assert (Hex : Exists (fun r => m_field r = FieldAlbumArtist /\
                   Combination.IsFieldNative (ext := Sample.externals)
                     FieldAlbumArtist "album" "artist" = true /\
                   Str.Replace (Sample.ruleGetWhereClause r "artist") "artistview" "artist"
                     <> "") (m_rules c)).
  { apply Exists_cons_tl, Exists_cons_hd. split; [reflexivity |]. split; [reflexivity |].
    vm_compute. discriminate. }
  split; [exact Hn |]. split; [exact Hex |]. split.
  - exact (GetSongsWhereClause_albumartist_overrides_artist (ext := Sample.externals) c Hn Hex).
  - vm_compute. reflexivity.
Defined.

(** ** Where [FormatParameters] leaves the base class *)

Section Parameters.
Context {ext : Externals}.

Lemma gatherParameters_no_parameter (r : CSmartPlaylistRule) (negate oper : string)
    (q : ExistsSubQuery.t) :
  m_parameter r = [] -> Rule.gatherParameters r negate oper q = "".
Proof.
  intros Hp. unfold Rule.gatherParameters. rewrite Hp. cbn [fold_left Str.empty negb].
  rewrite andb_false_r. reflexivity.
Qed.

(** X25.  [FormatParameters] differs from [CDatabaseQueryRule::FormatParameters]
    only for a genre rule on "songs" or a source rule on "albums", and only
    when the rule has a parameter: for every other type or field, and for a
    rule without parameters, it is the base class's result. *)
Theorem FormatParameters_overrides_base (r : CSmartPlaylistRule)
    (negate oper strType : string) :
  Rule.FormatParameters r negate oper strType <> Base_FormatParameters r negate oper strType ->
  ((strType = "songs" /\ m_field r = FieldGenre) \/
   (strType = "albums" /\ m_field r = FieldSource)) /\
  m_parameter r <> [].
Proof.
  unfold Rule.FormatParameters.
  destruct (String.eqb_spec strType "songs") as [-> | Hs].
  - destruct (Field_eqb (m_field r) FieldGenre) eqn:Hf; [| cbn [Str.empty]; congruence].
    apply Field_eqb_eq in Hf. intros H. split; [left; split; [reflexivity | exact Hf] |].
    intros Hp. rewrite gatherParameters_no_parameter in H by exact Hp.
    cbn [Str.empty] in H. congruence.
  - destruct (String.eqb_spec strType "albums") as [-> | Ha]; [| cbn [Str.empty]; congruence].
    destruct (Field_eqb (m_field r) FieldSource) eqn:Hf; [| cbn [Str.empty]; congruence].
    apply Field_eqb_eq in Hf. intros H. split; [right; split; [reflexivity | exact Hf] |].
    intros Hp. rewrite gatherParameters_no_parameter in H by exact Hp.
    cbn [Str.empty] in H. congruence.
Qed.

End Parameters.

Lemma FormatParameters_overrides_base_witness :
  let r := mkRule FieldGenre OPERATOR_EQUALS ["Rock"] in
  Rule.FormatParameters (ext := Sample.externals) r "" " LIKE '%s'" "songs" <>
    Sample.baseFormatParameters r "" " LIKE '%s'" "songs" /\
  (("songs" = "songs" /\ m_field r = FieldGenre) \/
   ("songs" = "albums" /\ m_field r = FieldSource)) /\
  m_parameter r <> [].
Proof.
  intros r.
  assert (H : Rule.FormatParameters (ext := Sample.externals) r "" " LIKE '%s'" "songs" <>
                Sample.baseFormatParameters r "" " LIKE '%s'" "songs")
    by (vm_compute; discriminate).
  split; [exact H |].
  exact (FormatParameters_overrides_base (ext := Sample.externals) r "" " LIKE '%s'" "songs" H).
Defined.
